(** * K-fold relation-extraction scripts: metric engine, k-fold trainer,
      ensemble inference

    A shallow embedding of [train_kfold_basic.py], [train.py] and
    [inference_kfold.py].  Python floats are idealised as exact numbers:
    rationals ([Q]) for losses and scores, and an abstract scalar type for
    tensor entries, instantiated with the reals where the soft-max is
    analysed.  Exceptions are values of [py_error], carried by the error
    monad [result]. *)

From Stdlib Require Import ZArith QArith Qminmax Reals Lia Lra Lqa.
From Stdlib Require Import DecimalString DecimalPos DecimalZ.
From stdpp Require Import gmap strings list.

Open Scope Z_scope.

(** ** Python exceptions and the error monad *)

Inductive py_error : Type :=
  | KeyError (key : string)
  | UnboundLocalError (var : string)
  | IndexError
  | ValueError
  | TypeError
  | ZeroDivisionError
  | RuntimeError
  | FileNotFoundError (path : list string)
  | OSError (path : list string).

Inductive result (A : Type) : Type :=
  | Ok (a : A)
  | Raise (e : py_error).
Arguments Ok {A} a.
Arguments Raise {A} e.

#[global] Instance result_ret : MRet result := fun _ a => Ok a.
#[global] Instance result_bind : MBind result := fun _ _ k m =>
  match m with
  | Ok a => k a
  | Raise e => Raise e
  end.

(** A [for] loop over a list whose body may raise. *)
Fixpoint for_each {A S} (body : S -> A -> result S) (xs : list A) (s : S)
  : result S :=
  match xs with
  | [] => Ok s
  | x :: xs' => s' ← body s x; for_each body xs' s'
  end.

(** [str(n)] for a Python [int]. *)
Definition str_of_int (n : Z) : string := NilZero.string_of_int (Z.to_int n).

(** ** Metric engine *)

Module Metric.

(** [label_list] of [klue_re_micro_f1]. *)
Definition label_list : list string :=
  [ "no_relation"; "org:top_members/employees"; "org:members";
    "org:product"; "per:title"; "org:alternate_names";
    "per:employee_of"; "org:place_of_headquarters"; "per:product";
    "org:number_of_employees/members"; "per:children";
    "per:place_of_residence"; "per:alternate_names";
    "per:other_family"; "per:colleagues"; "per:origin"; "per:siblings";
    "per:spouse"; "org:founded"; "org:political/religious_affiliation";
    "org:member_of"; "per:parents"; "org:dissolved";
    "per:schools_attended"; "per:date_of_death"; "per:date_of_birth";
    "per:place_of_birth"; "per:place_of_death"; "org:founded_by";
    "per:religion" ]%string.

(** [list.index(x)]: position of the first occurrence, [ValueError] when
    absent. *)
Fixpoint list_index (x : string) (l : list string) : result Z :=
  match l with
  | [] => Raise ValueError
  | y :: l' => if decide (x = y) then Ok 0
               else i ← list_index x l'; Ok (i + 1)
  end.

(** [list(range(n))]. *)
Definition range (n : nat) : list Z := map Z.of_nat (seq 0 n).

(** [list.remove(x)]: drops the first occurrence, [ValueError] when absent. *)
Fixpoint list_remove (x : Z) (l : list Z) : result (list Z) :=
  match l with
  | [] => Raise ValueError
  | y :: l' => if decide (x = y) then Ok l'
               else r ← list_remove x l'; Ok (y :: r)
  end.

(** Number of positions at which [P] holds. *)
Fixpoint count {A} (P : A -> bool) (l : list A) : Z :=
  match l with
  | [] => 0
  | a :: l' => (if P a then 1 else 0) + count P l'
  end.

(** The per-class counts scikit-learn's [multilabel_confusion_matrix]
    hands to [precision_recall_fscore_support]: for class [c], the number
    of samples that are [c] in both vectors, the number predicted [c] and
    the number labelled [c]. *)
Definition tp_sum (c : Z) (y_true y_pred : list Z) : Z :=
  count (fun '(t, p) => (t =? c) && (p =? c)) (combine y_true y_pred).
Definition pred_sum (c : Z) (y_pred : list Z) : Z := count (Z.eqb c) y_pred.
Definition true_sum (c : Z) (y_true : list Z) : Z := count (Z.eqb c) y_true.

Definition sum_over (f : Z -> Z) (cs : list Z) : Z :=
  fold_right (fun c acc => f c + acc) 0 cs.

(** scikit-learn's [_prf_divide] with the default [zero_division]: a zero
    denominator yields [0]. *)
Definition prf_divide (num den : Z) : Q :=
  if den =? 0 then 0%Q else (inject_Z num / inject_Z den)%Q.

(** [sklearn.metrics.f1_score(y_true, y_pred, average="micro",
    labels=labels)]: the counts of the listed classes are summed, then
    precision, recall and their harmonic mean are taken once. *)
Definition f1_score_micro (y_true y_pred : list Z) (labels : list Z)
  : result Q :=
  if negb (length y_true =? length y_pred)%nat then Raise ValueError else
  let tp := sum_over (fun c => tp_sum c y_true y_pred) labels in
  let pred := sum_over (fun c => pred_sum c y_pred) labels in
  let true := sum_over (fun c => true_sum c y_true) labels in
  let precision := prf_divide tp pred in
  let recall := prf_divide tp true in
  let denom := (precision + recall)%Q in
  let denom := if Qeq_bool denom 0 then 1%Q else denom in
  Ok ((1 + 1) * precision * recall / denom)%Q.

(** [klue_re_micro_f1(preds, labels)], identical in [train.py] and
    [train_kfold_basic.py]. *)
Definition klue_re_micro_f1 (preds labels : list Z) : result Q :=
  no_relation_label_idx ← list_index "no_relation" label_list;
  label_indices ← list_remove no_relation_label_idx
                    (range (length label_list));
  f1 ← f1_score_micro labels preds label_indices;
  Ok (f1 * 100)%Q.

(** The 29 relation classes, as the two list operations leave them. *)
Definition relation_classes : list Z :=
  [1;2;3;4;5;6;7;8;9;10;11;12;13;14;15;16;17;18;19;20;21;22;23;24;25;26;27;28;29].

(** *** The spec's wording: pooled micro-F1

    True positives, false positives and false negatives of each relation
    class, pooled over the classes before precision, recall and F1 are
    formed.  An example is a pair (prediction, gold label). *)
Definition class_tp (c : Z) (ex : list (Z * Z)) : Z :=
  count (fun '(p, l) => (p =? c) && (l =? c)) ex.
Definition class_fp (c : Z) (ex : list (Z * Z)) : Z :=
  count (fun '(p, l) => (p =? c) && negb (l =? c)) ex.
Definition class_fn (c : Z) (ex : list (Z * Z)) : Z :=
  count (fun '(p, l) => (l =? c) && negb (p =? c)) ex.

Definition pooled (f : Z -> list (Z * Z) -> Z) (ex : list (Z * Z)) : Z :=
  sum_over (fun c => f c ex) relation_classes.

(** F1 from pooled counts; an undefined ratio counts as [0]. *)
Definition ratio (num den : Z) : Q :=
  if den =? 0 then 0%Q else (inject_Z num / inject_Z den)%Q.
Definition micro_f1 (tp fp fn : Z) : Q :=
  let p := ratio tp (tp + fp) in
  let r := ratio tp (tp + fn) in
  if Qeq_bool (p + r) 0 then 0%Q else (2 * p * r / (p + r))%Q.

End Metric.

(** ** Files, JSON values and batching *)

(** A path is the list of its components; [os.path.join] appends. *)
Abbreviation path := (list string).

Inductive json : Type :=
  | JStr (s : string)
  | JInt (n : Z)
  | JFloat (q : Q)
  | JBool (b : bool)
  | JNull.

(** Python truthiness of a JSON value, as [if v:] tests it. *)
Definition truthy (v : json) : bool :=
  match v with
  | JStr s => negb (String.eqb s "")
  | JInt n => negb (n =? 0)
  | JFloat q => negb (Qeq_bool q 0)
  | JBool b => b
  | JNull => false
  end.

(** What a path of the output tree holds: a text file, a JSON object
    written by [json.dump], a directory written by
    [model.save_pretrained], a pickled model ([model.bin]), the files of
    [tokenizer.save_pretrained], or a plain directory. *)
Inductive file (W : Type) : Type :=
  | TextFile (content : string)
  | JsonFile (obj : gmap string json)
  | ModelDir (w : W)
  | ModelBin (w : W)
  | TokenizerFiles
  | Directory.
Arguments TextFile {W} content.
Arguments JsonFile {W} obj.
Arguments ModelDir {W} w.
Arguments ModelBin {W} w.
Arguments TokenizerFiles {W}.
Arguments Directory {W}.

(** [d[key]] on a Python dict. *)
Definition dict_get {V} (d : gmap string V) (key : string) : result V :=
  match d !! key with
  | Some v => Ok v
  | None => Raise (KeyError key)
  end.

(** Consecutive batches of [S n] elements, the last one possibly shorter.
    The fuel is the number of elements, which is never exhausted. *)
Fixpoint chunks_fuel {A} (fuel n : nat) (l : list A) : list (list A) :=
  match fuel, l with
  | S fuel', x :: l' => (x :: take n l') :: chunks_fuel fuel' n (drop n l')
  | _, _ => []
  end.
Definition chunks {A} (n : nat) (l : list A) : list (list A) :=
  chunks_fuel (length l) n l.

(** The batches of [S n] elements a loader yields from a list;
    [drop_last] drops an incomplete last batch. *)
Definition batches_of {A} (n : nat) (drop_last : bool) (l : list A)
  : list (list A) :=
  let batches := chunks n l in
  if drop_last then filter (fun b => length b = S n) batches else batches.

(** The batches one pass over an unshuffled [DataLoader(dataset,
    batch_size=batch_size, drop_last=drop_last)] yields; a batch size
    that is not positive is refused with [ValueError]. *)
Definition DataLoader {A} (dataset : list A) (batch_size : Z)
    (drop_last : bool) : result (list (list A)) :=
  match Z.to_nat batch_size with
  | O => Raise ValueError
  | S n => Ok (batches_of n drop_last dataset)
  end.

(** ** Tensors *)

(** Scalar operations of a tensor library: zero, addition, division by an
    integer, and [F.softmax] along the last axis. *)
Class TensorOps (T : Type) : Type := {
  tzero : T;
  tadd : T -> T -> T;
  tdiv : T -> Z -> T;
  softmax_row : list T -> list T
}.

(** [argmax(-1)]: the index of the first largest entry of a row. *)
Class ArgMax (T : Type) : Type := {
  argmax_row : list T -> Z
}.

Section Tensor.
Context {T : Type} {ops : TensorOps T}.

(** A two-dimensional tensor is the list of its rows, [list (list T)]. *)
Definition shape (t : list (list T)) : nat * nat := (length t, length (hd [] t)).

(** [torch.zeros([r, c])]. *)
Definition zeros (r c : nat) : list (list T) := replicate r (replicate c tzero).

(** Broadcasting one axis of the right operand to size [n]: an axis of
    size [n] is kept, an axis of size 1 is repeated. *)
Definition broadcast {A} (n : nat) (d : A) (l : list A) : list A :=
  if (length l =? n)%nat then l else replicate n (hd d l).

Definition broadcastable (n m : nat) : bool := (m =? n)%nat || (m =? 1)%nat.

(** [a += b] on tensors, with PyTorch's in-place broadcasting rule: each
    axis of [b] has the size of the same axis of [a] or size 1, and [a]
    keeps its shape; anything else is a [RuntimeError]. *)
Definition iadd (a b : list (list T)) : result (list (list T)) :=
  let '(ra, ca) := shape a in
  let '(rb, cb) := shape b in
  if broadcastable ra rb && broadcastable ca cb then
    Ok (zip_with (fun row_a row_b =>
                    zip_with tadd row_a (broadcast (length row_a) tzero row_b))
          a (broadcast (length a) [] b))
  else Raise RuntimeError.

(** [torch.cat(ts, dim=0)]: an empty list of tensors is refused. *)
Definition torch_cat (ts : list (list (list T))) : result (list (list T)) :=
  match ts with
  | [] => Raise RuntimeError
  | _ => Ok (concat ts)
  end.

Definition tensor_div (t : list (list T)) (k : Z) : list (list T) :=
  map (map (fun x => tdiv x k)) t.

End Tensor.

(** ** The network *)

(** The pretrained-model library, as far as the scripts see it: weights,
    tokenized examples, and the logits a network computes for one example
    of a collated batch (padding makes them depend on the batch; the flag
    tells whether [token_type_ids] are passed). *)
Class Network (T : Type) : Type := {
  weights : Type;
  example : Type;
  logits_of : weights -> bool -> list example -> example -> list T
}.

(** One forward pass over a batch: row [j] of the logits belongs to
    example [j] of the batch. *)
Definition forward {T} {net : Network T} (model : weights) (with_token_type_ids : bool)
    (batch : list example) : list (list T) :=
  map (logits_of model with_token_type_ids batch) batch.

(** ** Ensemble inference ([inference_kfold.py]) *)

Module Inference.
Section Inference.
Context {T : Type} {ops : TensorOps T} {am : ArgMax T} {net : Network T}.

(** ['xlm' in model_type]; only a string can be searched. *)
Definition xlm_in (s : string) : bool :=
  match String.index 0 "xlm" s with Some _ => true | None => false end.
Definition contains_xlm (model_type : json) : result bool :=
  match model_type with
  | JStr s => Ok (xlm_in s)
  | _ => Raise TypeError
  end.

(** [inference(model, tokenized_sent, device, tokenizer, model_type,
    batch_size)] *)
Definition inference (model : weights) (tokenized_sent : list example)
    (model_type : json) (batch_size : Z) : result (list (list T)) :=
  dataloader ← DataLoader tokenized_sent batch_size false;
  output_prob ← for_each
    (fun output_prob data =>
       xlm ← contains_xlm model_type;
       let logits := forward model (negb xlm) data in
       Ok (output_prob ++ [logits]))
    dataloader [];
  torch_cat output_prob.

(** [num_to_label(label)], over the pickled table [dict_num_to_label]. *)
Definition num_to_label (dict_num_to_label : gmap Z string) (label : list Z)
  : result (list string) :=
  for_each (fun origin_label v =>
              match dict_num_to_label !! v with
              | Some l => Ok (origin_label ++ [l])
              | None => Raise (KeyError (str_of_int v))
              end)
    label [].

(** The values [main] reads from [model_config_parameters.json]. *)
Record run_config : Type := {
  token_type : json;
  sep_type : json;
  kfold_splits : json;
  model_case : json;
  use_lstm : json;
  model_type : json
}.

(** Lines 81-84 of [main]: open and parse the file, then index the six
    keys in source order. *)
Definition load_run_config (fs : gmap path (file weights)) (MODEL_NAME : path)
  : result run_config :=
  let p := MODEL_NAME ++ ["model_config_parameters.json"%string] in
  mcp ← match fs !! p with
        | Some (JsonFile obj) => Ok obj
        | Some _ => Raise ValueError
        | None => Raise (FileNotFoundError p)
        end;
  token_type ← dict_get mcp "token_type"%string;
  sep_type ← dict_get mcp "sep_type"%string;
  kfold_splits ← dict_get mcp "kfold_splits"%string;
  model_case ← dict_get mcp "model_case"%string;
  use_lstm ← dict_get mcp "use_lstm"%string;
  model_type ← dict_get mcp "model"%string;
  Ok {| token_type := token_type; sep_type := sep_type;
        kfold_splits := kfold_splits; model_case := model_case;
        use_lstm := use_lstm; model_type := model_type |}.

Definition is_str (v : json) (s : string) : bool :=
  match v with
  | JStr s' => String.eqb s' s
  | _ => false
  end.

(** [range(n)] for a JSON number; JSON [true]/[false] are Python [bool]s,
    which [range] accepts as 1 and 0. *)
Definition py_int (v : json) : result Z :=
  match v with
  | JInt n => Ok n
  | JBool b => Ok (if b then 1 else 0)
  | _ => Raise TypeError
  end.
Definition py_range (n : Z) : list Z := map Z.of_nat (seq 0 (Z.to_nat n)).

(** The hard-coded shape of the accumulator, [torch.zeros([7765, 30])]. *)
Definition ACC_ROWS : nat := Z.to_nat 7765.
Definition ACC_COLS : nat := 30.

(** Lines 104-113: the checkpoint of one fold.  [torch.load] of a file
    that is not there raises [FileNotFoundError], [from_pretrained] of a
    directory that is not there raises [OSError]. *)
Definition load_model (fs : gmap path (file weights)) (model_dir : path)
    (select_model : string) (cfg : run_config) (kfold_idx : Z)
  : result weights :=
  let model_path := model_dir ++ [str_of_int kfold_idx] ++ [select_model] in
  if truthy (use_lstm cfg) then
    match fs !! (model_path ++ ["model.bin"%string]) with
    | Some (ModelBin w) => Ok w
    | Some _ => Raise RuntimeError
    | None => Raise (FileNotFoundError (model_path ++ ["model.bin"%string]))
    end
  else if is_str (model_case cfg) "automodel" || is_str (model_case cfg) "electra" then
    match fs !! model_path with
    | Some (ModelDir w) => Ok w
    | Some _ => Raise ValueError
    | None => Raise (OSError model_path)
    end
  else Raise (UnboundLocalError "model").

(** Lines 102-117: the accumulator and the loop over the folds. *)
Definition accumulate (fs : gmap path (file weights)) (model_dir : path)
    (select_model : string) (cfg : run_config) (batch_size : Z)
    (Re_test_dataset : list example) (folds : list Z)
  : result (list (list T)) :=
  for_each
    (fun probs kfold_idx =>
       model ← load_model fs model_dir select_model cfg kfold_idx;
       prob_answer ← inference model Re_test_dataset (model_type cfg) batch_size;
       iadd probs prob_answer)
    folds (zeros ACC_ROWS ACC_COLS).

(** A row of the output table. *)
Record prediction : Type := {
  pred_id : Z;
  pred_label : string;
  pred_probs : list T
}.

(** [pd.DataFrame({'id': ..., 'pred_label': ..., 'probs': ...})]: columns
    of unequal length are refused. *)
Definition DataFrame (ids : list Z) (labels : list string) (probs : list (list T))
  : result (list prediction) :=
  if (length labels =? length ids)%nat && (length probs =? length ids)%nat
  then Ok (zip_with (fun '(i, l) p => {| pred_id := i; pred_label := l; pred_probs := p |})
             (zip ids labels) probs)
  else Raise ValueError.

Inductive tokenizer_kind : Type := AutoTokenizer | ElectraTokenizer.

Record args : Type := {
  model_dir : path;
  submission_name : string;
  batch_size : Z;
  select_model : string
}.

(** What a run finds outside the script: the output tree of training,
    the test set as [load_test_dataset] reads and tokenizes it (ids paired
    with examples), the index drawn by [np.random.randint(0, 100)], and
    the pickled label table. *)
Record environment : Type := {
  env_fs : gmap path (file weights);
  load_test_dataset : tokenizer_kind -> json -> json -> list (Z * example);
  data_idx : Z;
  dict_num_to_label : gmap Z string
}.

(** Lines 94-131 of [main], after the configuration and the tokenizer. *)
Definition predict (a : args) (env : environment) (cfg : run_config)
    (tokenizer : tokenizer_kind) : result (list prediction) :=
  let test := load_test_dataset env tokenizer (token_type cfg) (sep_type cfg) in
  let test_id := map fst test in
  let Re_test_dataset := map snd test in
  _ ← (if (0 <=? data_idx env) && (data_idx env <? Z.of_nat (length Re_test_dataset))
       then Ok () else Raise IndexError);
  k ← py_int (kfold_splits cfg);
  probs ← accumulate (env_fs env) (model_dir a) (select_model a) cfg
            (batch_size a) Re_test_dataset (py_range k);
  let probs := tensor_div probs k in
  let probs := map softmax_row probs in
  let preds := map argmax_row probs in
  pred_answer ← num_to_label (dict_num_to_label env) preds;
  DataFrame test_id pred_answer probs.

(** [main(args)]; the returned table is what [to_csv] writes. *)
Definition main (a : args) (env : environment) : result (list prediction) :=
  let MODEL_NAME := model_dir a in
  cfg ← load_run_config (env_fs env) MODEL_NAME;
  tokenizer ← (if is_str (model_case cfg) "automodel" then Ok AutoTokenizer
               else if is_str (model_case cfg) "electra" then Ok ElectraTokenizer
               else Raise (UnboundLocalError "tokenizer"));
  predict a env cfg tokenizer.

(** *** Vocabulary of the statements *)

(** The batch in which the unshuffled loader delivers example [i]. *)
Definition batch_of (batch_size : Z) (dataset : list example) (i : nat)
  : list example :=
  let n := Z.to_nat batch_size in take n (drop (i / n * n) dataset).

Definition passes_token_type_ids (model_type : json) : bool :=
  match model_type with
  | JStr s => negb (xlm_in s)
  | _ => true
  end.

(** The logits a fold's network computes for example [x], the [i]-th of
    the test set. *)
Definition example_logits (cfg : run_config) (batch_size : Z)
    (dataset : list example) (i : nat) (x : example) (model : weights) : list T :=
  logits_of model (passes_token_type_ids (model_type cfg))
    (batch_of batch_size dataset i) x.

(** One row of the accumulator after the folds whose logits for that row
    are [rows], and the probability vector [predict] derives from it. *)
Definition summed_logits (rows : list (list T)) : list T :=
  fold_left (zip_with tadd) rows (replicate ACC_COLS tzero).
Definition ensemble_probs (k : Z) (rows : list (list T)) : list T :=
  softmax_row (map (fun v => tdiv v k) (summed_logits rows)).

End Inference.
End Inference.

(** ** The training framework *)

(** What [train] uses of PyTorch, the optimizers, the schedulers and
    scikit-learn's reports: the global random state, the optimizer and
    scheduler objects, one optimization step, the loss criteria and the
    two report functions. *)
Class Framework (T : Type) {net : Network T} : Type := {
  rng_state : Type;
  optimizer_state : Type;
  scheduler_state : Type;
  (** [batch['labels']] of one example *)
  label_of : example -> Z;
  (** [seed_everything(seed)] *)
  manual_seed : Z -> rng_state;
  (** the permutation a shuffling [DataLoader] draws for one pass *)
  randperm : rng_state -> nat -> (nat -> nat) * rng_state;
  (** [AutoModelForSequenceClassification.from_pretrained(MODEL_NAME,
      config)] with the dropout of the configuration, then
      [resize_token_embeddings] for the token-type scheme *)
  from_pretrained : string -> Q -> string -> rng_state -> weights * rng_state;
  AdamW : weights -> Q -> optimizer_state;
  AdamP : weights -> Q -> optimizer_state;
  ReduceLROnPlateau : optimizer_state -> scheduler_state;
  StepLR : optimizer_state -> scheduler_state;
  (** [scheduler.step(metric)] and [scheduler.step()] *)
  plateau_step : scheduler_state -> optimizer_state -> Q
                 -> scheduler_state * optimizer_state;
  steplr_step : scheduler_state -> optimizer_state
                -> scheduler_state * optimizer_state;
  (** [create_criterion(name)(pred, labels)] *)
  create_criterion : string -> list (list T) -> list Z -> Q;
  (** forward pass in training mode, loss, [backward()], [optim.step()] *)
  optim_step : string -> weights -> optimizer_state -> list example -> rng_state
               -> weights * optimizer_state * rng_state;
  confusion_matrix : list Z -> list Z -> list (list Z);
  classification_report : list Z -> list Z -> string
}.

(** ** K-fold training ([train_kfold_basic.py]) *)

Module Train.

(** *** Text of the report *)

Definition nl : string := String (Ascii.ascii_of_nat 10) EmptyString.

Fixpoint string_rep (s : string) (n : nat) : string :=
  match n with
  | O => EmptyString
  | S n' => String.append s (string_rep s n')
  end.

(** ["%4d" % n] and ["%-3d| " % n] *)
Definition fmt_4d (n : Z) : string :=
  let d := str_of_int n in
  String.append (string_rep " " (4 - String.length d)) d.
Definition fmt_3d_bar (n : Z) : string :=
  let d := str_of_int n in
  String.append d (String.append (string_rep " " (3 - String.length d)) "| ").

Definition concat_strings (l : list string) : string :=
  fold_right String.append EmptyString l.

(** [str_cf(cf)] *)
Definition str_cf (cf : list (list Z)) : string :=
  let result := "     "%string in
  let result := String.append result
                  (concat_strings (map fmt_4d (Metric.range 30))) in
  let result := String.append result (String.append nl "    ") in
  let result := String.append result (String.append (string_rep "----" 30) nl) in
  String.append result
    (concat_strings
       (imap (fun idx i =>
                String.append (fmt_3d_bar (Z.of_nat idx))
                  (String.append (concat_strings (map fmt_4d i)) nl))
          cf)).

(** The four writes of lines 331-334. *)
Definition report_entry (total_idx : Z) (cf cr : string) : string :=
  concat_strings
    [ String.append (string_rep "#" 10)
        (String.append (String.append "  " (String.append (str_of_int total_idx) "  "))
           (String.append (string_rep "#" 100) nl));
      cf; cr; nl ].

(** *** Files *)

Section Files.
Context {W : Type}.

(** [open(p, 'w')] followed by [close()]: the file is there and empty. *)
Definition truncate_file (p : path) (fs : gmap path (file W)) : gmap path (file W) :=
  <[p := TextFile ""]> fs.

Definition text_at (p : path) (fs : gmap path (file W)) : string :=
  match fs !! p with
  | Some (TextFile s) => s
  | _ => ""%string
  end.

(** [open(p, 'a')], writes, [close()]: the text goes after what the file
    holds. *)
Definition append_file (p : path) (text : string) (fs : gmap path (file W))
  : gmap path (file W) :=
  <[p := TextFile (String.append (text_at p fs) text)]> fs.

(** [os.makedirs(p, exist_ok=True)] *)
Definition makedirs (p : path) (fs : gmap path (file W)) : gmap path (file W) :=
  match fs !! p with
  | Some _ => fs
  | None => <[p := Directory]> fs
  end.

End Files.

Section Train.
Context {T : Type} {am : ArgMax T} {net : Network T} {fw : Framework T}.

Record args : Type := {
  model : string;
  seed : Z;
  epochs : Z;
  logging_step : Z;
  eval_step : Z;
  checkpoint : bool;
  batch_size : Z;
  valid_batch_size : Z;
  optimizer : string;
  lr : Q;
  val_ratio : Q;
  criterion : string;
  save_dir : path;
  token_type : string;
  dropout : Q;
  sep_type : string;
  lr_scheduler : string;
  kfold_splits : Z
}.

(** One split of [skf.split]: the tokenized training and validation
    examples of the fold. *)
Record fold_data : Type := {
  train_dataset : list example;
  valid_dataset : list example
}.

(** What a run finds outside the script: the index drawn by
    [random.randint(0, 100)], the folds [skf.split] yields, and the file
    tree it writes into. *)
Record environment : Type := {
  data_idx : Z;
  folds : list fold_data;
  init_fs : gmap path (file weights)
}.

(** One evaluation checkpoint, as [wandb.log] and the report file see it:
    the step, the aggregated loss and micro-F1, the text written.  The
    list of these records is a history variable; the script never reads
    it. *)
Record eval_record : Type := {
  ev_step : Z;
  ev_loss : Q;
  ev_f1 : Q;
  ev_report : string
}.

(** The variables [train] assigns at the start of every fold. *)
Record locals : Type := {
  net_model : weights;
  optim : optimizer_state;
  scheduler : option scheduler_state;
  best_eval_loss : Q;
  best_eval_f1 : Q;
  total_idx : Z;
  eval_log : list eval_record
}.

(** The state of a run inside a fold: the file tree, the global random
    state, the variable [eval_average_loss] (unbound until the first
    evaluation of the run assigns it) and the variables of the fold. *)
Record state : Type := {
  fs : gmap path (file weights);
  rng : rng_state;
  eval_average_loss : option Q;
  frame : locals
}.

(** The state between folds: [frames] holds the fold variables as each
    completed fold left them, the last being what the Python frame still
    holds. *)
Record carry : Type := {
  c_fs : gmap path (file weights);
  c_rng : rng_state;
  c_eval_average_loss : option Q;
  c_frames : list locals
}.

(** Lines 222-233. *)
Definition model_config_parameters (a : args) : gmap string json :=
  list_to_map
    [ ("model", JStr (model a));
      ("seed", JInt (seed a));
      ("epochs", JInt (epochs a));
      ("batch_size", JInt (batch_size a));
      ("token_type", JStr (token_type a));
      ("optimizer", JStr (optimizer a));
      ("lr", JFloat (lr a));
      ("val_ratio", JFloat (val_ratio a));
      ("sep_type", JStr (sep_type a));
      ("kfold_splits", JInt (kfold_splits a)) ]%string.

Definition k_save_path (a : args) (kfold_idx : Z) : path :=
  save_dir a ++ [str_of_int kfold_idx].
Definition report_path (a : args) (kfold_idx : Z) : path :=
  k_save_path a kfold_idx ++ ["report.txt"%string].
Definition config_path (a : args) : path :=
  save_dir a ++ ["model_config_parameters.json"%string].

(** A loader: its data set, its batch size (one more than [ld_size]) and
    [drop_last]. *)
Record loader : Type := {
  ld_dataset : list example;
  ld_size : nat;
  ld_drop_last : bool
}.

(** [DataLoader(dataset, batch_size=..., shuffle=True, drop_last=...)] *)
Definition make_loader (dataset : list example) (batch_size : Z)
    (drop_last : bool) : result loader :=
  match Z.to_nat batch_size with
  | O => Raise ValueError
  | S n => Ok {| ld_dataset := dataset; ld_size := n; ld_drop_last := drop_last |}
  end.

Definition permute (pi : nat -> nat) (l : list example) : list example :=
  match l with
  | [] => []
  | d :: _ => map (fun j => nth (pi j) l d) (seq 0 (length l))
  end.

(** One pass over a shuffling loader. *)
Definition iterate (ld : loader) (r : rng_state)
  : list (list example) * rng_state :=
  let '(pi, r') := randperm r (length (ld_dataset ld)) in
  (batches_of (ld_size ld) (ld_drop_last ld) (permute pi (ld_dataset ld)), r').

(** [len(loader)] *)
Definition loader_len (ld : loader) : nat :=
  if ld_drop_last ld then (length (ld_dataset ld) / S (ld_size ld))%nat
  else ((length (ld_dataset ld) + ld_size ld) / S (ld_size ld))%nat.

Definition Qltb (x y : Q) : bool :=
  match (x ?= y)%Q with Lt => true | _ => false end.

(** Lines 295-325: one pass over the validation set. *)
Definition evaluate (a : args) (model : weights)
    (valid_batches : list (list example)) : result (Q * Q * list Z * list Z) :=
  totals ← for_each
    (fun '(eval_total_loss, eval_total_f1, label_list, pred_list) batch =>
       let labels := map label_of batch in
       let pred := forward model true batch in
       let preds := map argmax_row pred in
       f1 ← Metric.klue_re_micro_f1 preds labels;
       let loss := create_criterion (criterion a) pred labels in
       Ok ((eval_total_loss + loss)%Q, (eval_total_f1 + f1)%Q,
           label_list ++ labels, pred_list ++ preds))
    valid_batches (0%Q, 0%Q, [], []);
  let '(eval_total_loss, eval_total_f1, label_list, pred_list) := totals in
  match length valid_batches with
  | O => Raise ZeroDivisionError
  | S _ =>
      let n := inject_Z (Z.of_nat (length valid_batches)) in
      Ok ((eval_total_loss / n)%Q, (eval_total_f1 / n)%Q, label_list, pred_list)
  end.

(** Lines 295-366: the evaluation checkpoint of fold [kfold_idx].  A
    directory written by [model.save_pretrained] is one entry of the tree,
    holding the weights; the files inside it are not modelled. *)
Definition eval_checkpoint (a : args) (kfold_idx : Z) (valid_loader : loader)
    (st : state) : result state :=
  let fr := frame st in
  let '(valid_batches, r) := iterate valid_loader (rng st) in
  '(eval_average_loss, eval_average_f1, label_list, pred_list)
    ← evaluate a (net_model fr) valid_batches;
  let cf := str_cf (confusion_matrix label_list pred_list) in
  let cr := classification_report label_list pred_list in
  let entry := report_entry (total_idx fr) cf cr in
  let fs1 := append_file (report_path a kfold_idx) entry (fs st) in
  let fs2 := if checkpoint a
             then <[k_save_path a kfold_idx
                    ++ [String.append "checkpoint-" (str_of_int (total_idx fr))]
                    := ModelDir (net_model fr)]> fs1
             else fs1 in
  let better_loss := Qltb eval_average_loss (best_eval_loss fr) in
  let fs3 := if better_loss
             then <[k_save_path a kfold_idx ++ ["best_loss"%string]
                    := ModelDir (net_model fr)]> fs2
             else fs2 in
  let better_f1 := Qltb (best_eval_f1 fr) eval_average_f1 in
  let fs4 := if better_f1
             then <[k_save_path a kfold_idx ++ ["best_f1"%string]
                    := ModelDir (net_model fr)]> fs3
             else fs3 in
  Ok {| fs := fs4;
        rng := r;
        eval_average_loss := Some eval_average_loss;
        frame := {| net_model := net_model fr;
                    optim := optim fr;
                    scheduler := scheduler fr;
                    best_eval_loss := if better_loss then eval_average_loss
                                      else best_eval_loss fr;
                    best_eval_f1 := if better_f1 then eval_average_f1
                                    else best_eval_f1 fr;
                    total_idx := total_idx fr;
                    eval_log := eval_log fr ++
                      [{| ev_step := total_idx fr; ev_loss := eval_average_loss;
                          ev_f1 := eval_average_f1; ev_report := entry |}] |} |}.

(** Lines 262-366: one batch of the training loop. *)
Definition train_batch (a : args) (kfold_idx : Z) (valid_loader : loader)
    (st : state) (batch : list example) : result state :=
  let fr := frame st in
  let total_idx := total_idx fr + 1 in
  let '(model', optim', r) :=
    optim_step (criterion a) (net_model fr) (optim fr) batch (rng st) in
  let st1 := {| fs := fs st; rng := r;
                eval_average_loss := eval_average_loss st;
                frame := {| net_model := model'; optim := optim';
                            scheduler := scheduler fr;
                            best_eval_loss := best_eval_loss fr;
                            best_eval_f1 := best_eval_f1 fr;
                            total_idx := total_idx;
                            eval_log := eval_log fr |} |} in
  if logging_step a =? 0 then Raise ZeroDivisionError
  else if eval_step a =? 0 then Raise ZeroDivisionError
  else if total_idx mod eval_step a =? 0
       then eval_checkpoint a kfold_idx valid_loader st1
       else Ok st1.

(** Lines 376-381: the learning-rate schedule at the end of an epoch. *)
Definition epoch_end (a : args) (st : state) : result state :=
  let fr := frame st in
  let stepped (p : scheduler_state * optimizer_state) : state :=
    {| fs := fs st; rng := rng st; eval_average_loss := eval_average_loss st;
       frame := {| net_model := net_model fr; optim := snd p;
                   scheduler := Some (fst p);
                   best_eval_loss := best_eval_loss fr;
                   best_eval_f1 := best_eval_f1 fr;
                   total_idx := total_idx fr;
                   eval_log := eval_log fr |} |} in
  if String.eqb (lr_scheduler a) "reduceLR" then
    match scheduler fr with
    | None => Raise (UnboundLocalError "scheduler")
    | Some sch =>
        match eval_average_loss st with
        | None => Raise (UnboundLocalError "eval_average_loss")
        | Some l => Ok (stepped (plateau_step sch (optim fr) l))
        end
    end
  else if String.eqb (lr_scheduler a) "StepLR" then
    match scheduler fr with
    | None => Raise (UnboundLocalError "scheduler")
    | Some sch => Ok (stepped (steplr_step sch (optim fr)))
    end
  else Ok st.

(** Lines 257-381: one epoch. *)
Definition train_epoch (a : args) (kfold_idx : Z)
    (train_loader valid_loader : loader) (st : state) : result state :=
  let '(batches, r) := iterate train_loader (rng st) in
  let st0 := {| fs := fs st; rng := r;
                eval_average_loss := eval_average_loss st;
                frame := frame st |} in
  st1 ← for_each (train_batch a kfold_idx valid_loader) batches st0;
  epoch_end a st1.

(** Lines 148-255: the start of fold [kfold_idx], up to the three
    trackers. *)
Definition fold_start (a : args) (env : environment) (kfold_idx : Z)
    (fd : fold_data) (c : carry)
  : result (loader * loader * state) :=
  _ ← (if (0 <=? data_idx env)
          && (data_idx env <? Z.of_nat (length (train_dataset fd)))
       then Ok () else Raise IndexError);
  let MODEL_NAME := model a in
  let '(model0, r) := from_pretrained MODEL_NAME (dropout a) (token_type a) (c_rng c) in
  train_loader ← make_loader (train_dataset fd) (batch_size a) true;
  valid_loader ← make_loader (valid_dataset fd) (valid_batch_size a) false;
  let optim0 :=
    if String.eqb (optimizer a) "AdamW" then AdamW model0 (lr a)
    else if String.eqb (optimizer a) "AdamP" then AdamP model0 (lr a)
    else AdamW model0 (lr a) in
  let scheduler0 :=
    if String.eqb (lr_scheduler a) "" then None
    else if String.eqb (lr_scheduler a) "reduceLR"
         then Some (ReduceLROnPlateau optim0)
    else if String.eqb (lr_scheduler a) "StepLR" then Some (StepLR optim0)
    else None in
  let fs0 := makedirs (k_save_path a kfold_idx) (c_fs c) in
  let fs1 := makedirs (save_dir a) fs0 in
  let fs2 := <[config_path a := JsonFile (model_config_parameters a)]> fs1 in
  let fs3 := truncate_file (report_path a kfold_idx) fs2 in
  let fs4 := <[save_dir a ++ ["tokenizer_config.json"%string] := TokenizerFiles]> fs3 in
  Ok (train_loader, valid_loader,
      {| fs := fs4; rng := r;
         eval_average_loss := c_eval_average_loss c;
         frame := {| net_model := model0; optim := optim0;
                     scheduler := scheduler0;
                     best_eval_loss := 1000000000;
                     best_eval_f1 := 0;
                     total_idx := 0;
                     eval_log := [] |} |}).

(** [range(args.epochs)] as a repetition count. *)
Definition epoch_list (a : args) : list Z :=
  map Z.of_nat (seq 0 (Z.to_nat (epochs a))).

(** Lines 147-385: one fold. *)
Definition run_fold (a : args) (env : environment) (c : carry)
    (fold : Z * fold_data) : result carry :=
  let '(kfold_idx, fd) := fold in
  '(train_loader, valid_loader, st0) ← fold_start a env kfold_idx fd c;
  st ← for_each (fun st _ => train_epoch a kfold_idx train_loader valid_loader st)
         (epoch_list a) st0;
  Ok {| c_fs := fs st; c_rng := rng st;
        c_eval_average_loss := eval_average_loss st;
        c_frames := c_frames c ++ [frame st] |}.

(** [enumerate(skf.split(dataset, dataset_label))] *)
Definition enumerate {A} (l : list A) : list (Z * A) :=
  imap (fun i x => (Z.of_nat i, x)) l.

(** [train(args)]; [StratifiedKFold] refuses fewer than two splits.  The
    folds of the environment are the splits as lines 150-161 hand them to
    the loaders, tokenized and with their labels encoded: reading the data
    set, [label_to_num] (lines 142 and 152-153) with its [KeyError], and
    the calls of [wandb] are not part of the model. *)
Definition train (a : args) (env : environment) : result carry :=
  if kfold_splits a <? 2 then Raise ValueError else
  for_each (run_fold a env) (enumerate (folds env))
    {| c_fs := init_fs env; c_rng := manual_seed (seed a);
       c_eval_average_loss := None; c_frames := [] |}.

(** *** Vocabulary of the statements *)

Definition losses (fr : locals) : list Q := map ev_loss (eval_log fr).
Definition f1s (fr : locals) : list Q := map ev_f1 (eval_log fr).

(** What the report file of a fold holds: the entries of the fold's
    evaluation checkpoints, in order. *)
Definition report_text (fr : locals) : string :=
  concat_strings (map ev_report (eval_log fr)).

(** [m] is the least (greatest) element of [l], up to equality of
    rationals. *)
Definition lowest (m : Q) (l : list Q) : Prop :=
  (exists x, x ∈ l /\ (m == x)%Q) /\ forall x, x ∈ l -> (m <= x)%Q.
Definition highest (m : Q) (l : list Q) : Prop :=
  (exists x, x ∈ l /\ (m == x)%Q) /\ forall x, x ∈ l -> (x <= m)%Q.

(** The trackers hold the minimum of the initial value and the losses,
    and the maximum of the initial value and the scores, of the fold's
    evaluations so far; the scores are not negative. *)
Definition tracked (fr : locals) : Prop :=
  best_eval_loss fr = fold_left Qmin (losses fr) 1000000000%Q /\
  best_eval_f1 fr = fold_left Qmax (f1s fr) 0%Q /\
  Forall (fun f => (0 <= f)%Q) (f1s fr).

Definition best_loss_path (a : args) (kfold_idx : Z) : path :=
  k_save_path a kfold_idx ++ ["best_loss"%string].
Definition best_f1_path (a : args) (kfold_idx : Z) : path :=
  k_save_path a kfold_idx ++ ["best_f1"%string].

(** The files of fold [j], seen against the tree [fs0] the fold's
    training loop started from: the report holds the entries written so
    far, a best checkpoint is there once its tracker has left its initial
    value and is as in [fs0] before, and nothing outside the fold's
    directory has changed. *)
Definition fold_files (a : args) (j : Z) (fs0 fs1 : gmap path (file weights))
    (fr : locals) : Prop :=
  fs1 !! report_path a j = Some (TextFile (report_text fr)) /\
  Forall (fun ev => exists cf cr, ev_report ev = report_entry (ev_step ev) cf cr)
    (eval_log fr) /\
  (Qltb (best_eval_loss fr) 1000000000%Q = true ->
     exists w, fs1 !! best_loss_path a j = Some (ModelDir w)) /\
  (Qltb (best_eval_loss fr) 1000000000%Q = false ->
     fs1 !! best_loss_path a j = fs0 !! best_loss_path a j) /\
  (Qltb 0%Q (best_eval_f1 fr) = true ->
     exists w, fs1 !! best_f1_path a j = Some (ModelDir w)) /\
  (Qltb 0%Q (best_eval_f1 fr) = false ->
     fs1 !! best_f1_path a j = fs0 !! best_f1_path a j) /\
  (forall p, (forall name, p <> k_save_path a j ++ [name]) -> fs1 !! p = fs0 !! p).

(** What a completed fold [j] leaves in the tree [fs1], given the tree
    [fs0] before it: its trackers, its report, its best checkpoints and
    its directory. *)
Definition fold_outcome (a : args) (j : Z) (fs0 fs1 : gmap path (file weights))
    (fr : locals) : Prop :=
  tracked fr /\
  fs1 !! report_path a j = Some (TextFile (report_text fr)) /\
  Forall (fun ev => exists cf cr, ev_report ev = report_entry (ev_step ev) cf cr)
    (eval_log fr) /\
  (Qltb (best_eval_loss fr) 1000000000%Q = true ->
     exists w, fs1 !! best_loss_path a j = Some (ModelDir w)) /\
  (Qltb (best_eval_loss fr) 1000000000%Q = false ->
     fs1 !! best_loss_path a j = fs0 !! best_loss_path a j) /\
  (Qltb 0%Q (best_eval_f1 fr) = true ->
     exists w, fs1 !! best_f1_path a j = Some (ModelDir w)) /\
  (Qltb 0%Q (best_eval_f1 fr) = false ->
     fs1 !! best_f1_path a j = fs0 !! best_f1_path a j) /\
  is_Some (fs1 !! k_save_path a j).

(** The state after the first [n] folds of a run started on the tree
    [fs0]: one frame per fold, each with the outcome of its fold; the
    configuration file written; the directories of all other fold indices
    as they were. *)
Definition folds_done (a : args) (fs0 : gmap path (file weights)) (n : nat)
    (c : carry) : Prop :=
  length (c_frames c) = n /\
  ((0 < n)%nat ->
     c_fs c !! config_path a = Some (JsonFile (model_config_parameters a))) /\
  (forall i fr, c_frames c !! i = Some fr ->
     fold_outcome a (Z.of_nat i) fs0 (c_fs c) fr) /\
  (forall j, j < 0 \/ Z.of_nat n <= j ->
     c_fs c !! k_save_path a j = fs0 !! k_save_path a j /\
     forall name, c_fs c !! (k_save_path a j ++ [name])
                  = fs0 !! (k_save_path a j ++ [name])).

(** [len(train_loader)]: the optimizer steps one epoch of a fold takes. *)
Definition steps_per_epoch (a : args) (fd : fold_data) : Z :=
  Z.of_nat (length (train_dataset fd) / Z.to_nat (batch_size a)).

(** The carry without the variables of the folds done so far. *)
Definition forget_frames (c : carry) : carry :=
  {| c_fs := c_fs c; c_rng := c_rng c;
     c_eval_average_loss := c_eval_average_loss c; c_frames := [] |}.

(** The paths the start of a fold writes, besides the fold's report. *)
Definition tokenizer_path (a : args) : path :=
  save_dir a ++ ["tokenizer_config.json"%string].

End Train.
End Train.

(** ** Tensors of real numbers *)

Module RealTensor.

Definition Rsum (l : list R) : R := fold_right Rplus 0%R l.

(** [F.softmax(row, dim=-1)] *)
Definition R_softmax (row : list R) : list R :=
  let s := Rsum (map exp row) in map (fun x => (exp x / s)%R) row.

(** [np.argmax(row)]: the first index of the largest entry. *)
Fixpoint R_argmax_from (best : R) (best_i i : nat) (l : list R) : nat :=
  match l with
  | [] => best_i
  | x :: l' => if Rlt_dec best x then R_argmax_from x i (S i) l'
               else R_argmax_from best best_i (S i) l'
  end.
Definition R_argmax (row : list R) : Z :=
  match row with
  | [] => 0
  | x :: l => Z.of_nat (R_argmax_from x 0 1 l)
  end.

#[export] Instance real_ops : TensorOps R := {|
  tzero := 0%R;
  tadd := Rplus;
  tdiv := fun x k => (x / IZR k)%R;
  softmax_row := R_softmax
|}.
#[export] Instance real_argmax : ArgMax R := {| argmax_row := R_argmax |}.

(** The spec's wording: the arithmetic mean, class by class, of the
    logit vectors the folds give for one example. *)
Definition column (c : nat) (rows : list (list R)) : list R :=
  map (fun r => nth c r 0%R) rows.
Definition arithmetic_mean (rows : list (list R)) : list R :=
  map (fun c => (Rsum (column c rows) / INR (length rows))%R)
    (seq 0 Inference.ACC_COLS).

(** [j] is the position of the first largest entry of [row]. *)
Definition first_max (row : list R) (j : Z) : Prop :=
  exists m, row !! Z.to_nat j = Some m /\ 0 <= j /\
    forall i x, row !! i = Some x ->
      (x <= m)%R /\ ((i < Z.to_nat j)%nat -> (x < m)%R).

End RealTensor.

(** ** A concrete inference run

    A small network over the reals (its weights are one integer, the
    first logit), the output tree of a two-fold training and a test set
    of [n] rows: the data the statements below are instantiated on. *)

Module Demo.
Import Inference RealTensor.

#[export] Instance bias_network : Network R := {|
  weights := Z;
  example := unit;
  logits_of := fun w _ _ _ => IZR w :: replicate 29 0%R
|}.

Definition demo_config : gmap string json :=
  list_to_map
    [ ("model", JStr "klue/roberta-large"); ("token_type", JStr "origin");
      ("sep_type", JStr "SEP"); ("kfold_splits", JInt 2);
      ("model_case", JStr "automodel"); ("use_lstm", JBool false) ]%string.

Definition demo_fs : gmap path (file Z) :=
  list_to_map
    [ (["results"; "model_config_parameters.json"], JsonFile demo_config);
      (["results"; "0"; "best_loss"], ModelDir 1);
      (["results"; "1"; "best_loss"], ModelDir 2) ]%string.

Definition demo_dict : gmap Z string :=
  list_to_map (zip (Metric.range 30) Metric.label_list).

Definition demo_env (n : nat) : environment := {|
  env_fs := demo_fs;
  load_test_dataset := fun _ _ _ => map (fun i => (Z.of_nat i, ())) (seq 0 n);
  data_idx := 0;
  dict_num_to_label := demo_dict
|}.

Definition demo_args : args := {|
  model_dir := ["results"%string];
  submission_name := "submission";
  batch_size := 62;
  select_model := "best_loss"
|}.

Definition demo_cfg : run_config := {|
  token_type := JStr "origin";
  sep_type := JStr "SEP";
  kfold_splits := JInt 2;
  model_case := JStr "automodel";
  use_lstm := JBool false;
  model_type := JStr "klue/roberta-large"
|}.

End Demo.

(** ** A simulated training backend

    An executable stand-in for the framework, on which runs of [train] can
    be evaluated: an example is its gold label, the weights count the
    optimization steps taken, the network puts all its weight on the class
    [predict] names, and every batch has the loss [loss]. *)

Module Sim.
Import Train.

Fixpoint Q_argmax_from (best : Q) (best_i i : nat) (l : list Q) : nat :=
  match l with
  | [] => best_i
  | x :: l' => if Qltb best x then Q_argmax_from x i (S i) l'
               else Q_argmax_from best best_i (S i) l'
  end.
Definition Q_argmax (row : list Q) : Z :=
  match row with
  | [] => 0
  | x :: l => Z.of_nat (Q_argmax_from x 0 1 l)
  end.

#[export] Instance rational_argmax : ArgMax Q := {| argmax_row := Q_argmax |}.

Definition one_hot (c : Z) : list Q :=
  map (fun i => if i =? c then 1%Q else 0%Q) (Metric.range 30).

Definition sim_network (predict : Z -> Z -> Z) : Network Q := {|
  weights := Z;
  example := Z;
  logits_of := fun w _ _ x => one_hot (predict w x)
|}.

Definition sim_framework (predict : Z -> Z -> Z) (loss : Q)
  : @Framework Q (sim_network predict) := {|
  rng_state := unit;
  optimizer_state := Q;
  scheduler_state := unit;
  label_of := fun x : @example Q (sim_network predict) => x;
  manual_seed := fun _ => ();
  randperm := fun r _ => (fun j => j, r);
  from_pretrained := fun _ _ _ r => (0, r);
  AdamW := fun _ lr => lr;
  AdamP := fun _ lr => lr;
  ReduceLROnPlateau := fun _ => ();
  StepLR := fun _ => ();
  plateau_step := fun s o _ => (s, o);
  steplr_step := fun s o => (s, o);
  create_criterion := fun _ _ _ => loss;
  optim_step := fun _ w o _ r => (w + 1, o, r);
  confusion_matrix := fun _ _ => [];
  classification_report := fun _ _ => "report"%string
|}.

(** The spec's scenario: ten rows in two folds, one epoch, batches of one
    example, an evaluation after every step. *)
Definition sim_args (scheduler : string) (eval_step : Z) : args := {|
  model := "klue/roberta-large";
  seed := 42;
  epochs := 1;
  logging_step := 100;
  eval_step := eval_step;
  checkpoint := false;
  batch_size := 1;
  valid_batch_size := 64;
  optimizer := "AdamW";
  lr := 5 # 100000;
  val_ratio := 1 # 10;
  criterion := "cross_entropy";
  save_dir := ["results"%string];
  token_type := "origin";
  dropout := 1 # 10;
  sep_type := "SEP";
  lr_scheduler := scheduler;
  kfold_splits := 2
|}.

Definition sim_fold (predict : Z -> Z -> Z) (train_labels valid_labels : list Z)
  : @fold_data Q (sim_network predict) :=
  @Build_fold_data Q (sim_network predict) train_labels valid_labels.

Definition sim_env (predict : Z -> Z -> Z)
    (folds : list (@fold_data Q (sim_network predict)))
    (init_fs : gmap path (file Z)) : @environment Q (sim_network predict) :=
  @Build_environment Q (sim_network predict) 0 folds init_fs.

Definition sim_train (predict : Z -> Z -> Z) (loss : Q) (a : args)
    (env : @environment Q (sim_network predict))
  : result (@carry Q (sim_network predict) (sim_framework predict loss)) :=
  @train Q rational_argmax (sim_network predict) (sim_framework predict loss) a env.

(** Ten rows in two folds of five training and five validation rows. *)
Definition ten_rows (predict : Z -> Z -> Z)
  : list (@fold_data Q (sim_network predict)) :=
  [ sim_fold predict [1; 2; 1; 2; 1] [1; 2; 1; 2; 1];
    sim_fold predict [1; 2; 1; 2; 1] [1; 2; 1; 2; 1] ].

End Sim.

(** ** Label tables, outcomes and simulated runs *)

(** [label_to_num(label)], over the pickled table [dict_label_to_num];
    identical in [train.py] and [train_kfold_basic.py]. *)
Definition label_to_num (dict_label_to_num : gmap string Z) (label : list string)
  : result (list Z) :=
  for_each (fun num_label v =>
              match dict_label_to_num !! v with
              | Some n => Ok (num_label ++ [n])
              | None => Raise (KeyError v)
              end)
    label [].

(** The number of line ends of a text. *)
Fixpoint count_newlines (s : string) : nat :=
  match s with
  | EmptyString => 0
  | String c s' =>
      (if Ascii.eqb c (Ascii.ascii_of_nat 10) then 1 else 0) + count_newlines s'
  end.

Definition is_Ok {A} (r : result A) : bool :=
  match r with Ok _ => true | Raise _ => false end.

(** The value a computation returned, [d] when it raised. *)
Definition value_or {A} (d : A) (r : result A) : A :=
  match r with Ok a => a | Raise _ => d end.

(** The steps at which a fold evaluates: the multiples of [eval_step]
    among the first [n] optimizer steps. *)
Definition eval_steps (eval_step : Z) (n : nat) : list Z :=
  filter (fun i => i mod eval_step = 0) (map Z.of_nat (seq 1 n)).

Section Schedule.
Context {T : Type} {net : Network T} {fw : Framework T}.

(** The step counter is not negative and the evaluations logged so far
    are those of the schedule. *)
Definition on_schedule (a : Train.args) (fr : Train.locals) : Prop :=
  0 <= Train.total_idx fr /\
  map Train.ev_step (Train.eval_log fr)
  = eval_steps (Train.eval_step a) (Z.to_nat (Train.total_idx fr)).

End Schedule.

(** ** Evaluation checkpoints and the states of a fold *)

Section Checkpoints.
Context {T : Type} {am : ArgMax T} {net : Network T} {fw : Framework T}.
Import Train.

(** [label_list] and [pred_list] as lines 319-320 have extended them when
    the loop over the validation batches [batches] ends. *)
Definition eval_label_list (batches : list (list example)) : list Z :=
  concat (map (fun batch => map label_of batch) batches).
Definition eval_pred_list (model : weights) (batches : list (list example))
  : list Z :=
  concat (map (fun batch => map argmax_row (forward model true batch)) batches).

(** What lines 327-334 write into the report at step [total_idx], for the
    weights [model] and the validation pass [batches]: the banner, the
    confusion matrix printed by [str_cf], the classification report and a
    line end. *)
Definition checkpoint_entry (total_idx : Z) (model : weights)
    (batches : list (list example)) : string :=
  let label_list := eval_label_list batches in
  let pred_list := eval_pred_list model batches in
  let cf := str_cf (confusion_matrix label_list pred_list) in
  let cr := classification_report label_list pred_list in
  report_entry total_idx cf cr.

(** The text of a logged evaluation is the entry of a checkpoint over one
    pass of the loader [vl], for some weights and some random state. *)
Definition checkpoint_of (vl : loader) (ev : eval_record) : Prop :=
  exists model r,
    ev_report ev = checkpoint_entry (ev_step ev) model (fst (iterate vl r)).

(** The states fold [kfold_idx] passes through between two batches: the
    state [fold_start] leaves, the state after the shuffle that opens an
    epoch, after a batch of the training loop, and after the scheduler
    step that closes an epoch. *)
Inductive in_fold (a : args) (env : environment) (kfold_idx : Z)
    (fd : fold_data) (c : carry) : loader -> state -> Prop :=
  | in_fold_start train_loader valid_loader st0 :
      fold_start a env kfold_idx fd c = Ok (train_loader, valid_loader, st0) ->
      in_fold a env kfold_idx fd c valid_loader st0
  | in_fold_shuffle valid_loader st r :
      in_fold a env kfold_idx fd c valid_loader st ->
      in_fold a env kfold_idx fd c valid_loader
        {| fs := fs st; rng := r; eval_average_loss := eval_average_loss st;
           frame := frame st |}
  | in_fold_batch valid_loader st batch st' :
      in_fold a env kfold_idx fd c valid_loader st ->
      train_batch a kfold_idx valid_loader st batch = Ok st' ->
      in_fold a env kfold_idx fd c valid_loader st'
  | in_fold_epoch_end valid_loader st st' :
      in_fold a env kfold_idx fd c valid_loader st ->
      epoch_end a st = Ok st' ->
      in_fold a env kfold_idx fd c valid_loader st'.

End Checkpoints.

Module SimRuns.
Import Train Sim.

(** Stand-in tensor operations on rationals for runs that stop before any
    tensor is computed; the soft-max is not rational and is left out. *)
Definition sim_ops : TensorOps Q := {|
  tzero := 0%Q;
  tadd := Qplus;
  tdiv := fun x k => (x / inject_Z k)%Q;
  softmax_row := fun row => row
|}.

(** A network that predicts the gold label, one that always predicts
    [no_relation]. *)
Definition learner : Z -> Z -> Z := fun _ x => x.
Definition idler : Z -> Z -> Z := fun _ _ => 0.

Definition no_carry (predict : Z -> Z -> Z) (loss : Q)
  : @carry Q (sim_network predict) (sim_framework predict loss) :=
  @Build_carry Q (sim_network predict) (sim_framework predict loss) ∅ () None [].

(** The carry a simulated run ends with. *)
Definition sim_outcome (predict : Z -> Z -> Z) (loss : Q) (a : args)
    (env : @environment Q (sim_network predict))
  : @carry Q (sim_network predict) (sim_framework predict loss) :=
  value_or (no_carry predict loss) (sim_train predict loss a env).

(** The carry a simulated fold ends with. *)
Definition sim_fold_outcome (predict : Z -> Z -> Z) (loss : Q) (a : args)
    (env : @environment Q (sim_network predict))
    (c : @carry Q (sim_network predict) (sim_framework predict loss))
    (fold : Z * @fold_data Q (sim_network predict))
  : @carry Q (sim_network predict) (sim_framework predict loss) :=
  value_or (no_carry predict loss)
    (@run_fold Q rational_argmax (sim_network predict) (sim_framework predict loss)
       a env c fold).

(** Five training and five validation rows. *)
Definition five_rows (predict : Z -> Z -> Z) : @fold_data Q (sim_network predict) :=
  sim_fold predict [1; 2; 1; 2; 1] [1; 2; 1; 2; 1].

(** A fold without training rows. *)
Definition no_rows (predict : Z -> Z -> Z) : @fold_data Q (sim_network predict) :=
  sim_fold predict [] [1].

(** An output tree that already holds a report of fold 0. *)
Definition used_fs : gmap path (file Z) :=
  {[ ["results"; "0"; "report.txt"]%string := TextFile "earlier run" ]}.

(** The arguments and the tree of an inference run on the output of a
    simulated training. *)
Definition sim_inference_args : Inference.args := {|
  Inference.model_dir := ["results"%string];
  Inference.submission_name := "submission";
  Inference.batch_size := 62;
  Inference.select_model := "best_loss"
|}.
Definition sim_inference_env (predict : Z -> Z -> Z) (fs : gmap path (file Z))
  : @Inference.environment Q (sim_network predict) :=
  @Inference.Build_environment Q (sim_network predict) fs (fun _ _ _ => []) 0 ∅.

End SimRuns.

(** * Properties *)

(** ** Loops and integer printing *)

Lemma for_each_app {A S} (body : S -> A -> result S) xs ys s :
  for_each body (xs ++ ys) s = (for_each body xs s ≫= for_each body ys).
Proof.
  revert s. induction xs as [|x xs IH]; intros s; simpl; [done|].
  destruct (body s x); simpl; [apply IH | done].
Qed.

Lemma int_of_str_of_int z :
  NilZero.int_of_string (str_of_int z) = Some (Z.to_int z).
Proof.
  unfold str_of_int. apply NilZero.isi.
  - destruct z; simpl; try discriminate.
    unfold Pos.to_int. intros E. injection E as E.
    pose proof (DecimalPos.Unsigned.to_uint_nonnil p). congruence.
  - destruct z; simpl; try discriminate.
    intros E. injection E as E.
    pose proof (DecimalPos.Unsigned.to_uint_nonnil p). congruence.
Qed.

Lemma str_of_int_inj n m : str_of_int n = str_of_int m -> n = m.
Proof.
  intros H. apply to_int_inj.
  pose proof (int_of_str_of_int n) as H1. pose proof (int_of_str_of_int m) as H2.
  rewrite H in H1. congruence.
Qed.

(** A printed integer is none of the file names the run uses. *)
Lemma str_of_int_not_name z s :
  NilZero.int_of_string s = None -> str_of_int z <> s.
Proof. intros Hs E. rewrite <- E, int_of_str_of_int in Hs. discriminate Hs. Qed.

(** ** Metric engine: [klue_re_micro_f1] *)

Section MetricFacts.
Import Metric.

Lemma no_relation_is_class_0 : list_index "no_relation" label_list = Ok 0.
Proof. reflexivity. Qed.

Lemma label_indices_are_relation_classes :
  list_remove 0 (range (length label_list)) = Ok relation_classes.
Proof. reflexivity. Qed.

Lemma count_nonneg {A} (P : A -> bool) l : 0 <= count P l.
Proof. induction l as [|a l IH]; simpl; [lia|]. destruct (P a); lia. Qed.

Lemma sum_over_nonneg f cs : (forall c, 0 <= f c) -> 0 <= sum_over f cs.
Proof.
  intros Hf. induction cs as [|c cs IH]; simpl; [lia|]. specialize (Hf c). lia.
Qed.

Lemma sum_over_plus f g cs :
  sum_over (fun c => f c + g c) cs = sum_over f cs + sum_over g cs.
Proof. induction cs as [|c cs IH]; simpl; lia. Qed.

Lemma sum_over_ext f g cs :
  (forall c, f c = g c) -> sum_over f cs = sum_over g cs.
Proof. intros E. induction cs as [|c cs IH]; simpl; [done|]. by rewrite E, IH. Qed.

(** scikit-learn's three counts, read on the list of examples. *)
Lemma tp_sum_class_tp c ex :
  tp_sum c (map snd ex) (map fst ex) = class_tp c ex.
Proof.
  unfold tp_sum, class_tp.
  induction ex as [|[p l] ex IH]; simpl; [done|].
  rewrite IH. by rewrite andb_comm.
Qed.

Lemma pred_sum_split c ex :
  pred_sum c (map fst ex) = class_tp c ex + class_fp c ex.
Proof.
  unfold pred_sum, class_tp, class_fp.
  induction ex as [|[p l] ex IH]; simpl; [done|].
  rewrite IH, (Z.eqb_sym c p).
  destruct (p =? c), (l =? c); simpl; lia.
Qed.

Lemma true_sum_split c ex :
  true_sum c (map snd ex) = class_tp c ex + class_fn c ex.
Proof.
  unfold true_sum, class_tp, class_fn.
  induction ex as [|[p l] ex IH]; simpl; [done|].
  rewrite IH, (Z.eqb_sym c l).
  destruct (p =? c), (l =? c); simpl; lia.
Qed.

Lemma pooled_nonneg f ex : (forall c, 0 <= f c ex) -> 0 <= pooled f ex.
Proof. intros H. apply sum_over_nonneg. auto. Qed.

Lemma class_tp_nonneg c ex : 0 <= class_tp c ex.
Proof. apply count_nonneg. Qed.
Lemma class_fp_nonneg c ex : 0 <= class_fp c ex.
Proof. apply count_nonneg. Qed.
Lemma class_fn_nonneg c ex : 0 <= class_fn c ex.
Proof. apply count_nonneg. Qed.

Lemma prf_divide_nonneg n d : 0 <= n -> 0 <= d -> (0 <= prf_divide n d)%Q.
Proof.
  intros Hn Hd. unfold prf_divide. destruct (d =? 0) eqn:E; [Lqa.lra|].
  apply Z.eqb_neq in E.
  apply Qle_shift_div_l.
  - replace 0%Q with (inject_Z 0) by done. rewrite <- Zlt_Qlt. lia.
  - rewrite Qmult_0_l. replace 0%Q with (inject_Z 0) by done.
    rewrite <- Zle_Qle. lia.
Qed.

Lemma prf_divide_le_1 n d : 0 <= n <= d -> (prf_divide n d <= 1)%Q.
Proof.
  intros Hn. unfold prf_divide. destruct (d =? 0) eqn:E; [Lqa.lra|].
  apply Z.eqb_neq in E.
  apply Qle_shift_div_r.
  - replace 0%Q with (inject_Z 0) by done. rewrite <- Zlt_Qlt. lia.
  - rewrite Qmult_1_l. rewrite <- Zle_Qle. lia.
Qed.

(** The harmonic-mean step of [f1_score_micro] agrees with [micro_f1]. *)
Lemma fscore_micro_f1 tp fp fn :
  0 <= tp -> 0 <= fp -> 0 <= fn ->
  let precision := prf_divide tp (tp + fp) in
  let recall := prf_divide tp (tp + fn) in
  let denom := (precision + recall)%Q in
  ((1 + 1) * precision * recall / (if Qeq_bool denom 0 then 1 else denom) * 100
   == 100 * micro_f1 tp fp fn)%Q.
Proof.
  intros Htp Hfp Hfn precision recall denom.
  assert (Hp : (0 <= precision)%Q) by (apply prf_divide_nonneg; lia).
  assert (Hr : (0 <= recall)%Q) by (apply prf_divide_nonneg; lia).
  unfold micro_f1, ratio. fold (prf_divide tp (tp + fp)) (prf_divide tp (tp + fn)).
  fold precision recall denom.
  destruct (Qeq_bool denom 0) eqn:E.
  - apply Qeq_bool_iff in E. unfold denom in E.
    assert (Hp0 : (precision == 0)%Q) by Lqa.lra.
    rewrite Hp0. field.
  - apply Qeq_bool_neq in E. field. exact E.
Qed.

Lemma klue_re_micro_f1_value ex :
  klue_re_micro_f1 (map fst ex) (map snd ex) =
  Ok (let precision := prf_divide (pooled class_tp ex)
                         (pooled class_tp ex + pooled class_fp ex) in
      let recall := prf_divide (pooled class_tp ex)
                      (pooled class_tp ex + pooled class_fn ex) in
      let denom := (precision + recall)%Q in
      (1 + 1) * precision * recall / (if Qeq_bool denom 0 then 1 else denom)
      * 100)%Q.
Proof.
  unfold klue_re_micro_f1.
  rewrite no_relation_is_class_0. cbn [mbind result_bind].
  rewrite label_indices_are_relation_classes.
  unfold f1_score_micro. rewrite !length_map, Nat.eqb_refl.
  cbn [negb mbind result_bind].
  rewrite (sum_over_ext _ (fun c => class_tp c ex)) by (intros; cbv beta; apply tp_sum_class_tp).
  rewrite (sum_over_ext (fun c => pred_sum _ _)
             (fun c => class_tp c ex + class_fp c ex)) by (intros; cbv beta; apply pred_sum_split).
  rewrite (sum_over_ext (fun c => true_sum _ _)
             (fun c => class_tp c ex + class_fn c ex)) by (intros; cbv beta; apply true_sum_split).
  rewrite !sum_over_plus. reflexivity.
Qed.

(** A prediction of class 0 is no class's true or false positive, a gold
    label of class 0 no class's true positive or false negative. *)
Lemma pooled_ignores_no_relation_pred l ex :
  pooled class_tp ((0, l) :: ex) = pooled class_tp ex /\
  pooled class_fp ((0, l) :: ex) = pooled class_fp ex.
Proof. split; reflexivity. Qed.

Lemma pooled_ignores_no_relation_label p ex :
  pooled class_tp ((p, 0) :: ex) = pooled class_tp ex /\
  pooled class_fn ((p, 0) :: ex) = pooled class_fn ex.
Proof.
  split.
  - unfold pooled, relation_classes, sum_over, class_tp; cbn [fold_right count].
    rewrite !andb_false_r. lia.
  - reflexivity.
Qed.

End MetricFacts.

(** ** Batching *)

Section ChunkFacts.
Context {A B : Type}.
Open Scope nat_scope.
Implicit Types (l : list A) (g : list A -> A -> B).

Lemma chunks_fuel_concat fuel n l :
  length l <= fuel -> concat (chunks_fuel fuel n l) = l.
Proof.
  revert l. induction fuel as [|fuel IH]; intros [|x l] Hl; simpl in *; try done; try lia.
  rewrite IH.
  - by rewrite take_drop.
  - rewrite length_drop. lia.
Qed.

Lemma chunks_fuel_nil fuel n : @chunks_fuel A fuel n [] = [].
Proof. by destruct fuel. Qed.

Lemma chunks_fuel_rows g fuel n l i :
  length l <= fuel ->
  concat (map (fun b => map (g b) b) (chunks_fuel fuel n l)) !! i
  = g (take (S n) (drop (i / S n * S n) l)) <$> l !! i.
Proof.
  revert l i. induction fuel as [|fuel IH]; intros l i Hl.
  { destruct l; simpl in *; [done | lia]. }
  destruct l as [|x l]; [done|].
  change (chunks_fuel (S fuel) n (x :: l))
    with (take (S n) (x :: l) :: chunks_fuel fuel n (drop n l)).
  rewrite map_cons, concat_cons.
  assert (Hclen : length (take (S n) (x :: l)) = S n `min` length (x :: l))
    by apply length_take.
  destruct (decide (i < S n)) as [Hi|Hi].
  - rewrite (Nat.div_small i (S n)) by done.
    change (drop (0 * S n) (x :: l)) with (x :: l).
    assert (Hclook : take (S n) (x :: l) !! i = (x :: l) !! i)
      by (by apply lookup_take_lt).
    revert Hclen Hclook. generalize (take (S n) (x :: l)). intros c Hclen Hclook.
    destruct (decide (i < length c)) as [Hc|Hc].
    + rewrite lookup_app_l by (by rewrite length_map).
      by rewrite list_lookup_fmap, Hclook.
    + rewrite (lookup_ge_None_2 (x :: l)) by lia.
      rewrite (drop_ge l n) by (simpl in *; lia).
      rewrite chunks_fuel_nil, app_nil_r.
      apply lookup_ge_None_2. rewrite length_map. lia.
  - destruct (decide (S n <= length (x :: l))) as [Hc|Hc].
    + rewrite lookup_app_r by (rewrite length_map; lia).
      rewrite length_map, Hclen, Nat.min_l by done.
      rewrite IH by (rewrite length_drop; simpl in Hl; lia).
      change (drop n l) with (drop (S n) (x :: l)).
      rewrite lookup_drop, drop_drop.
      replace (S n + (i - S n)) with i by lia.
      replace i with ((i - S n) + 1 * S n) at 3 by lia.
      rewrite Nat.div_add by lia.
      replace (((i - S n) `div` S n + 1) * S n) with (S n + (i - S n) `div` S n * S n) by lia. done.
    + rewrite (lookup_ge_None_2 (x :: l)) by lia.
      rewrite (drop_ge l n) by (simpl in *; lia).
      rewrite chunks_fuel_nil, app_nil_r.
      apply lookup_ge_None_2. rewrite length_map. lia.
Qed.
End ChunkFacts.

Lemma chunks_concat {A} n (l : list A) : concat (chunks n l) = l.
Proof. by apply chunks_fuel_concat. Qed.

Lemma chunks_nil_iff {A} n (l : list A) : chunks n l = [] <-> l = [].
Proof. unfold chunks. destruct l; simpl; split; done. Qed.

Lemma DataLoader_Ok {A} (l : list A) bs :
  0 < bs -> DataLoader l bs false = Ok (chunks (Z.to_nat bs - 1) l).
Proof.
  intros Hbs. unfold DataLoader.
  destruct (Z.to_nat bs) as [|n] eqn:E; [lia|].
  by replace (S n - 1)%nat with n by lia.
Qed.

Lemma DataLoader_Ok_inv {A} (l : list A) bs dl b :
  DataLoader l bs dl = Ok b -> 0 < bs.
Proof.
  unfold DataLoader. destruct (Z.to_nat bs) eqn:E; [done|]. lia.
Qed.

(** ** In-place addition *)

Section TensorFacts.
Context {T : Type} {ops : TensorOps T}.

Lemma length_broadcast {A} n (d : A) l : length (broadcast n d l) = n.
Proof.
  unfold broadcast. destruct (length l =? n)%nat eqn:E.
  - by apply Nat.eqb_eq in E.
  - apply length_replicate.
Qed.

Lemma broadcast_same {A} n (d : A) l : length l = n -> broadcast n d l = l.
Proof. intros <-. unfold broadcast. by rewrite Nat.eqb_refl. Qed.

(** An axis of size 1 is repeated. *)
Lemma broadcast_one {A} n (d x : A) : broadcast n d [x] = replicate n x.
Proof.
  unfold broadcast. destruct (length [x] =? n)%nat eqn:E; [|done].
  apply Nat.eqb_eq in E. by subst n.
Qed.

Lemma iadd_length (a b c : list (list T)) : iadd a b = Ok c -> length c = length a.
Proof.
  unfold iadd. simpl.
  destruct (_ && _); [|done]. intros [= <-].
  rewrite length_zip_with, length_broadcast. lia.
Qed.

(** [iadd] succeeds exactly on broadcastable shapes. *)
Lemma iadd_is_Ok (a b : list (list T)) :
  (exists c, iadd a b = Ok c) <->
  (length b = length a \/ length b = 1%nat) /\
  (length (hd [] b) = length (hd [] a) \/ length (hd [] b) = 1%nat).
Proof.
  unfold iadd, broadcastable. simpl.
  destruct (length b =? length a)%nat eqn:E1, (length b =? 1)%nat eqn:E2,
    (length (hd [] b) =? length (hd [] a))%nat eqn:E3,
    (length (hd [] b) =? 1)%nat eqn:E4; simpl;
    rewrite ?Nat.eqb_eq, ?Nat.eqb_neq in *;
    (split; [intros [c Hc]; try done; split; eauto | intros [[?|?] [?|?]]; try done; eauto]).
Qed.

(** Rows of equal width add entry by entry. *)
Lemma iadd_rows (a b c : list (list T)) n i ra rb :
  iadd a b = Ok c ->
  length b = length a ->
  a !! i = Some ra -> b !! i = Some rb ->
  length ra = n -> length rb = n ->
  c !! i = Some (zip_with tadd ra rb).
Proof.
  unfold iadd. simpl. destruct (_ && _); [|done]. intros [= <-] Hlen Ha Hb Hra Hrb.
  rewrite broadcast_same by done.
  rewrite lookup_zip_with, Ha, Hb. simpl.
  by rewrite broadcast_same by congruence.
Qed.

Lemma iadd_Ok_same_shape (a b : list (list T)) :
  length b = length a -> length (hd [] b) = length (hd [] a) ->
  exists c, iadd a b = Ok c.
Proof. intros. apply iadd_is_Ok. auto. Qed.

(** The accumulator keeps the width of its rows, whatever is added. *)
Lemma iadd_widths n (a b c : list (list T)) :
  iadd a b = Ok c ->
  Forall (fun r => length r = n) a -> Forall (fun r => length r = n) c.
Proof.
  unfold iadd. simpl. destruct (_ && _); [|done]. intros [= <-] Ha.
  apply Forall_lookup. intros i r Hr.
  apply lookup_zip_with_Some in Hr as (ra & rb & -> & Hra & _).
  rewrite length_zip_with, length_broadcast.
  rewrite (Forall_lookup_1 _ a _ _ Ha Hra). lia.
Qed.

Lemma length_zeros r c : length (zeros (T:=T) r c) = r.
Proof. apply length_replicate. Qed.

Lemma zeros_lookup r c i : (i < r)%nat -> zeros (T:=T) r c !! i = Some (replicate c tzero).
Proof. intros. by apply lookup_replicate_2. Qed.

End TensorFacts.

(** ** Ensemble inference *)

Section InferenceFacts.
Context {T : Type} {ops : TensorOps T} {am : ArgMax T} {net : Network T}.
Import Inference.

Lemma inference_loop model s batches acc :
  for_each
    (fun output_prob data =>
       xlm ← contains_xlm (JStr s);
       let logits := forward model (negb xlm) data in
       Ok (output_prob ++ [logits]))
    batches acc
  = Ok (acc ++ map (forward model (negb (xlm_in s))) batches).
Proof.
  revert acc. induction batches as [|b bs IH]; intros acc; simpl.
  - by rewrite app_nil_r.
  - rewrite IH. by rewrite <- app_assoc.
Qed.

Lemma inference_loop_TypeError model mt batches acc :
  (forall s, mt <> JStr s) -> batches <> [] ->
  for_each
    (fun output_prob data =>
       xlm ← contains_xlm mt;
       let logits := forward model (negb xlm) data in
       Ok (output_prob ++ [logits]))
    batches acc
  = Raise TypeError.
Proof.
  intros Hmt Hb. destruct batches as [|b bs]; [done|].
  destruct mt; try done. by destruct (Hmt s).
Qed.

(** What [inference] returns, and when. *)
Lemma inference_Ok model ds s bs :
  0 < bs -> ds <> [] ->
  inference model ds (JStr s) bs
  = Ok (concat (map (forward model (negb (xlm_in s)))
                  (chunks (Z.to_nat bs - 1) ds))).
Proof.
  intros Hbs Hds. unfold inference.
  rewrite DataLoader_Ok by done. cbn [mbind result_bind].
  rewrite inference_loop. cbn [mbind result_bind app].
  unfold torch_cat.
  destruct (chunks (Z.to_nat bs - 1) ds) eqn:E; [|done].
  by apply chunks_nil_iff in E.
Qed.

Lemma inference_Ok_inv model ds mt bs t :
  inference model ds mt bs = Ok t ->
  0 < bs /\ ds <> [] /\ exists s, mt = JStr s.
Proof.
  unfold inference. intros Ht.
  destruct (DataLoader ds bs false) as [batches|] eqn:E; [|done].
  pose proof (DataLoader_Ok_inv _ _ _ _ E) as Hbs.
  rewrite DataLoader_Ok in E by done. injection E as <-.
  cbn [mbind result_bind] in Ht.
  split; [done|].
  destruct (decide (ds = [])) as [->|Hds].
  { by destruct (Z.to_nat bs - 1)%nat. }
  split; [done|].
  destruct mt as [s| | | |]; eauto;
    rewrite inference_loop_TypeError in Ht; try done;
    by rewrite chunks_nil_iff.
Qed.

(** Row [i] of the logits [inference] returns belongs to example [i] of
    the data set. *)
Lemma inference_rows model ds mt bs t :
  inference model ds mt bs = Ok t ->
  length t = length ds /\
  forall i, t !! i =
    logits_of model (passes_token_type_ids mt) (batch_of bs ds i) <$> ds !! i.
Proof.
  intros Ht. destruct (inference_Ok_inv _ _ _ _ _ Ht) as (Hbs & Hds & s & ->).
  rewrite inference_Ok in Ht by done. injection Ht as <-.
  assert (Hn : Z.to_nat bs = S (Z.to_nat bs - 1)) by lia.
  assert (Hrows : forall i,
    concat (map (forward model (negb (xlm_in s))) (chunks (Z.to_nat bs - 1) ds)) !! i
    = logits_of model (negb (xlm_in s)) (batch_of bs ds i) <$> ds !! i).
  { intros i. unfold forward, chunks, batch_of.
    rewrite (chunks_fuel_rows (logits_of model (negb (xlm_in s)))) by done.
    cbv zeta. by rewrite <- Hn. }
  split; [|exact Hrows].
  apply Nat.le_antisymm.
  - apply Nat.nlt_ge. intros Hlt.
    destruct (lookup_lt_is_Some_2 _ _ Hlt) as [r Hr].
    rewrite Hrows, (lookup_ge_None_2 ds) in Hr; done.
  - apply Nat.nlt_ge. intros Hlt.
    destruct (lookup_lt_is_Some_2 _ _ Hlt) as [x Hx].
    pose proof (Hrows (length (concat (map (forward model (negb (xlm_in s)))
                  (chunks (Z.to_nat bs - 1) ds))))) as Hr.
    rewrite lookup_ge_None_2, Hx in Hr; done.
Qed.

(** The loop over the folds keeps the shape of the accumulator. *)
Lemma accumulate_loop_length fs md sm cfg bs ds folds acc probs :
  for_each
    (fun probs kfold_idx =>
       model ← load_model fs md sm cfg kfold_idx;
       prob_answer ← inference model ds (model_type cfg) bs;
       iadd probs prob_answer)
    folds acc = Ok probs ->
  length probs = length acc.
Proof.
  revert acc. induction folds as [|f folds IH]; intros acc; simpl.
  - by intros [= <-].
  - destruct (load_model fs md sm cfg f) as [w|]; [|done]. simpl.
    destruct (inference w ds (model_type cfg) bs) as [t|]; [|done]. simpl.
    destruct (iadd acc t) as [acc'|] eqn:E; [|done]. simpl.
    intros Hp. rewrite (IH _ Hp). by apply iadd_length in E.
Qed.

(** With as many accumulator rows as test examples, row [i] collects the
    logits of example [i], fold after fold. *)
Lemma accumulate_loop_rows fs md sm cfg bs ds folds acc probs :
  (forall w tt b x, length (logits_of w tt b x) = ACC_COLS) ->
  for_each
    (fun probs kfold_idx =>
       model ← load_model fs md sm cfg kfold_idx;
       prob_answer ← inference model ds (model_type cfg) bs;
       iadd probs prob_answer)
    folds acc = Ok probs ->
  length acc = length ds ->
  Forall (fun r => length r = ACC_COLS) acc ->
  exists ws,
    Forall2 (fun f w => load_model fs md sm cfg f = Ok w) folds ws /\
    forall i x r0, ds !! i = Some x -> acc !! i = Some r0 ->
      probs !! i = Some (fold_left (zip_with tadd)
                           (map (example_logits cfg bs ds i x) ws) r0).
Proof.
  intros Hwidth. revert acc.
  induction folds as [|f folds IH]; intros acc; simpl.
  - intros [= <-] _ _. exists []. split; [constructor|]. by intros i x r0 _ ->.
  - destruct (load_model fs md sm cfg f) as [w|] eqn:Hw; [|done]. simpl.
    destruct (inference w ds (model_type cfg) bs) as [t|] eqn:Ht; [|done]. simpl.
    destruct (iadd acc t) as [acc'|] eqn:E; [|done]. simpl.
    intros Hp Hlen Hacc.
    destruct (inference_rows _ _ _ _ _ Ht) as [Htlen Htrows].
    assert (Hstep : forall i x r0, ds !! i = Some x -> acc !! i = Some r0 ->
              acc' !! i = Some (zip_with tadd r0 (example_logits cfg bs ds i x w))).
    { intros i x r0 Hx Hr0.
      apply (iadd_rows acc t acc' ACC_COLS); try done.
      - congruence.
      - by rewrite Htrows, Hx.
      - exact (Forall_lookup_1 _ acc _ _ Hacc Hr0).
      - apply Hwidth. }
    destruct (IH acc' Hp) as (ws & Hws & Hrows).
    + apply iadd_length in E. congruence.
    + apply Forall_lookup. intros i r Hr.
      assert (Hi : (i < length ds)%nat).
      { apply iadd_length in E. apply lookup_lt_Some in Hr. lia. }
      destruct (lookup_lt_is_Some_2 ds i Hi) as [x Hx].
      destruct (lookup_lt_is_Some_2 acc i ltac:(lia)) as [r0 Hr0].
      rewrite (Hstep _ _ _ Hx Hr0) in Hr. injection Hr as <-.
      rewrite length_zip_with. unfold example_logits. rewrite Hwidth.
      rewrite (Forall_lookup_1 _ acc _ _ Hacc Hr0). lia.
    + exists (w :: ws). split; [by constructor|].
      intros i x r0 Hx Hr0. simpl. eauto.
Qed.

(** Conversely, the loop over the folds goes through when every
    checkpoint loads, the batch size is positive, the model type is a
    string and the test set has as many rows as the accumulator. *)
Lemma accumulate_loop_Ok fs md sm cfg bs ds s folds ws acc :
  (forall w tt b x, length (logits_of w tt b x) = ACC_COLS) ->
  0 < bs -> model_type cfg = JStr s -> ds <> [] ->
  Forall2 (fun f w => load_model fs md sm cfg f = Ok w) folds ws ->
  length acc = length ds ->
  Forall (fun r => length r = ACC_COLS) acc ->
  exists probs,
    for_each
      (fun probs kfold_idx =>
         model ← load_model fs md sm cfg kfold_idx;
         prob_answer ← inference model ds (model_type cfg) bs;
         iadd probs prob_answer)
      folds acc = Ok probs /\
    Forall (fun r => length r = ACC_COLS) probs.
Proof.
  intros Hwidth Hbs Hmt Hds Hws. revert acc.
  induction Hws as [|f w folds ws Hw Hws IH]; intros acc Hlen Hacc; simpl.
  - eauto.
  - rewrite Hw. cbn [mbind result_bind].
    destruct (inference w ds (model_type cfg) bs) as [t|] eqn:Ht.
    2:{ rewrite Hmt, inference_Ok in Ht by done. done. }
    cbn [mbind result_bind].
    destruct (inference_rows _ _ _ _ _ Ht) as [Htlen Htrows].
    assert (Hhd : forall (m : list (list T)),
              m <> [] -> Forall (fun r => length r = ACC_COLS) m ->
              length (hd [] m) = ACC_COLS).
    { intros [|r m] Hm Hf; [done|]. by inversion Hf. }
    assert (Ht30 : Forall (fun r => length r = ACC_COLS) t).
    { apply Forall_lookup. intros i r Hr. rewrite Htrows in Hr.
      destruct (ds !! i); [|done]. injection Hr as <-. apply Hwidth. }
    destruct (iadd_Ok_same_shape acc t) as [acc' E].
    + congruence.
    + rewrite !Hhd; try done.
      * intros ->. destruct ds; done.
      * intros ->. destruct ds; done.
    + rewrite E. cbn [mbind result_bind]. apply IH.
      * apply iadd_length in E. congruence.
      * apply Forall_lookup. intros i r Hr.
        assert (Hi : (i < length ds)%nat).
        { apply iadd_length in E. apply lookup_lt_Some in Hr. lia. }
        destruct (lookup_lt_is_Some_2 acc i ltac:(lia)) as [r0 Hr0].
        destruct (lookup_lt_is_Some_2 t i ltac:(lia)) as [r1 Hr1].
        rewrite (iadd_rows acc t acc' ACC_COLS i r0 r1) in Hr; try done.
        -- injection Hr as <-. rewrite length_zip_with.
           rewrite (Forall_lookup_1 _ acc _ _ Hacc Hr0).
           rewrite (Forall_lookup_1 _ t _ _ Ht30 Hr1). lia.
        -- congruence.
        -- exact (Forall_lookup_1 _ acc _ _ Hacc Hr0).
        -- exact (Forall_lookup_1 _ t _ _ Ht30 Hr1).
Qed.

(** A test set of a single row also goes through: its one row of logits
    is broadcast over the rows of the accumulator. *)
Lemma accumulate_loop_Ok_one_row fs md sm cfg bs x s folds ws acc :
  (forall w tt b x, length (logits_of w tt b x) = ACC_COLS) ->
  0 < bs -> model_type cfg = JStr s ->
  Forall2 (fun f w => load_model fs md sm cfg f = Ok w) folds ws ->
  acc <> [] ->
  Forall (fun r => length r = ACC_COLS) acc ->
  exists probs,
    for_each
      (fun probs kfold_idx =>
         model ← load_model fs md sm cfg kfold_idx;
         prob_answer ← inference model [x] (model_type cfg) bs;
         iadd probs prob_answer)
      folds acc = Ok probs.
Proof.
  intros Hwidth Hbs Hmt Hws. revert acc.
  induction Hws as [|f w folds ws Hw Hws IH]; intros acc Hne Hacc; simpl.
  - eauto.
  - rewrite Hw. cbn [mbind result_bind].
    destruct (inference w [x] (model_type cfg) bs) as [t|] eqn:Ht.
    2:{ rewrite Hmt, inference_Ok in Ht by done. done. }
    cbn [mbind result_bind].
    destruct (inference_rows _ _ _ _ _ Ht) as [Htlen Htrows].
    destruct t as [|row [|? ?]]; try done.
    assert (Hrow : length row = ACC_COLS).
    { specialize (Htrows 0%nat). simpl in Htrows. injection Htrows as ->.
      apply Hwidth. }
    destruct (proj2 (iadd_is_Ok acc [row])) as [acc' E].
    { split; [by right|]. left. simpl. rewrite Hrow.
      destruct acc as [|r acc]; [done|]. simpl. by inversion Hacc. }
    rewrite E. cbn [mbind result_bind]. apply IH.
    + intros ->. apply iadd_length in E. by destruct acc.
    + by apply (iadd_widths _ _ _ _ E).
Qed.

(** With at least one fold, the accumulation goes through exactly for a
    test set of [ACC_ROWS] rows or of one row. *)
Lemma accumulate_is_Ok_iff fs md sm cfg bs ds s folds ws :
  (forall w tt b x, length (logits_of w tt b x) = ACC_COLS) ->
  folds <> [] ->
  Forall2 (fun f w => load_model fs md sm cfg f = Ok w) folds ws ->
  0 < bs -> model_type cfg = JStr s ->
  (exists probs, accumulate fs md sm cfg bs ds folds = Ok probs) <->
  length ds = ACC_ROWS \/ length ds = 1%nat.
Proof.
  intros Hwidth Hne Hws Hbs Hmt. unfold accumulate. split.
  - intros [probs Hprobs].
    destruct Hws as [|f w folds ws Hw Hws]; [done|].
    simpl in Hprobs. rewrite Hw in Hprobs. cbn [mbind result_bind] in Hprobs.
    destruct (inference w ds (model_type cfg) bs) as [t|] eqn:Ht; [|done].
    cbn [mbind result_bind] in Hprobs.
    destruct (iadd (zeros ACC_ROWS ACC_COLS) t) as [acc'|] eqn:E; [|done].
    destruct (inference_rows _ _ _ _ _ Ht) as [Htlen _].
    destruct (proj1 (iadd_is_Ok _ t) (ex_intro _ _ E)) as [[Hr|Hr] _].
    + left. rewrite length_zeros in Hr. congruence.
    + right. congruence.
  - intros [Hlen|Hlen].
    + assert (Hds : ds <> []) by (by intros ->).
      assert (Hz : length (zeros (T:=T) ACC_ROWS ACC_COLS) = length ds)
        by (by rewrite length_zeros).
      assert (Hz30 : Forall (fun r : list T => length r = ACC_COLS)
                       (zeros ACC_ROWS ACC_COLS))
        by (apply Forall_replicate, length_replicate).
      destruct (accumulate_loop_Ok fs md sm cfg bs ds s folds ws
                  (zeros ACC_ROWS ACC_COLS) Hwidth Hbs Hmt Hds Hws Hz Hz30)
        as (probs & Hprobs & _).
      eauto.
    + destruct ds as [|x [|? ?]]; try done.
      apply (accumulate_loop_Ok_one_row fs md sm cfg bs x s folds ws); try done.
      apply Forall_replicate. apply length_replicate.
Qed.

Lemma num_to_label_is_Ok (dict : gmap Z string) preds acc :
  Forall (fun p => is_Some (dict !! p)) preds ->
  exists labels,
    for_each (fun origin_label v =>
                match dict !! v with
                | Some l => Ok (origin_label ++ [l])
                | None => Raise (KeyError (str_of_int v))
                end) preds acc = Ok labels /\
    length labels = (length acc + length preds)%nat.
Proof.
  intros Hp. revert acc. induction Hp as [|p preds [l Hl] Hp IH]; intros acc; simpl.
  - exists acc. split; [done | lia].
  - rewrite Hl. cbn [mbind result_bind].
    destruct (IH (acc ++ [l])) as (labels & -> & Hlen).
    exists labels. split; [done|]. rewrite length_app in Hlen. simpl in Hlen. lia.
Qed.

Lemma num_to_label_loop (dict : gmap Z string) preds acc labels :
  for_each (fun origin_label v =>
              match dict !! v with
              | Some l => Ok (origin_label ++ [l])
              | None => Raise (KeyError (str_of_int v))
              end) preds acc = Ok labels ->
  exists ls, labels = acc ++ ls /\
             Forall2 (fun (p : Z) (l : string) => dict !! p = Some l) preds ls.
Proof.
  revert acc. induction preds as [|p preds IH]; intros acc; simpl.
  - intros [= <-]. exists []. by rewrite app_nil_r.
  - destruct (dict !! p) as [l|] eqn:E; [|done]. simpl. intros Hl.
    destruct (IH _ Hl) as (ls & -> & Hls).
    exists (l :: ls). rewrite <- app_assoc. split; [done|]. by constructor.
Qed.

Lemma num_to_label_Ok (dict : gmap Z string) preds labels :
  num_to_label dict preds = Ok labels ->
  Forall2 (fun (p : Z) (l : string) => dict !! p = Some l) preds labels.
Proof.
  intros Hl. by destruct (num_to_label_loop _ _ _ _ Hl) as (ls & -> & Hls).
Qed.

Lemma DataFrame_Ok (ids : list Z) labels (probs : list (list T)) out :
  DataFrame ids labels probs = Ok out ->
  length labels = length ids /\ length probs = length ids /\
  length out = length ids /\
  forall i id l p, ids !! i = Some id -> labels !! i = Some l ->
    probs !! i = Some p ->
    out !! i = Some {| pred_id := id; pred_label := l; pred_probs := p |}.
Proof.
  unfold DataFrame.
  destruct (length labels =? length ids)%nat eqn:E1; [|done].
  destruct (length probs =? length ids)%nat eqn:E2; [|done]. cbn [andb].
  apply Nat.eqb_eq in E1, E2. intros [= <-].
  repeat split; try done.
  - rewrite length_zip_with.
    pose proof (length_zip_with pair ids labels) as Hz. lia.
  - intros i id l p Hid Hl Hp.
    apply lookup_zip_with_Some. exists (id, l), p.
    split; [done|]. split; [by apply lookup_zip_Some | done].
Qed.

(** Every table [predict] returns: one row per test example, in the order
    of the test set, each with the example's id, the probability vector of
    the ensemble for that example and the label of its arg-max. *)
Lemma predict_rows (a : args) (env : environment) cfg tok out :
  (forall w tt b x, length (logits_of w tt b x) = ACC_COLS) ->
  predict a env cfg tok = Ok out ->
  let test := load_test_dataset env tok (token_type cfg) (sep_type cfg) in
  exists k ws,
    py_int (kfold_splits cfg) = Ok k /\
    Forall2 (fun f w => load_model (env_fs env) (model_dir a) (select_model a)
                          cfg f = Ok w) (py_range k) ws /\
    length test = ACC_ROWS /\
    length out = length test /\
    forall i id x, test !! i = Some (id, x) ->
      exists l,
        let p := ensemble_probs k
                   (map (example_logits cfg (batch_size a) (map snd test) i x) ws) in
        out !! i = Some {| pred_id := id; pred_label := l; pred_probs := p |} /\
        dict_num_to_label env !! argmax_row p = Some l.
Proof.
  intros Hwidth. unfold predict.
  set (test := load_test_dataset env tok (token_type cfg) (sep_type cfg)).
  destruct (_ && _); [|done]. cbn [mbind result_bind].
  destruct (py_int (kfold_splits cfg)) as [k|] eqn:Hk; [|done].
  cbn [mbind result_bind].
  destruct (accumulate _ _ _ _ _ _ _) as [probs|] eqn:Hacc; [|done].
  cbn [mbind result_bind].
  destruct (num_to_label _ _) as [pred_answer|] eqn:Hl; [|done].
  cbn [mbind result_bind].
  intros Hout.
  destruct (DataFrame_Ok _ _ _ _ Hout) as (Hlen1 & Hlen2 & Hlen3 & Hrows).
  apply num_to_label_Ok in Hl.
  unfold accumulate in Hacc.
  pose proof (accumulate_loop_length _ _ _ _ _ _ _ _ _ Hacc) as Hplen.
  rewrite length_zeros in Hplen.
  assert (Htest : length test = ACC_ROWS).
  { unfold tensor_div in Hlen2. rewrite !length_map in Hlen2. congruence. }
  destruct (accumulate_loop_rows _ _ _ _ _ _ _ _ _ Hwidth Hacc) as (ws & Hws & Hprobs).
  { by rewrite length_zeros, length_map. }
  { apply Forall_replicate. apply length_replicate. }
  exists k, ws. repeat split; try done.
  { by rewrite Hlen3, length_map. }
  intros i id x Hi.
  assert (Hx : map snd test !! i = Some x) by (by rewrite list_lookup_fmap, Hi).
  assert (Hz : zeros (T:=T) ACC_ROWS ACC_COLS !! i = Some (replicate ACC_COLS tzero)).
  { apply zeros_lookup. apply lookup_lt_Some in Hi. lia. }
  pose proof (Hprobs _ _ _ Hx Hz) as Hp.
  set (p := ensemble_probs k
              (map (example_logits cfg (batch_size a) (map snd test) i x) ws)).
  assert (Hp' : map softmax_row (tensor_div probs k) !! i = Some p).
  { unfold tensor_div. by rewrite !list_lookup_fmap, Hp. }
  assert (Hpred : map argmax_row (map softmax_row (tensor_div probs k)) !! i
                  = Some (argmax_row p)).
  { by rewrite list_lookup_fmap, Hp'. }
  destruct (Forall2_lookup_l _ _ _ _ _ Hl Hpred) as (l & Hlab & Hdict).
  exists l. split; [|done].
  apply Hrows; try done. by rewrite list_lookup_fmap, Hi.
Qed.

Lemma length_summed_logits (rows : list (list T)) :
  Forall (fun r => length r = ACC_COLS) rows ->
  length (summed_logits rows) = ACC_COLS.
Proof.
  unfold summed_logits. intros Hrows.
  assert (Hgen : forall r0, length r0 = ACC_COLS ->
            length (fold_left (zip_with tadd) rows r0) = ACC_COLS).
  { induction Hrows as [|r rows Hr Hrows IH]; intros r0 Hr0; simpl; [done|].
    apply IH. rewrite length_zip_with. lia. }
  apply Hgen, length_replicate.
Qed.

(** A run of [predict] goes through under the conditions its steps
    check. *)
Lemma predict_Ok (a : args) (env : environment) cfg tok k ws s :
  (forall w tt b x, length (logits_of w tt b x) = ACC_COLS) ->
  let test := load_test_dataset env tok (token_type cfg) (sep_type cfg) in
  0 <= data_idx env < Z.of_nat (length test) ->
  py_int (kfold_splits cfg) = Ok k ->
  Forall2 (fun f w => load_model (env_fs env) (model_dir a) (select_model a)
                        cfg f = Ok w) (py_range k) ws ->
  0 < batch_size a ->
  model_type cfg = JStr s ->
  length test = ACC_ROWS ->
  (forall row, length row = ACC_COLS ->
     is_Some (dict_num_to_label env !! argmax_row (softmax_row row))) ->
  exists out, predict a env cfg tok = Ok out.
Proof.
  intros Hwidth test Hidx Hk Hws Hbs Hmt Hlen Hdict. unfold predict. fold test.
  rewrite length_map.
  replace ((0 <=? data_idx env) && (data_idx env <? Z.of_nat (length test)))
    with true by (symmetry; apply andb_true_iff; split; lia).
  cbn [mbind result_bind]. rewrite Hk. cbn [mbind result_bind].
  destruct (accumulate_loop_Ok (env_fs env) (model_dir a) (select_model a) cfg
              (batch_size a) (map snd test) s (py_range k) ws
              (zeros ACC_ROWS ACC_COLS)) as (probs & Hprobs & Hp30); try done.
  { intros E. apply (f_equal length) in E. rewrite length_map, Hlen in E. done. }
  { by rewrite length_zeros, length_map. }
  { apply Forall_replicate. apply length_replicate. }
  unfold accumulate. rewrite Hprobs. cbn [mbind result_bind].
  pose proof (accumulate_loop_length _ _ _ _ _ _ _ _ _ Hprobs) as Hplen.
  rewrite length_zeros in Hplen.
  destruct (num_to_label_is_Ok (dict_num_to_label env)
              (map argmax_row (map softmax_row (tensor_div probs k))) [])
    as (labels & Hlabels & Hllen).
  { apply Forall_forall. intros p Hp.
    apply list_elem_of_fmap in Hp as (row & -> & Hrow).
    apply list_elem_of_fmap in Hrow as (row' & -> & Hrow). apply Hdict.
    unfold tensor_div in Hrow.
    apply list_elem_of_fmap in Hrow as (row & -> & Hrow).
    rewrite length_map. by apply (proj1 (Forall_forall _ _) Hp30). }
  unfold num_to_label. rewrite Hlabels. cbn [mbind result_bind].
  unfold DataFrame.
  unfold tensor_div in *. rewrite !length_map in *. simpl in Hllen.
  replace (length labels =? length test)%nat with true
    by (symmetry; apply Nat.eqb_eq; lia).
  replace (length probs =? length test)%nat with true
    by (symmetry; apply Nat.eqb_eq; lia).
  cbn [andb]. eauto.
Qed.

End InferenceFacts.

(** ** Soft-max and arg-max over the reals *)

Section RealFacts.
Import RealTensor.
Open Scope R_scope.

Lemma Rsum_exp_pos row : row <> [] -> 0 < Rsum (map exp row).
Proof.
  destruct row as [|x row]; [done|]. intros _. simpl.
  assert (Hge : 0 <= Rsum (map exp row)).
  { induction row as [|y row IH]; simpl; [Lra.lra|].
    pose proof (exp_pos y). Lra.lra. }
  pose proof (exp_pos x). Lra.lra.
Qed.

Lemma Rsum_map_div (s : R) (f : R -> R) row :
  Rsum (map (fun x => f x / s) row) = Rsum (map f row) / s.
Proof.
  induction row as [|x row IH]; simpl.
  - unfold Rdiv. by rewrite Rmult_0_l.
  - rewrite IH. unfold Rdiv. by rewrite Rmult_plus_distr_r.
Qed.

Lemma R_softmax_sum row : row <> [] -> Rsum (R_softmax row) = 1.
Proof.
  intros Hrow. unfold R_softmax. cbv zeta.
  rewrite (Rsum_map_div _ exp).
  apply Rdiv_diag. pose proof (Rsum_exp_pos row Hrow). Lra.lra.
Qed.

Lemma length_R_softmax row : length (R_softmax row) = length row.
Proof. unfold R_softmax. apply length_map. Qed.

Lemma R_argmax_from_spec pre l best best_i :
  pre !! best_i = Some best ->
  (forall i x, pre !! i = Some x ->
     x <= best /\ ((i < best_i)%nat -> x < best)) ->
  exists m, (pre ++ l) !! R_argmax_from best best_i (length pre) l = Some m /\
    forall i x, (pre ++ l) !! i = Some x ->
      x <= m /\ ((i < R_argmax_from best best_i (length pre) l)%nat -> x < m).
Proof.
  revert pre best best_i. induction l as [|y l IH]; intros pre best best_i Hb Hmax.
  - simpl. rewrite app_nil_r. eauto.
  - simpl. replace (pre ++ y :: l) with ((pre ++ [y]) ++ l) by (by rewrite <- app_assoc).
    replace (S (length pre)) with (length (pre ++ [y]))
      by (rewrite length_app; simpl; lia).
    destruct (Rlt_dec best y) as [Hlt|Hge].
    + apply IH.
      * by apply list_lookup_middle.
      * intros i x Hx. apply lookup_snoc_Some in Hx as [[Hi Hx]|[-> <-]].
        -- destruct (Hmax _ _ Hx). split; [Lra.lra|]. intros _. Lra.lra.
        -- split; [Lra.lra|]. lia.
    + apply IH.
      * by apply lookup_app_l_Some.
      * intros i x Hx. apply lookup_snoc_Some in Hx as [[Hi Hx]|[-> <-]].
        -- by apply Hmax.
        -- split; [Lra.lra|]. apply lookup_lt_Some in Hb. lia.
Qed.

Lemma R_argmax_first_max row : row <> [] -> first_max row (R_argmax row).
Proof.
  destruct row as [|x l]; [done|]. intros _.
  destruct (R_argmax_from_spec [x] l x 0%nat) as (m & Hm & Hmax); [done| |].
  { intros [|i] y Hy; [|done]. injection Hy as <-. split; [Lra.lra|lia]. }
  exists m. unfold R_argmax. rewrite Nat2Z.id. split; [exact Hm|]. split; [lia|].
  exact Hmax.
Qed.

Lemma R_argmax_range row : row <> [] -> (0 <= R_argmax row < Z.of_nat (length row))%Z.
Proof.
  intros Hrow. destruct (R_argmax_first_max row Hrow) as (m & Hm & H0 & _).
  apply lookup_lt_Some in Hm. lia.
Qed.

(** The accumulator row, started at zero and added fold after fold, holds
    the column sums. *)
Lemma fold_zip_Rplus_lookup n rows r0 c :
  Forall (fun r => length r = n) rows -> length r0 = n -> (c < n)%nat ->
  fold_left (zip_with Rplus) rows r0 !! c
  = Some (nth c r0 0 + Rsum (column c rows)).
Proof.
  intros Hrows. revert r0.
  induction Hrows as [|r rows Hr Hrows IH]; intros r0 Hr0 Hc; simpl.
  - rewrite Rplus_0_r. rewrite nth_lookup.
    destruct (lookup_lt_is_Some_2 r0 c ltac:(lia)) as [x ->]. done.
  - rewrite IH; [|rewrite length_zip_with; lia|done].
    f_equal. rewrite !nth_lookup, lookup_zip_with.
    destruct (lookup_lt_is_Some_2 r0 c ltac:(lia)) as [x ->].
    destruct (lookup_lt_is_Some_2 r c ltac:(lia)) as [y ->]. simpl. Lra.lra.
Qed.

Lemma summed_logits_mean (rows : list (list R)) k :
  Forall (fun r => length r = Inference.ACC_COLS) rows ->
  k = Z.of_nat (length rows) ->
  map (fun v => tdiv v k) (Inference.summed_logits rows) = arithmetic_mean rows.
Proof.
  intros Hrows ->. apply list_eq. intros c.
  unfold arithmetic_mean, Inference.summed_logits.
  rewrite !list_lookup_fmap.
  destruct (decide (c < Inference.ACC_COLS)%nat) as [Hc|Hc].
  - rewrite lookup_seq_lt by done.
    rewrite (fold_zip_Rplus_lookup Inference.ACC_COLS); try done.
    + rewrite nth_lookup, lookup_replicate_2 by done.
      cbn [fmap option_fmap option_map default tdiv tzero real_ops Nat.add].
      by rewrite Rplus_0_l, INR_IZR_INZ.
  - rewrite lookup_seq_ge by lia.
    rewrite lookup_ge_None_2; [done|].
    pose proof (length_summed_logits (T:=R) rows Hrows) as Hl.
    unfold Inference.summed_logits in Hl. lia.
Qed.

End RealFacts.

(** ** The demo run *)

Section DemoFacts.
Import Inference RealTensor Demo.

Lemma demo_width : forall (w : weights) tt b x,
  length (logits_of w tt b x) = ACC_COLS.
Proof. reflexivity. Qed.

Lemma demo_load_config :
  load_run_config demo_fs (model_dir demo_args) = Ok demo_cfg.
Proof. reflexivity. Qed.

Lemma demo_checkpoints :
  Forall2 (fun f w => load_model demo_fs (model_dir demo_args)
                        (select_model demo_args) demo_cfg f = Ok w)
    (py_range 2) [1; 2].
Proof. repeat constructor. Qed.

Lemma demo_dict_covers z : 0 <= z < 30 -> is_Some (demo_dict !! z).
Proof.
  intros Hz.
  assert (Hall : Forall (fun z => is_Some (demo_dict !! z)) (Metric.range 30)).
  { repeat constructor; vm_compute; eauto. }
  apply (proj1 (Forall_forall _ _) Hall).
  unfold Metric.range. apply list_elem_of_fmap. exists (Z.to_nat z).
  split; [lia|]. apply elem_of_seq. lia.
Qed.

Lemma demo_labels row :
  length row = ACC_COLS -> is_Some (demo_dict !! argmax_row (softmax_row row)).
Proof.
  intros Hrow. apply demo_dict_covers.
  pose proof (R_argmax_range (R_softmax row)) as Hr.
  rewrite length_R_softmax, Hrow in Hr.
  apply Hr. intros E. apply (f_equal length) in E.
  rewrite length_R_softmax, Hrow in E. done.
Qed.

Lemma demo_predict_Ok :
  exists out, predict demo_args (demo_env ACC_ROWS) demo_cfg AutoTokenizer = Ok out.
Proof.
  apply (predict_Ok demo_args (demo_env ACC_ROWS) demo_cfg AutoTokenizer 2 [1; 2]
           "klue/roberta-large").
  - exact demo_width.
  - cbn [load_test_dataset demo_env data_idx]. rewrite length_map, length_seq.
    unfold ACC_ROWS. lia.
  - reflexivity.
  - exact demo_checkpoints.
  - reflexivity.
  - reflexivity.
  - cbn [load_test_dataset demo_env]. by rewrite length_map, length_seq.
  - exact demo_labels.
Qed.

Lemma demo_main_Ok : exists out, main demo_args (demo_env ACC_ROWS) = Ok out.
Proof.
  destruct demo_predict_Ok as [out Hout]. exists out.
  unfold main. change (env_fs (demo_env ACC_ROWS)) with demo_fs.
  rewrite demo_load_config. exact Hout.
Qed.

End DemoFacts.

(** ** Claims on the ensemble inference runner *)

Section InferenceClaims.
Import Inference RealTensor Demo.

(** C2: in every table [predict] returns over real-valued tensors, with a
    positive fold count [k] and networks that emit 30 logits, the
    probability vector of each test example is the soft-max, applied once,
    of the arithmetic mean of the [k] folds' logit vectors for that
    example; its components sum to 1 (exactly, over the reals); and the
    predicted label is the one of its arg-max, the first largest
    component. *)
Theorem C2_softmax_of_mean_logits {net : Network R} (a : args) (env : environment)
    cfg tok out k :
  (forall w tt b x, length (logits_of w tt b x) = ACC_COLS) ->
  predict a env cfg tok = Ok out ->
  py_int (kfold_splits cfg) = Ok k -> 0 < k ->
  let test := load_test_dataset env tok (token_type cfg) (sep_type cfg) in
  exists ws,
    Forall2 (fun f w => load_model (env_fs env) (model_dir a) (select_model a)
                          cfg f = Ok w) (py_range k) ws /\
    Z.of_nat (length ws) = k /\
    forall i id x, test !! i = Some (id, x) ->
      exists r, out !! i = Some r /\ pred_id r = id /\
        pred_probs r = R_softmax (arithmetic_mean
          (map (example_logits cfg (batch_size a) (map snd test) i x) ws)) /\
        Rsum (pred_probs r) = 1%R /\
        first_max (pred_probs r) (R_argmax (pred_probs r)) /\
        dict_num_to_label env !! R_argmax (pred_probs r) = Some (pred_label r).
Proof.
  intros Hwidth Hout Hk Hpos test.
  destruct (predict_rows a env cfg tok out Hwidth Hout)
    as (k' & ws & Hk' & Hws & Hlen & Hlen' & Hrows).
  assert (k' = k) as -> by congruence.
  assert (Hkws : Z.of_nat (length ws) = k).
  { rewrite <- (Forall2_length _ _ _ Hws). unfold py_range.
    rewrite length_map, length_seq. lia. }
  exists ws. split; [done|]. split; [done|].
  intros i id x Hi. destruct (Hrows i id x Hi) as (l & Hrow & Hdict).
  set (rows := map (example_logits cfg (batch_size a) (map snd test) i x) ws).
  assert (Hkrows : k = Z.of_nat (length rows))
    by (unfold rows; rewrite length_map; done).
  assert (Hrows30 : Forall (fun r => length r = ACC_COLS) rows).
  { apply Forall_forall. intros r Hr.
    apply list_elem_of_fmap in Hr as (w & -> & _). apply Hwidth. }
  assert (Hp : ensemble_probs k rows = R_softmax (arithmetic_mean rows)).
  { unfold ensemble_probs.
    rewrite (summed_logits_mean rows k Hrows30 Hkrows). reflexivity. }
  assert (Hne : R_softmax (arithmetic_mean rows) <> []).
  { intros E. apply (f_equal length) in E.
    rewrite length_R_softmax in E. unfold arithmetic_mean in E.
    rewrite length_map, length_seq in E. discriminate E. }
  assert (Hne' : arithmetic_mean rows <> []).
  { intros E. apply Hne. by rewrite E. }
  exists {| pred_id := id; pred_label := l; pred_probs := ensemble_probs k rows |}.
  split; [exact Hrow|].
  unfold pred_id, pred_probs, pred_label.
  split; [reflexivity|]. split; [exact Hp|].
  rewrite Hp. split; [apply R_softmax_sum; exact Hne'|].
  split; [apply R_argmax_first_max; exact Hne|].
  rewrite <- Hp. exact Hdict.
Qed.

Lemma C2_witness :
  exists out,
    (forall (w : weights) tt b x, length (logits_of w tt b x) = ACC_COLS) /\
    predict demo_args (demo_env ACC_ROWS) demo_cfg AutoTokenizer = Ok out /\
    py_int (kfold_splits demo_cfg) = Ok 2 /\ 0 < 2 /\
    exists ws,
      Forall2 (fun f w => load_model demo_fs (model_dir demo_args)
                            (select_model demo_args) demo_cfg f = Ok w)
        (py_range 2) ws /\
      Z.of_nat (length ws) = 2 /\
      forall i id x,
        load_test_dataset (demo_env ACC_ROWS) AutoTokenizer
          (token_type demo_cfg) (sep_type demo_cfg) !! i = Some (id, x) ->
        exists r, out !! i = Some r /\ pred_id r = id /\
          pred_probs r = R_softmax (arithmetic_mean
            (map (example_logits demo_cfg (batch_size demo_args)
                    (map snd (load_test_dataset (demo_env ACC_ROWS) AutoTokenizer
                                (token_type demo_cfg) (sep_type demo_cfg))) i x) ws)) /\
          Rsum (pred_probs r) = 1%R /\
          first_max (pred_probs r) (R_argmax (pred_probs r)) /\
          demo_dict !! R_argmax (pred_probs r) = Some (pred_label r).
Proof.
  destruct demo_predict_Ok as [out Hout]. exists out.
  split; [exact demo_width|]. split; [exact Hout|].
  split; [reflexivity|]. split; [lia|].
  exact (C2_softmax_of_mean_logits demo_args (demo_env ACC_ROWS) demo_cfg
           AutoTokenizer out 2 demo_width Hout eq_refl ltac:(lia)).
Defined.

(** C3, as amended: the accumulator is allocated with the literal row
    count 7765, whatever the test set; with at least one fold (checkpoints
    loading, positive batch size, networks emitting 30 logits) the
    accumulation of the folds' logits goes through exactly when the test
    set has 7765 rows or a single row, whose logits are broadcast over all
    7765 accumulator rows, and raises for every other size; what it
    returns always has 7765 rows. *)
Theorem C3_accumulator_rows_hard_coded {T} {ops : TensorOps T} {net : Network T}
    fs md sm cfg bs (ds : list example) s folds ws :
  (forall w tt b x, length (logits_of w tt b x) = ACC_COLS) ->
  folds <> [] ->
  Forall2 (fun f w => load_model fs md sm cfg f = Ok w) folds ws ->
  0 < bs -> model_type cfg = JStr s ->
  ((exists probs, accumulate fs md sm cfg bs ds folds = Ok probs) <->
   length ds = Z.to_nat 7765 \/ length ds = 1%nat) /\
  (forall probs, accumulate fs md sm cfg bs ds folds = Ok probs ->
     length probs = Z.to_nat 7765).
Proof.
  intros Hwidth Hne Hws Hbs Hmt. split.
  - by apply (accumulate_is_Ok_iff fs md sm cfg bs ds s folds ws).
  - intros probs Hprobs. unfold accumulate in Hprobs.
    apply accumulate_loop_length in Hprobs. by rewrite length_zeros in Hprobs.
Qed.

Lemma C3_witness :
  (forall (w : weights) tt b x, length (logits_of w tt b x) = ACC_COLS) /\
  py_range 2 <> [] /\
  Forall2 (fun f w => load_model (net:=bias_network) demo_fs ["results"%string]
                        "best_loss" demo_cfg f = Ok w) (py_range 2) [1; 2] /\
  0 < 62 /\ model_type demo_cfg = JStr "klue/roberta-large" /\
  ((exists probs, accumulate (net:=bias_network) demo_fs ["results"%string]
                    "best_loss" demo_cfg 62 [(); ()] (py_range 2) = Ok probs) <->
   length [(); ()] = Z.to_nat 7765 \/ length [(); ()] = 1%nat) /\
  (forall probs, accumulate (net:=bias_network) demo_fs ["results"%string]
                   "best_loss" demo_cfg 62 [(); ()] (py_range 2) = Ok probs ->
     length probs = Z.to_nat 7765).
Proof.
  assert (Hne : py_range 2 <> []) by done.
  assert (Hbs : 0 < 62) by lia.
  split; [exact demo_width|]. split; [exact Hne|].
  split; [exact demo_checkpoints|]. split; [exact Hbs|]. split; [reflexivity|].
  exact (C3_accumulator_rows_hard_coded (net:=bias_network) demo_fs
           ["results"%string] "best_loss" demo_cfg 62 [(); ()]
           "klue/roberta-large" (py_range 2) [1; 2]
           demo_width Hne demo_checkpoints Hbs eq_refl).
Defined.

(** C3 as stated fails: a test set of one row, not 7765, is accumulated
    without error over both folds. *)
Lemma C3_one_row_counterexample :
  length [()] <> Z.to_nat 7765 /\
  exists probs, accumulate (net:=bias_network) demo_fs ["results"%string]
                  "best_loss" demo_cfg 62 [()] (py_range 2) = Ok probs.
Proof.
  assert (Hne : py_range 2 <> []) by done.
  assert (Hbs : 0 < 62) by lia.
  split; [done|].
  apply (proj2 (accumulate_is_Ok_iff (net:=bias_network) demo_fs ["results"%string]
                  "best_loss" demo_cfg 62 [()] "klue/roberta-large" (py_range 2)
                  [1; 2] demo_width Hne demo_checkpoints Hbs eq_refl)).
  by right.
Qed.

(** C8: every table [main] writes has one row per example of the loaded
    test set, in the order of the test set: [inference] draws the batches
    unshuffled, so row [i] of a fold's logits is computed from example [i]
    (inside the batch that holds it); and row [i] of the table carries the
    id of example [i], the ensemble's probability vector for example [i]
    and the label of that vector's arg-max. *)
Theorem C8_rows_in_test_set_order {T} {ops : TensorOps T} {am : ArgMax T}
    {net : Network T} (a : args) (env : environment) out :
  (forall w tt b x, length (logits_of w tt b x) = ACC_COLS) ->
  main a env = Ok out ->
  exists cfg tok k ws,
    load_run_config (env_fs env) (model_dir a) = Ok cfg /\
    py_int (kfold_splits cfg) = Ok k /\
    Forall2 (fun f w => load_model (env_fs env) (model_dir a) (select_model a)
                          cfg f = Ok w) (py_range k) ws /\
    let test := load_test_dataset env tok (token_type cfg) (sep_type cfg) in
    (forall model t,
       inference model (map snd test) (model_type cfg) (batch_size a) = Ok t ->
       length t = length test /\
       forall i, t !! i =
         logits_of model (passes_token_type_ids (model_type cfg))
           (batch_of (batch_size a) (map snd test) i) <$> map snd test !! i) /\
    length out = length test /\
    forall i id x, test !! i = Some (id, x) ->
      exists l,
        let p := ensemble_probs k
                   (map (example_logits cfg (batch_size a) (map snd test) i x) ws) in
        out !! i = Some {| pred_id := id; pred_label := l; pred_probs := p |} /\
        dict_num_to_label env !! argmax_row p = Some l.
Proof.
  intros Hwidth. unfold main.
  destruct (load_run_config (env_fs env) (model_dir a)) as [cfg|] eqn:Hcfg; [|done].
  cbn [mbind result_bind].
  set (tokenizer := if is_str (model_case cfg) "automodel" then Ok AutoTokenizer
                    else if is_str (model_case cfg) "electra" then Ok ElectraTokenizer
                    else Raise (UnboundLocalError "tokenizer")).
  destruct tokenizer as [tok|]; [|done]. cbn [mbind result_bind].
  intros Hout.
  destruct (predict_rows a env cfg tok out Hwidth Hout)
    as (k & ws & Hk & Hws & Hlen & Hlen' & Hrows).
  exists cfg, tok, k, ws.
  split; [reflexivity|]. split; [exact Hk|]. split; [exact Hws|].
  cbv zeta. split.
  { intros model t Ht. destruct (inference_rows _ _ _ _ _ Ht) as [Hl Hr].
    split; [by rewrite Hl, length_map | exact Hr]. }
  split; [exact Hlen'|]. exact Hrows.
Qed.

Lemma C8_witness :
  exists out,
    (forall (w : weights) tt b x, length (logits_of w tt b x) = ACC_COLS) /\
    main demo_args (demo_env ACC_ROWS) = Ok out /\
    exists cfg tok k ws,
      load_run_config demo_fs (model_dir demo_args) = Ok cfg /\
      py_int (kfold_splits cfg) = Ok k /\
      Forall2 (fun f w => load_model demo_fs (model_dir demo_args)
                            (select_model demo_args) cfg f = Ok w) (py_range k) ws /\
      let test := load_test_dataset (demo_env ACC_ROWS) tok
                    (token_type cfg) (sep_type cfg) in
      (forall model t,
         inference model (map snd test) (model_type cfg) (batch_size demo_args) = Ok t ->
         length t = length test /\
         forall i, t !! i =
           logits_of model (passes_token_type_ids (model_type cfg))
             (batch_of (batch_size demo_args) (map snd test) i) <$> map snd test !! i) /\
      length out = length test /\
      forall i id x, test !! i = Some (id, x) ->
        exists l,
          let p := ensemble_probs k
                     (map (example_logits cfg (batch_size demo_args)
                             (map snd test) i x) ws) in
          out !! i = Some {| pred_id := id; pred_label := l; pred_probs := p |} /\
          demo_dict !! argmax_row p = Some l.
Proof.
  destruct demo_main_Ok as [out Hout]. exists out.
  split; [exact demo_width|]. split; [exact Hout|].
  exact (C8_rows_in_test_set_order demo_args (demo_env ACC_ROWS) out demo_width Hout).
Defined.

End InferenceClaims.

(** ** Rationals, strings and paths *)

Section Basics.

Lemma Qltb_true x y : Train.Qltb x y = true <-> (x < y)%Q.
Proof.
  unfold Train.Qltb. rewrite Qlt_alt. destruct (x ?= y)%Q; split; congruence.
Qed.

Lemma Qltb_false x y : Train.Qltb x y = false <-> (y <= x)%Q.
Proof.
  unfold Train.Qltb. rewrite Qge_alt. destruct (x ?= y)%Q; split; congruence.
Qed.

(** The two tracker updates are [Qmin] and [Qmax]. *)
Lemma tracker_min loss best :
  (if Train.Qltb loss best then loss else best) = Qmin best loss.
Proof.
  unfold Train.Qltb, Qmin, GenericMinMax.gmin.
  rewrite <- (Qcompare_antisym best loss). by destruct (best ?= loss)%Q.
Qed.

Lemma tracker_max f1 best :
  (if Train.Qltb best f1 then f1 else best) = Qmax best f1.
Proof.
  unfold Train.Qltb, Qmax, GenericMinMax.gmax.
  rewrite <- (Qcompare_antisym f1 best). by destruct (f1 ?= best)%Q.
Qed.

Lemma append_assoc_string s1 s2 s3 :
  String.append (String.append s1 s2) s3 = String.append s1 (String.append s2 s3).
Proof.
  induction s1 as [|c s1 IH]; [done|].
  change (String c (String.append (String.append s1 s2) s3)
          = String c (String.append s1 (String.append s2 s3))).
  by f_equal.
Qed.

Lemma append_empty_r s : String.append s EmptyString = s.
Proof.
  induction s as [|c s IH]; [done|].
  change (String c (String.append s EmptyString) = String c s). by f_equal.
Qed.

Lemma concat_strings_snoc l s :
  Train.concat_strings (l ++ [s]) = String.append (Train.concat_strings l) s.
Proof.
  induction l as [|x l IH]; simpl.
  - by rewrite append_empty_r.
  - rewrite IH. symmetry. apply append_assoc_string.
Qed.

(** A report entry starts with its line of hashes. *)
Lemma report_entry_nonempty n cf cr : Train.report_entry n cf cr <> EmptyString.
Proof. unfold Train.report_entry. simpl. discriminate. Qed.

Lemma append_nonempty_r s t : t <> EmptyString -> String.append s t <> EmptyString.
Proof. destruct s; simpl; [done | discriminate]. Qed.

End Basics.

(** ** K-fold training: the steps *)

Section TrainSteps.
Context {T : Type} {am : ArgMax T} {net : Network T} {fw : Framework T}.
Import Train.

(** *** Paths of a fold *)

Lemma k_save_path_inj (a : args) i j name name' :
  k_save_path a i ++ [name] = k_save_path a j ++ [name'] -> i = j /\ name = name'.
Proof.
  unfold k_save_path. rewrite <- !app_assoc. intros E.
  apply app_inv_head in E. injection E as E1 E2. split; [|done].
  by apply str_of_int_inj.
Qed.

Lemma fold_file_not_top (a : args) i name x :
  k_save_path a i ++ [name] <> save_dir a ++ [x].
Proof.
  unfold k_save_path. rewrite <- app_assoc. intros E.
  apply app_inv_head in E. discriminate E.
Qed.

Lemma fold_file_not_save_dir (a : args) i name :
  k_save_path a i ++ [name] <> save_dir a.
Proof.
  unfold k_save_path. rewrite <- app_assoc. intros E.
  apply (f_equal length) in E. rewrite length_app in E. simpl in E. lia.
Qed.

Lemma fold_file_not_fold_dir (a : args) i j name :
  k_save_path a i ++ [name] <> k_save_path a j.
Proof.
  unfold k_save_path. rewrite <- app_assoc. intros E.
  apply app_inv_head in E. discriminate E.
Qed.

Lemma fold_dir_not_save_dir (a : args) i : k_save_path a i <> save_dir a.
Proof.
  unfold k_save_path. intros E.
  apply (f_equal length) in E. rewrite length_app in E. simpl in E. lia.
Qed.

Lemma fold_dir_not_top (a : args) i x :
  str_of_int i <> x -> k_save_path a i <> save_dir a ++ [x].
Proof.
  unfold k_save_path. intros Hx E. apply app_inv_head in E. congruence.
Qed.

Lemma fold_dir_inj (a : args) i j : k_save_path a i = k_save_path a j -> i = j.
Proof.
  unfold k_save_path. intros E. apply app_inv_head in E.
  injection E as E. by apply str_of_int_inj.
Qed.

(** *** Evaluation *)

Lemma fscore_nonneg tp pred true :
  0 <= tp -> 0 <= pred -> 0 <= true ->
  let P := Metric.prf_divide tp pred in
  let R := Metric.prf_divide tp true in
  (0 <= (1 + 1) * P * R / (if Qeq_bool (P + R) 0 then 1 else P + R) * 100)%Q.
Proof.
  intros Htp Hpred Htrue P R.
  pose proof (prf_divide_nonneg tp pred Htp Hpred) as Hp.
  pose proof (prf_divide_nonneg tp true Htp Htrue) as Hr.
  fold P in Hp. fold R in Hr.
  assert (Hd : (0 < (if Qeq_bool (P + R) 0 then 1 else P + R))%Q).
  { destruct (Qeq_bool (P + R) 0) eqn:E; [Lqa.lra|].
    apply Qeq_bool_neq in E. Lqa.lra. }
  apply Qmult_le_0_compat; [|Lqa.lra].
  apply Qle_shift_div_l; [done|]. rewrite Qmult_0_l.
  apply Qmult_le_0_compat; [|done]. apply Qmult_le_0_compat; [Lqa.lra|done].
Qed.

Lemma f1_score_micro_nonneg y_true y_pred ls v :
  Metric.f1_score_micro y_true y_pred ls = Ok v -> (0 <= v * 100)%Q.
Proof.
  unfold Metric.f1_score_micro.
  destruct (negb _); [done|]. intros E. injection E as E. rewrite <- E.
  apply fscore_nonneg; apply sum_over_nonneg; intros; apply count_nonneg.
Qed.

Lemma klue_re_micro_f1_nonneg preds labels v :
  Metric.klue_re_micro_f1 preds labels = Ok v -> (0 <= v)%Q.
Proof.
  unfold Metric.klue_re_micro_f1.
  rewrite no_relation_is_class_0. cbn [mbind result_bind].
  rewrite label_indices_are_relation_classes. cbn [mbind result_bind].
  destruct (Metric.f1_score_micro labels preds Metric.relation_classes)
    as [f1|] eqn:E; [|done].
  cbn [mbind result_bind]. intros [= <-].
  by apply f1_score_micro_nonneg in E.
Qed.

Lemma evaluate_loop_nonneg (a : args) (model : weights) batches tl tf ll pl tl' tf' ll' pl' :
  for_each
    (fun '(eval_total_loss, eval_total_f1, label_list, pred_list) batch =>
       let labels := map label_of batch in
       let pred := forward model true batch in
       let preds := map argmax_row pred in
       f1 ← Metric.klue_re_micro_f1 preds labels;
       let loss := create_criterion (criterion a) pred labels in
       Ok ((eval_total_loss + loss)%Q, (eval_total_f1 + f1)%Q,
           label_list ++ labels, pred_list ++ preds))
    batches (tl, tf, ll, pl) = Ok (tl', tf', ll', pl') ->
  (0 <= tf)%Q -> (0 <= tf')%Q.
Proof.
  revert tl tf ll pl. induction batches as [|b batches IH]; intros tl tf ll pl; simpl.
  - by intros [= _ <- _ _].
  - destruct (Metric.klue_re_micro_f1 _ _) as [f1|] eqn:Hf1; [|done].
    cbn [mbind result_bind]. intros Hrest Htf.
    apply (IH _ _ _ _ Hrest).
    apply klue_re_micro_f1_nonneg in Hf1. Lqa.lra.
Qed.

Lemma evaluate_nonneg (a : args) (model : weights) batches loss f1 ll pl :
  evaluate a model batches = Ok (loss, f1, ll, pl) -> (0 <= f1)%Q.
Proof.
  unfold evaluate.
  destruct (for_each _ batches _) as [[[[tl tf] ll'] pl']|] eqn:E; [|done].
  cbn [mbind result_bind].
  destruct (length batches) as [|n] eqn:Hn; [done|]. intros [= _ <- _ _].
  apply evaluate_loop_nonneg in E; [|Lqa.lra].
  apply Qle_shift_div_l; [|by rewrite Qmult_0_l].
  replace 0%Q with (inject_Z 0) by done. rewrite <- Zlt_Qlt. lia.
Qed.

(** What one evaluation checkpoint leaves behind. *)
Lemma eval_checkpoint_inv (a : args) j vl st st' :
  eval_checkpoint a j vl st = Ok st' ->
  exists loss f1 cf cr,
    let fr := frame st in
    let entry := report_entry (total_idx fr) cf cr in
    (0 <= f1)%Q /\
    eval_average_loss st' = Some loss /\
    frame st' =
      {| net_model := net_model fr; optim := optim fr; scheduler := scheduler fr;
         best_eval_loss := Qmin (best_eval_loss fr) loss;
         best_eval_f1 := Qmax (best_eval_f1 fr) f1;
         total_idx := total_idx fr;
         eval_log := eval_log fr ++
           [{| ev_step := total_idx fr; ev_loss := loss; ev_f1 := f1;
               ev_report := entry |}] |} /\
    fs st' !! report_path a j
      = Some (TextFile (String.append (text_at (report_path a j) (fs st)) entry)) /\
    fs st' !! (k_save_path a j ++ ["best_loss"%string])
      = (if Qltb loss (best_eval_loss fr) then Some (ModelDir (net_model fr))
         else fs st !! (k_save_path a j ++ ["best_loss"%string])) /\
    fs st' !! (k_save_path a j ++ ["best_f1"%string])
      = (if Qltb (best_eval_f1 fr) f1 then Some (ModelDir (net_model fr))
         else fs st !! (k_save_path a j ++ ["best_f1"%string])) /\
    forall p, (forall name, p <> k_save_path a j ++ [name]) ->
      fs st' !! p = fs st !! p.
Proof.
  unfold eval_checkpoint.
  destruct (iterate vl (rng st)) as [valid_batches r].
  destruct (evaluate a (net_model (frame st)) valid_batches)
    as [[[[loss f1] label_list] pred_list]|] eqn:Hev; [|done].
  cbn [mbind result_bind]. intros [= <-].
  exists loss, f1, (str_cf (confusion_matrix label_list pred_list)),
    (classification_report label_list pred_list).
  cbv zeta. cbn [fs rng eval_average_loss frame].
  split; [by eapply evaluate_nonneg|]. split; [done|].
  split; [by rewrite tracker_min, tracker_max|].
  set (entry := report_entry _ _ _).
  set (ck := k_save_path a j ++ [String.append "checkpoint-" _]).
  assert (Hck1 : ck <> report_path a j).
  { unfold ck, report_path. intros E. apply k_save_path_inj in E as [_ E].
    discriminate E. }
  assert (Hck2 : ck <> k_save_path a j ++ ["best_loss"%string]).
  { unfold ck. intros E. apply k_save_path_inj in E as [_ E]. discriminate E. }
  assert (Hck3 : ck <> k_save_path a j ++ ["best_f1"%string]).
  { unfold ck. intros E. apply k_save_path_inj in E as [_ E]. discriminate E. }
  assert (Hbl : k_save_path a j ++ ["best_loss"%string] <> report_path a j).
  { unfold report_path. intros E. apply k_save_path_inj in E as [_ E]. discriminate E. }
  assert (Hbf : k_save_path a j ++ ["best_f1"%string] <> report_path a j).
  { unfold report_path. intros E. apply k_save_path_inj in E as [_ E]. discriminate E. }
  assert (Hblf : k_save_path a j ++ ["best_f1"%string]
                 <> k_save_path a j ++ ["best_loss"%string]).
  { intros E. apply k_save_path_inj in E as [_ E]. discriminate E. }
  unfold append_file. fold entry.
  repeat split.
  - destruct (Qltb (best_eval_f1 _) f1), (Qltb loss _), (checkpoint a);
      rewrite ?lookup_insert_ne by done; by rewrite lookup_insert_eq.
  - destruct (Qltb (best_eval_f1 _) f1), (Qltb loss _), (checkpoint a);
      rewrite ?(lookup_insert_ne _ (k_save_path a j ++ ["best_f1"%string])) by done;
      rewrite ?lookup_insert_eq; try done;
      rewrite ?lookup_insert_ne by done; done.
  - destruct (Qltb (best_eval_f1 _) f1), (Qltb loss _), (checkpoint a);
      rewrite ?lookup_insert_eq; try done;
      rewrite ?lookup_insert_ne by done; done.
  - intros p Hp.
    assert (p <> ck) by apply Hp.
    assert (p <> report_path a j) by apply Hp.
    assert (p <> k_save_path a j ++ ["best_loss"%string]) by apply Hp.
    assert (p <> k_save_path a j ++ ["best_f1"%string]) by apply Hp.
    destruct (Qltb (best_eval_f1 _) f1), (Qltb loss _), (checkpoint a);
      rewrite ?lookup_insert_ne by done; done.
Qed.

(** *** Invariants of a fold *)

Lemma for_each_invariant {A S} (P : S -> Prop) (body : S -> A -> result S) xs s s' :
  (forall s x s', P s -> body s x = Ok s' -> P s') ->
  P s -> for_each body xs s = Ok s' -> P s'.
Proof.
  intros Hbody. revert s. induction xs as [|x xs IH]; intros s Hs; simpl.
  - by intros [= <-].
  - destruct (body s x) as [s1|] eqn:E; [|done]. cbn [mbind result_bind].
    apply IH. by eapply Hbody.
Qed.

Lemma fold_left_Qmin_le_init l (x : Q) : (fold_left Qmin l x <= x)%Q.
Proof.
  revert x. induction l as [|y l IH]; intros x; simpl; [Lqa.lra|].
  apply (Qle_trans _ (Qmin x y)); [apply IH | apply Q.le_min_l].
Qed.

Lemma fold_left_Qmax_ge_init l (x : Q) : (x <= fold_left Qmax l x)%Q.
Proof.
  revert x. induction l as [|y l IH]; intros x; simpl; [Lqa.lra|].
  apply (Qle_trans _ (Qmax x y)); [apply Q.le_max_l | apply IH].
Qed.

Lemma tracked_start (m : weights) o sch :
  tracked {| net_model := m; optim := o; scheduler := sch;
             best_eval_loss := 1000000000; best_eval_f1 := 0;
             total_idx := 0; eval_log := [] |}.
Proof. repeat split. constructor. Qed.

(** An evaluation checkpoint keeps the trackers in step with the log. *)
Lemma eval_checkpoint_tracked (a : args) j vl st st' :
  eval_checkpoint a j vl st = Ok st' ->
  tracked (frame st) -> tracked (frame st').
Proof.
  intros Hev (Hl & Hf & Hpos).
  destruct (eval_checkpoint_inv a j vl st st' Hev)
    as (loss & f1 & cf & cr & Hf1 & _ & Hfr & _).
  cbv zeta in Hfr. rewrite Hfr. unfold tracked, losses, f1s in *.
  cbn [best_eval_loss best_eval_f1 eval_log].
  rewrite !map_app, !fold_left_app. cbn [map fold_left ev_loss ev_f1].
  rewrite <- Hl, <- Hf. repeat split.
  apply Forall_app. split; [done|]. by constructor.
Qed.

Lemma eval_checkpoint_files (a : args) j vl fs0 st st' :
  eval_checkpoint a j vl st = Ok st' ->
  tracked (frame st) ->
  fold_files a j fs0 (fs st) (frame st) ->
  fold_files a j fs0 (fs st') (frame st').
Proof.
  intros Hev (Hl & Hf & Hpos) (Hrep & Hents & Hbl1 & Hbl0 & Hbf1 & Hbf0 & Hframe).
  destruct (eval_checkpoint_inv a j vl st st' Hev)
    as (loss & f1 & cf & cr & Hf1 & _ & Hfr & Hrep' & Hbl' & Hbf' & Hframe').
  cbv zeta in *. rewrite Hfr. unfold fold_files, best_loss_path, best_f1_path in *.
  cbn [best_eval_loss best_eval_f1 eval_log].
  assert (Hle : (best_eval_loss (frame st) <= 1000000000)%Q).
  { rewrite Hl. apply fold_left_Qmin_le_init. }
  assert (Hge : (0 <= best_eval_f1 (frame st))%Q).
  { rewrite Hf. apply fold_left_Qmax_ge_init. }
  split.
  { rewrite Hrep'. unfold text_at. rewrite Hrep. unfold report_text.
    cbn [eval_log]. rewrite map_app. cbn [map ev_report].
    by rewrite concat_strings_snoc. }
  split.
  { apply Forall_app. split; [done|]. constructor; [|constructor].
    by exists cf, cr. }
  rewrite <- (tracker_min loss), <- (tracker_max f1).
  destruct (Qltb loss (best_eval_loss (frame st))) eqn:E1;
    destruct (Qltb (best_eval_f1 (frame st)) f1) eqn:E2;
    try apply Qltb_true in E1; try apply Qltb_false in E1;
    try apply Qltb_true in E2; try apply Qltb_false in E2.
  - split; [eauto|]. split.
    { intros Hc. apply Qltb_false in Hc. exfalso.
      apply (Qlt_irrefl loss). eapply Qlt_le_trans; [exact E1|].
      eapply Qle_trans; [exact Hle | exact Hc]. }
    split; [eauto|]. split.
    { intros Hc. apply Qltb_false in Hc. exfalso.
      apply (Qlt_irrefl f1). eapply Qle_lt_trans; [exact Hc|].
      eapply Qle_lt_trans; [exact Hge | exact E2]. }
    intros p Hp. rewrite Hframe' by done. by apply Hframe.
  - split; [eauto|]. split.
    { intros Hc. apply Qltb_false in Hc. exfalso.
      apply (Qlt_irrefl loss). eapply Qlt_le_trans; [exact E1|].
      eapply Qle_trans; [exact Hle | exact Hc]. }
    split; [intros Hc; destruct (Hbf1 Hc) as [w Hw]; exists w; by rewrite Hbf'|].
    split; [intros Hc; rewrite Hbf'; by apply Hbf0|].
    intros p Hp. rewrite Hframe' by done. by apply Hframe.
  - split; [intros Hc; destruct (Hbl1 Hc) as [w Hw]; exists w; by rewrite Hbl'|].
    split; [intros Hc; rewrite Hbl'; by apply Hbl0|].
    split; [eauto|]. split.
    { intros Hc. apply Qltb_false in Hc. exfalso.
      apply (Qlt_irrefl f1). eapply Qle_lt_trans; [exact Hc|].
      eapply Qle_lt_trans; [exact Hge | exact E2]. }
    intros p Hp. rewrite Hframe' by done. by apply Hframe.
  - split; [intros Hc; destruct (Hbl1 Hc) as [w Hw]; exists w; by rewrite Hbl'|].
    split; [intros Hc; rewrite Hbl'; by apply Hbl0|].
    split; [intros Hc; destruct (Hbf1 Hc) as [w Hw]; exists w; by rewrite Hbf'|].
    split; [intros Hc; rewrite Hbf'; by apply Hbf0|].
    intros p Hp. rewrite Hframe' by done. by apply Hframe.
Qed.

Lemma train_batch_inv (a : args) j vl fs0 st batch st' :
  train_batch a j vl st batch = Ok st' ->
  tracked (frame st) /\ fold_files a j fs0 (fs st) (frame st) ->
  tracked (frame st') /\ fold_files a j fs0 (fs st') (frame st').
Proof.
  unfold train_batch.
  destruct (optim_step _ _ _ _ _) as [[model' optim'] r].
  destruct (logging_step a =? 0); [done|].
  destruct (eval_step a =? 0); [done|].
  set (st1 := {| fs := fs st; rng := r; eval_average_loss := eval_average_loss st;
                 frame := _ |}).
  intros Hst' [Htr Hfiles].
  assert (H1 : tracked (frame st1) /\ fold_files a j fs0 (fs st1) (frame st1)).
  { split; [exact Htr | exact Hfiles]. }
  destruct (_ =? 0).
  - destruct H1 as [H1 H2]. split.
    + by eapply eval_checkpoint_tracked.
    + by eapply eval_checkpoint_files.
  - by injection Hst' as <-.
Qed.

Lemma epoch_end_inv (a : args) j fs0 st st' :
  epoch_end a st = Ok st' ->
  tracked (frame st) /\ fold_files a j fs0 (fs st) (frame st) ->
  tracked (frame st') /\ fold_files a j fs0 (fs st') (frame st').
Proof.
  unfold epoch_end. intros Hst' [Htr Hfiles].
  destruct (String.eqb (lr_scheduler a) "reduceLR").
  - destruct (scheduler (frame st)); [|done].
    destruct (eval_average_loss st); [|done].
    injection Hst' as <-. split; [exact Htr | exact Hfiles].
  - destruct (String.eqb (lr_scheduler a) "StepLR").
    + destruct (scheduler (frame st)); [|done].
      injection Hst' as <-. split; [exact Htr | exact Hfiles].
    + by injection Hst' as <-.
Qed.

Lemma train_epoch_inv (a : args) j tl vl fs0 st st' :
  train_epoch a j tl vl st = Ok st' ->
  tracked (frame st) /\ fold_files a j fs0 (fs st) (frame st) ->
  tracked (frame st') /\ fold_files a j fs0 (fs st') (frame st').
Proof.
  unfold train_epoch. destruct (iterate tl (rng st)) as [batches r].
  set (st0 := {| fs := fs st; rng := r; eval_average_loss := _; frame := frame st |}).
  destruct (for_each _ batches st0) as [st1|] eqn:E; [|done].
  cbn [mbind result_bind]. intros Hend Hst.
  apply (epoch_end_inv a j fs0 st1 st' Hend).
  apply (for_each_invariant
           (fun s => tracked (frame s) /\ fold_files a j fs0 (fs s) (frame s))
           (train_batch a j vl) batches st0 st1); try done.
  intros s x s' Hs Hb. by eapply train_batch_inv.
Qed.

Lemma epochs_inv (a : args) j tl vl fs0 (es : list Z) st st' :
  for_each (fun st _ => train_epoch a j tl vl st) es st = Ok st' ->
  tracked (frame st) /\ fold_files a j fs0 (fs st) (frame st) ->
  tracked (frame st') /\ fold_files a j fs0 (fs st') (frame st').
Proof.
  intros Hrun Hst.
  apply (for_each_invariant
           (fun s => tracked (frame s) /\ fold_files a j fs0 (fs s) (frame s))
           (fun st (_ : Z) => train_epoch a j tl vl st) es st st'); try done.
  intros s x s' Hs Hb. by eapply train_epoch_inv.
Qed.

(** *** The start of a fold *)

Lemma makedirs_lookup_ne {W} (p q : path) (fs : gmap path (file W)) :
  p <> q -> makedirs p fs !! q = fs !! q.
Proof.
  intros Hpq. unfold makedirs. destruct (fs !! p); [done|].
  by rewrite lookup_insert_ne.
Qed.

Lemma makedirs_lookup_eq {W} (p : path) (fs : gmap path (file W)) :
  is_Some (makedirs p fs !! p).
Proof.
  unfold makedirs. destruct (fs !! p) eqn:E.
  - by rewrite E.
  - rewrite lookup_insert_eq. eauto.
Qed.

Lemma fold_dir_not_config (a : args) j : k_save_path a j <> config_path a.
Proof. apply fold_dir_not_top. by apply str_of_int_not_name. Qed.

Lemma fold_dir_not_tokenizer (a : args) j : k_save_path a j <> tokenizer_path a.
Proof. apply fold_dir_not_top. by apply str_of_int_not_name. Qed.

Lemma fold_start_inv (a : args) (env : environment) j fd c tl vl st0 :
  fold_start a env j fd c = Ok (tl, vl, st0) ->
  tracked (frame st0) /\
  eval_log (frame st0) = [] /\
  best_eval_loss (frame st0) = 1000000000%Q /\
  best_eval_f1 (frame st0) = 0%Q /\
  total_idx (frame st0) = 0 /\
  eval_average_loss st0 = c_eval_average_loss c /\
  fs st0 !! report_path a j = Some (TextFile "") /\
  fs st0 !! config_path a = Some (JsonFile (model_config_parameters a)) /\
  is_Some (fs st0 !! k_save_path a j) /\
  (forall p, p <> k_save_path a j -> p <> save_dir a -> p <> config_path a ->
             p <> report_path a j -> p <> tokenizer_path a ->
             fs st0 !! p = c_fs c !! p).
Proof.
  unfold fold_start.
  destruct (_ && _); [|done]. cbn [mbind result_bind].
  destruct (from_pretrained _ _ _ _) as [model0 r].
  destruct (make_loader (train_dataset fd) _ _) as [tl'|]; [|done].
  cbn [mbind result_bind].
  destruct (make_loader (valid_dataset fd) _ _) as [vl'|]; [|done].
  cbn [mbind result_bind]. intros [= <- <- <-]. cbn [frame fs eval_average_loss].
  split; [apply tracked_start|]. do 5 (split; [reflexivity|]).
  fold (tokenizer_path a). unfold truncate_file.
  assert (Hrt : report_path a j <> tokenizer_path a) by apply fold_file_not_top.
  assert (Hrc : report_path a j <> config_path a) by apply fold_file_not_top.
  assert (Hct : config_path a <> tokenizer_path a).
  { unfold config_path, tokenizer_path. intros E. apply app_inv_head in E.
    discriminate E. }
  pose proof (fold_dir_not_config a j) as Hdc.
  pose proof (fold_dir_not_tokenizer a j) as Hdt.
  pose proof (fold_dir_not_save_dir a j) as Hds.
  assert (Hdr : k_save_path a j <> report_path a j).
  { intros E. symmetry in E. by apply fold_file_not_fold_dir in E. }
  split.
  { rewrite lookup_insert_ne by done. by rewrite lookup_insert_eq. }
  split.
  { rewrite !lookup_insert_ne by done. by rewrite lookup_insert_eq. }
  split.
  { rewrite !lookup_insert_ne by done.
    rewrite makedirs_lookup_ne by done. apply makedirs_lookup_eq. }
  intros p Hp1 Hp2 Hp3 Hp4 Hp5.
  rewrite !lookup_insert_ne by done.
  by rewrite !makedirs_lookup_ne by done.
Qed.

(** The loaders a fold builds. *)
Lemma fold_start_loaders (a : args) (env : environment) j fd c tl vl st0 :
  fold_start a env j fd c = Ok (tl, vl, st0) ->
  0 < batch_size a /\ 0 < valid_batch_size a /\
  tl = {| ld_dataset := train_dataset fd;
          ld_size := (Z.to_nat (batch_size a) - 1)%nat; ld_drop_last := true |} /\
  vl = {| ld_dataset := valid_dataset fd;
          ld_size := (Z.to_nat (valid_batch_size a) - 1)%nat;
          ld_drop_last := false |}.
Proof.
  unfold fold_start.
  destruct (_ && _); [|done]. cbn [mbind result_bind].
  destruct (from_pretrained _ _ _ _) as [model0 r].
  unfold make_loader.
  destruct (Z.to_nat (batch_size a)) as [|n] eqn:E1; [done|].
  cbn [mbind result_bind].
  destruct (Z.to_nat (valid_batch_size a)) as [|m] eqn:E2; [done|].
  cbn [mbind result_bind]. intros [= <- <- <-].
  replace (S n - 1)%nat with n by lia. replace (S m - 1)%nat with m by lia.
  repeat split; lia.
Qed.

(** *** One fold *)

Lemma run_fold_inv (a : args) (env : environment) c j fd c' :
  run_fold a env c (j, fd) = Ok c' ->
  exists fr,
    c_frames c' = c_frames c ++ [fr] /\
    fold_outcome a j (c_fs c) (c_fs c') fr /\
    c_fs c' !! config_path a = Some (JsonFile (model_config_parameters a)) /\
    (forall p, (forall name, p <> k_save_path a j ++ [name]) ->
               p <> k_save_path a j -> p <> save_dir a -> p <> config_path a ->
               p <> tokenizer_path a ->
               c_fs c' !! p = c_fs c !! p).
Proof.
  unfold run_fold.
  destruct (fold_start a env j fd c) as [[[tl vl] st0]|] eqn:Hstart; [|done].
  cbn [mbind result_bind].
  destruct (for_each _ (epoch_list a) st0) as [st|] eqn:Hrun; [|done].
  cbn [mbind result_bind]. intros [= <-]. cbn [c_frames c_fs].
  destruct (fold_start_inv a env j fd c tl vl st0 Hstart)
    as (Htr0 & Hlog0 & Hbl0 & Hbf0 & _ & _ & Hrep0 & Hcfg0 & Hdir0 & Hframe0).
  assert (Hfiles0 : fold_files a j (fs st0) (fs st0) (frame st0)).
  { unfold fold_files, report_text. rewrite Hlog0, Hbl0, Hbf0.
    repeat split; done. }
  destruct (epochs_inv a j tl vl (fs st0) (epoch_list a) st0 st Hrun
              (conj Htr0 Hfiles0))
    as (Htr & Hrep & Hents & Hl1 & Hl0 & Hf1 & Hf0 & Hframe).
  exists (frame st). split; [done|].
  assert (Hbl : fs st0 !! best_loss_path a j = c_fs c !! best_loss_path a j).
  { apply Hframe0.
    - apply fold_file_not_fold_dir.
    - apply fold_file_not_save_dir.
    - apply fold_file_not_top.
    - unfold best_loss_path, report_path. intros E.
      apply k_save_path_inj in E as [_ E]. discriminate E.
    - apply fold_file_not_top. }
  assert (Hbf : fs st0 !! best_f1_path a j = c_fs c !! best_f1_path a j).
  { apply Hframe0.
    - apply fold_file_not_fold_dir.
    - apply fold_file_not_save_dir.
    - apply fold_file_not_top.
    - unfold best_f1_path, report_path. intros E.
      apply k_save_path_inj in E as [_ E]. discriminate E.
    - apply fold_file_not_top. }
  split; [|split].
  - unfold fold_outcome. split; [done|]. split; [done|]. split; [done|].
    split; [done|]. split; [intros Hc; rewrite <- Hbl; by apply Hl0|].
    split; [done|]. split; [intros Hc; rewrite <- Hbf; by apply Hf0|].
    rewrite Hframe; [done|]. intros name E. symmetry in E.
    by apply fold_file_not_fold_dir in E.
  - rewrite Hframe; [done|]. intros name E. symmetry in E.
    by apply fold_file_not_top in E.
  - intros p Hp1 Hp2 Hp3 Hp4 Hp5. rewrite Hframe by done.
    apply Hframe0; try done. apply Hp1.
Qed.

(** *** The loop over the folds *)

(** A fold leaves the directories of the other folds alone. *)
Lemma run_fold_other_folds (a : args) (env : environment) c j fd c' i :
  run_fold a env c (j, fd) = Ok c' -> i <> j ->
  c_fs c' !! k_save_path a i = c_fs c !! k_save_path a i /\
  forall name, c_fs c' !! (k_save_path a i ++ [name])
               = c_fs c !! (k_save_path a i ++ [name]).
Proof.
  intros Hrun Hij.
  destruct (run_fold_inv a env c j fd c' Hrun) as (fr & _ & _ & _ & Hframe).
  split.
  - apply Hframe.
    + intros name E. symmetry in E. by apply fold_file_not_fold_dir in E.
    + intros E. by apply fold_dir_inj in E.
    + apply fold_dir_not_save_dir.
    + apply fold_dir_not_config.
    + apply fold_dir_not_tokenizer.
  - intros name. apply Hframe.
    + intros name' E. by apply k_save_path_inj in E as [E _].
    + apply fold_file_not_fold_dir.
    + apply fold_file_not_save_dir.
    + apply fold_file_not_top.
    + apply fold_file_not_top.
Qed.

Lemma fold_outcome_transfer (a : args) i fs0 fs0' fs1 fs1' fr :
  fs1' !! k_save_path a i = fs1 !! k_save_path a i ->
  (forall name, fs1' !! (k_save_path a i ++ [name])
                = fs1 !! (k_save_path a i ++ [name])) ->
  (forall name, fs0' !! (k_save_path a i ++ [name])
                = fs0 !! (k_save_path a i ++ [name])) ->
  fold_outcome a i fs0 fs1 fr -> fold_outcome a i fs0' fs1' fr.
Proof.
  intros Hdir Hfiles Hinit (Htr & Hrep & Hents & Hl1 & Hl0 & Hf1 & Hf0 & Hd).
  unfold fold_outcome, report_path, best_loss_path, best_f1_path in *.
  rewrite !Hfiles, !Hinit, Hdir. done.
Qed.

Lemma folds_loop_inv (a : args) (env : environment) fs0 l n c c' :
  for_each (run_fold a env) (imap (fun i x => (Z.of_nat (n + i), x)) l) c = Ok c' ->
  folds_done a fs0 n c -> folds_done a fs0 (n + length l) c'.
Proof.
  revert n c. induction l as [|fd l IH]; intros n c.
  - simpl. intros [= <-]. by rewrite Nat.add_0_r.
  - rewrite imap_cons. cbn [for_each].
    destruct (run_fold a env c (Z.of_nat (n + 0), fd)) as [c1|] eqn:Hfold; [|done].
    cbn [mbind result_bind]. intros Hrest (Hlen & Hcfg & Hframes & Hothers).
    rewrite Nat.add_0_r in Hfold.
    replace (n + length (fd :: l))%nat with (S n + length l)%nat by (simpl; lia).
    apply (IH (S n) c1).
    { erewrite imap_ext; [exact Hrest|]. intros i x _. simpl.
      by replace (n + S i)%nat with (S (n + i)) by lia. }
    destruct (run_fold_inv a env c (Z.of_nat n) fd c1 Hfold)
      as (fr & Hfr & Hout & Hcfg1 & Hframe1).
    assert (Huntouched : forall i, i <> Z.of_nat n ->
      c_fs c1 !! k_save_path a i = c_fs c !! k_save_path a i /\
      forall name, c_fs c1 !! (k_save_path a i ++ [name])
                   = c_fs c !! (k_save_path a i ++ [name])).
    { intros i Hi. by apply (run_fold_other_folds a env c (Z.of_nat n) fd c1 i). }
    split; [rewrite Hfr, length_app; simpl; lia|].
    split; [done|]. split.
    + intros i fri Hi. rewrite Hfr in Hi.
      apply lookup_app_Some in Hi as [Hi|[Hge Hi]].
      * assert (Hin : (i < n)%nat) by (apply lookup_lt_Some in Hi; lia).
        destruct (Huntouched (Z.of_nat i) ltac:(lia)) as [Hd Hf].
        exact (fold_outcome_transfer a (Z.of_nat i) fs0 fs0 (c_fs c) (c_fs c1) fri
                 Hd Hf (fun _ => eq_refl) (Hframes i fri Hi)).
      * assert (i = n) as ->.
        { apply lookup_lt_Some in Hi. simpl in Hi. lia. }
        rewrite Hlen, Nat.sub_diag in Hi. injection Hi as <-.
        destruct (Hothers (Z.of_nat n) ltac:(lia)) as [_ Hf].
        exact (fold_outcome_transfer a (Z.of_nat n) (c_fs c) fs0 (c_fs c1) (c_fs c1)
                 fr eq_refl (fun _ => eq_refl) (fun name => eq_sym (Hf name)) Hout).
    + intros j Hj.
      destruct (Huntouched j ltac:(lia)) as [Hd Hf].
      destruct (Hothers j ltac:(lia)) as [Hd0 Hf0].
      split; [congruence|]. intros name. by rewrite Hf.
Qed.

(** What a completed run leaves. *)
Lemma train_outcome (a : args) (env : environment) c :
  train a env = Ok c ->
  folds_done a (init_fs env) (length (folds env)) c.
Proof.
  unfold train. destruct (kfold_splits a <? 2); [done|]. intros Hrun.
  apply (folds_loop_inv a env (init_fs env) (folds env) 0
           {| c_fs := init_fs env; c_rng := manual_seed (seed a);
              c_eval_average_loss := None; c_frames := [] |} c Hrun).
  repeat split; try done; cbn [c_frames c_fs]; lia.
Qed.

(** *** Trackers as minimum and maximum *)

Lemma fold_left_Qmin_lower l (x : Q) y :
  y ∈ l -> (fold_left Qmin l x <= y)%Q.
Proof.
  revert x. induction l as [|z l IH]; intros x Hy; [by apply elem_of_nil in Hy|].
  apply elem_of_cons in Hy as [->|Hy]; simpl.
  - apply (Qle_trans _ (Qmin x z)); [apply fold_left_Qmin_le_init | apply Q.le_min_r].
  - by apply IH.
Qed.

Lemma fold_left_Qmin_attained l (x : Q) :
  (fold_left Qmin l x == x)%Q \/ exists y, y ∈ l /\ (fold_left Qmin l x == y)%Q.
Proof.
  revert x. induction l as [|z l IH]; intros x; simpl; [by left|].
  destruct (IH (Qmin x z)) as [E|(y & Hy & E)].
  - destruct (Q.min_dec x z) as [E'|E'].
    + left. by rewrite E.
    + right. exists z. split; [apply elem_of_cons; by left|]. by rewrite E.
  - right. exists y. split; [apply elem_of_cons; by right | done].
Qed.

Lemma fold_left_Qmax_upper l (x : Q) y :
  y ∈ l -> (y <= fold_left Qmax l x)%Q.
Proof.
  revert x. induction l as [|z l IH]; intros x Hy; [by apply elem_of_nil in Hy|].
  apply elem_of_cons in Hy as [->|Hy]; simpl.
  - apply (Qle_trans _ (Qmax x z)); [apply Q.le_max_r | apply fold_left_Qmax_ge_init].
  - by apply IH.
Qed.

Lemma fold_left_Qmax_attained l (x : Q) :
  (fold_left Qmax l x == x)%Q \/ exists y, y ∈ l /\ (fold_left Qmax l x == y)%Q.
Proof.
  revert x. induction l as [|z l IH]; intros x; simpl; [by left|].
  destruct (IH (Qmax x z)) as [E|(y & Hy & E)].
  - destruct (Q.max_dec x z) as [E'|E'].
    + left. by rewrite E.
    + right. exists z. split; [apply elem_of_cons; by left|]. by rewrite E.
  - right. exists y. split; [apply elem_of_cons; by right | done].
Qed.

(** The loss tracker is the least loss so far as soon as one loss is not
    above the initial value. *)
Lemma tracked_lowest (fr : locals) :
  tracked fr ->
  (exists l, l ∈ losses fr /\ (l <= 1000000000)%Q) ->
  lowest (best_eval_loss fr) (losses fr).
Proof.
  intros (Hl & _ & _) (l0 & Hl0 & Hle). rewrite Hl. split.
  - destruct (fold_left_Qmin_attained (losses fr) 1000000000) as [E|(y & Hy & E)].
    + exists l0. split; [done|].
      apply Qle_antisym; [by apply fold_left_Qmin_lower|].
      rewrite E. exact Hle.
    + by exists y.
  - intros x Hx. by apply fold_left_Qmin_lower.
Qed.

(** The score tracker is the greatest score so far, scores being
    non-negative, once there is one. *)
Lemma tracked_highest (fr : locals) :
  tracked fr -> f1s fr <> [] -> highest (best_eval_f1 fr) (f1s fr).
Proof.
  intros (_ & Hf & Hpos) Hne. rewrite Hf. split.
  - destruct (fold_left_Qmax_attained (f1s fr) 0) as [E|(y & Hy & E)].
    + destruct (f1s fr) as [|f0 l] eqn:El; [done|].
      exists f0. split; [apply elem_of_cons; by left|].
      assert (Hin : f0 ∈ f0 :: l) by (apply elem_of_cons; by left).
      apply Qle_antisym; [|by apply fold_left_Qmax_upper].
      rewrite E. by apply (proj1 (Forall_forall _ _) Hpos).
    + by exists y.
  - intros x Hx. by apply fold_left_Qmax_upper.
Qed.

Lemma fold_left_Qmin_lt l (x y : Q) :
  (fold_left Qmin l x < y)%Q <-> (x < y)%Q \/ exists z, z ∈ l /\ (z < y)%Q.
Proof.
  revert x. induction l as [|z l IH]; intros x; simpl.
  - split; [by left|]. intros [H|(z & Hz & _)]; [done|]. by apply elem_of_nil in Hz.
  - rewrite IH, Q.min_lt_iff. split.
    + intros [[H|H]|(w & Hw & H)]; [by left| |].
      * right. exists z. split; [apply elem_of_cons; by left | done].
      * right. exists w. split; [apply elem_of_cons; by right | done].
    + intros [H|(w & Hw & H)]; [left; by left|].
      apply elem_of_cons in Hw as [->|Hw]; [left; by right|].
      right. by exists w.
Qed.

Lemma fold_left_Qmax_lt l (x y : Q) :
  (y < fold_left Qmax l x)%Q <-> (y < x)%Q \/ exists z, z ∈ l /\ (y < z)%Q.
Proof.
  revert x. induction l as [|z l IH]; intros x; simpl.
  - split; [by left|]. intros [H|(z & Hz & _)]; [done|]. by apply elem_of_nil in Hz.
  - rewrite IH, Q.max_lt_iff. split.
    + intros [[H|H]|(w & Hw & H)]; [by left| |].
      * right. exists z. split; [apply elem_of_cons; by left | done].
      * right. exists w. split; [apply elem_of_cons; by right | done].
    + intros [H|(w & Hw & H)]; [left; by left|].
      apply elem_of_cons in Hw as [->|Hw]; [left; by right|].
      right. by exists w.
Qed.

(** A tracker has left its initial value exactly when an evaluation beat
    that value. *)
Lemma tracked_loss_improved (fr : locals) :
  tracked fr ->
  Qltb (best_eval_loss fr) 1000000000 = true <->
  exists ev, ev ∈ eval_log fr /\ (ev_loss ev < 1000000000)%Q.
Proof.
  intros (Hl & _ & _). rewrite Qltb_true, Hl, fold_left_Qmin_lt. unfold losses.
  split.
  - intros [H|(z & Hz & H)]; [by apply Qlt_irrefl in H|].
    apply list_elem_of_fmap in Hz as (ev & -> & Hev). by exists ev.
  - intros (ev & Hev & H). right. exists (ev_loss ev). split; [|done].
    apply list_elem_of_fmap. by exists ev.
Qed.

Lemma tracked_f1_improved (fr : locals) :
  tracked fr ->
  Qltb 0 (best_eval_f1 fr) = true <->
  exists ev, ev ∈ eval_log fr /\ (0 < ev_f1 ev)%Q.
Proof.
  intros (_ & Hf & _). rewrite Qltb_true, Hf, fold_left_Qmax_lt. unfold f1s.
  split.
  - intros [H|(z & Hz & H)]; [by apply Qlt_irrefl in H|].
    apply list_elem_of_fmap in Hz as (ev & -> & Hev). by exists ev.
  - intros (ev & Hev & H). right. exists (ev_f1 ev). split; [|done].
    apply list_elem_of_fmap. by exists ev.
Qed.

(** *** An epoch without evaluation *)

Lemma length_full_chunks {A} fuel n (l : list A) :
  (length l <= fuel)%nat ->
  length (filter (fun b => length b = S n) (chunks_fuel fuel n l))
  = (length l / S n)%nat.
Proof.
  revert l. induction fuel as [|fuel IH]; intros l Hl.
  { destruct l; simpl in *; [done | lia]. }
  destruct l as [|x l]; [done|].
  change (chunks_fuel (S fuel) n (x :: l))
    with ((x :: take n l) :: chunks_fuel fuel n (drop n l)).
  destruct (decide (n <= length l)%nat) as [Hn|Hn].
  - rewrite filter_cons_True by (simpl; rewrite length_take; lia).
    cbn [length]. rewrite IH by (rewrite length_drop; simpl in Hl; lia).
    rewrite length_drop.
    replace (S (length l)) with ((length l - n) + 1 * S n)%nat by lia.
    rewrite Nat.div_add by lia. lia.
  - rewrite filter_cons_False by (simpl; rewrite length_take; lia).
    rewrite (drop_ge l n) by lia. rewrite chunks_fuel_nil.
    cbn [length]. rewrite Nat.div_small; [done | lia].
Qed.

Lemma length_permute pi (l : list example) : length (permute pi l) = length l.
Proof.
  unfold permute. destruct l as [|d l]; [done|].
  by rewrite length_map, length_seq.
Qed.

(** One pass over a [drop_last] loader yields [len(loader)] batches. *)
Lemma length_iterate_drop_last ds n r :
  length (fst (iterate {| ld_dataset := ds; ld_size := n; ld_drop_last := true |} r))
  = (length ds / S n)%nat.
Proof.
  unfold iterate. cbn [ld_dataset ld_size ld_drop_last].
  destruct (randperm r (length ds)) as [pi r']. cbn [fst].
  unfold batches_of, chunks. rewrite length_full_chunks by done.
  by rewrite length_permute.
Qed.

(** A batch that leaves the step counter below the interval runs no
    evaluation. *)
Lemma train_batch_without_eval (a : args) j vl st b :
  logging_step a <> 0 ->
  0 <= total_idx (frame st) ->
  total_idx (frame st) + 1 < eval_step a ->
  exists st1,
    train_batch a j vl st b = Ok st1 /\
    total_idx (frame st1) = total_idx (frame st) + 1 /\
    eval_average_loss st1 = eval_average_loss st /\
    scheduler (frame st1) = scheduler (frame st) /\
    fs st1 = fs st /\
    eval_log (frame st1) = eval_log (frame st).
Proof.
  intros Hlog H0 Hlt. unfold train_batch. cbv zeta.
  destruct (optim_step (criterion a) (net_model (frame st)) (optim (frame st))
              b (rng st)) as [[model' optim'] r].
  destruct (logging_step a =? 0) eqn:E1; [apply Z.eqb_eq in E1; done|].
  destruct (eval_step a =? 0) eqn:E2; [apply Z.eqb_eq in E2; lia|].
  rewrite Z.mod_small by lia.
  destruct (total_idx (frame st) + 1 =? 0) eqn:E3; [apply Z.eqb_eq in E3; lia|].
  eexists. split; [reflexivity|]. by repeat split.
Qed.

(** Batches that keep the step counter below the interval run no
    evaluation: [eval_average_loss] stays as it was. *)
Lemma batches_without_eval (a : args) j vl batches st :
  logging_step a <> 0 ->
  0 <= total_idx (frame st) ->
  total_idx (frame st) + Z.of_nat (length batches) < eval_step a ->
  exists st1,
    for_each (train_batch a j vl) batches st = Ok st1 /\
    eval_average_loss st1 = eval_average_loss st /\
    scheduler (frame st1) = scheduler (frame st) /\
    fs st1 = fs st /\
    eval_log (frame st1) = eval_log (frame st).
Proof.
  intros Hlog. revert st. induction batches as [|b batches IH]; intros st H0 Hlt.
  - exists st. by repeat split.
  - cbn [for_each length] in *.
    destruct (train_batch_without_eval a j vl st b Hlog H0)
      as (st1 & -> & Ht & Heval & Hsch & Hfs & Hlog'); [lia|].
    cbn [mbind result_bind].
    destruct (IH st1) as (st2 & Hrun & Heval2 & Hsch2 & Hfs2 & Hlog2); [lia|lia|].
    exists st2. split; [done|]. repeat split; congruence.
Qed.

Lemma fold_start_Ok (a : args) (env : environment) j fd c :
  0 <= data_idx env < Z.of_nat (length (train_dataset fd)) ->
  0 < batch_size a -> 0 < valid_batch_size a ->
  exists st0,
    fold_start a env j fd c
    = Ok ({| ld_dataset := train_dataset fd;
             ld_size := (Z.to_nat (batch_size a) - 1)%nat; ld_drop_last := true |},
          {| ld_dataset := valid_dataset fd;
             ld_size := (Z.to_nat (valid_batch_size a) - 1)%nat;
             ld_drop_last := false |}, st0) /\
    total_idx (frame st0) = 0 /\
    eval_average_loss st0 = c_eval_average_loss c /\
    (lr_scheduler a = "reduceLR"%string -> is_Some (scheduler (frame st0))).
Proof.
  intros Hidx Hbs Hvbs. unfold fold_start.
  replace ((0 <=? data_idx env)
           && (data_idx env <? Z.of_nat (length (train_dataset fd))))
    with true by (symmetry; apply andb_true_iff; split; lia).
  cbn [mbind result_bind].
  destruct (from_pretrained _ _ _ _) as [model0 r].
  unfold make_loader.
  destruct (Z.to_nat (batch_size a)) as [|n] eqn:E1; [lia|].
  cbn [mbind result_bind].
  destruct (Z.to_nat (valid_batch_size a)) as [|m] eqn:E2; [lia|].
  cbn [mbind result_bind].
  replace (S n - 1)%nat with n by lia. replace (S m - 1)%nat with m by lia.
  eexists. split; [reflexivity|]. cbn [frame total_idx eval_average_loss scheduler].
  split; [done|]. split; [done|]. intros ->. cbn. eauto.
Qed.

(** With the plateau scheduler, an epoch too short for an evaluation ends
    on an unbound [eval_average_loss] when nothing has assigned it yet. *)
Lemma train_epoch_unbound (a : args) j fd vl st :
  lr_scheduler a = "reduceLR"%string ->
  logging_step a <> 0 -> 0 < batch_size a ->
  steps_per_epoch a fd < eval_step a ->
  total_idx (frame st) = 0 ->
  eval_average_loss st = None ->
  is_Some (scheduler (frame st)) ->
  train_epoch a j
    {| ld_dataset := train_dataset fd;
       ld_size := (Z.to_nat (batch_size a) - 1)%nat; ld_drop_last := true |}
    vl st
  = Raise (UnboundLocalError "eval_average_loss").
Proof.
  intros Hsch Hlog Hbs Hsteps Ht0 Hnone [sch Hs]. unfold train_epoch.
  pose proof (length_iterate_drop_last (train_dataset fd)
                (Z.to_nat (batch_size a) - 1) (rng st)) as Hlen.
  destruct (iterate _ (rng st)) as [batches r]. cbn [fst] in Hlen.
  destruct (batches_without_eval a j vl batches
              {| fs := fs st; rng := r; eval_average_loss := eval_average_loss st;
                 frame := frame st |} Hlog)
    as (st1 & -> & Heval & Hsched & _).
  { cbn [frame]. lia. }
  { cbn [frame]. rewrite Ht0, Hlen. unfold steps_per_epoch in Hsteps.
    replace (S (Z.to_nat (batch_size a) - 1)) with (Z.to_nat (batch_size a)) by lia.
    lia. }
  cbn [mbind result_bind]. unfold epoch_end.
  rewrite Hsch. cbn [String.eqb Ascii.eqb Bool.eqb].
  rewrite Hsched. cbn [frame]. rewrite Hs.
  rewrite Heval. cbn [eval_average_loss]. by rewrite Hnone.
Qed.

Lemma run_fold_unbound (a : args) (env : environment) j fd c :
  lr_scheduler a = "reduceLR"%string ->
  0 < epochs a -> logging_step a <> 0 ->
  0 < batch_size a -> 0 < valid_batch_size a ->
  0 <= data_idx env < Z.of_nat (length (train_dataset fd)) ->
  steps_per_epoch a fd < eval_step a ->
  c_eval_average_loss c = None ->
  run_fold a env c (j, fd) = Raise (UnboundLocalError "eval_average_loss").
Proof.
  intros Hsch Hep Hlog Hbs Hvbs Hidx Hsteps Hnone. unfold run_fold.
  destruct (fold_start_Ok a env j fd c Hidx Hbs Hvbs)
    as (st0 & -> & Ht0 & He0 & Hs0).
  cbn [mbind result_bind].
  unfold epoch_list. destruct (Z.to_nat (epochs a)) as [|n] eqn:En; [lia|].
  cbn [seq map for_each].
  rewrite (train_epoch_unbound a j fd); try done.
  - congruence.
  - by apply Hs0.
Qed.

End TrainSteps.

(** ** Completed runs of the k-fold trainer *)

Lemma is_Ok_value {A} (d : A) (r : result A) :
  is_Ok r = true -> r = Ok (value_or d r).
Proof. destruct r; [reflexivity | discriminate]. Qed.

Lemma sim_outcome_Ok predict loss a env :
  is_Ok (Sim.sim_train predict loss a env) = true ->
  @Train.train Q Sim.rational_argmax (Sim.sim_network predict)
    (Sim.sim_framework predict loss) a env
  = Ok (SimRuns.sim_outcome predict loss a env).
Proof. intros H. exact (is_Ok_value _ _ H). Qed.

Lemma append_nonempty_l s t : s <> EmptyString -> String.append s t <> EmptyString.
Proof. destruct s; [done | discriminate]. Qed.

Lemma fold_left_Qmin_init l (x : Q) :
  (forall y, y ∈ l -> (x < y)%Q) -> fold_left Qmin l x = x.
Proof.
  induction l as [|y l IH]; intros H; simpl; [done|].
  assert (Hy : (x < y)%Q) by (apply H; left).
  assert (E : Qmin x y = x).
  { apply Qlt_alt in Hy. cbv [Qmin GenericMinMax.gmin Qcompare] in *. by rewrite Hy. }
  rewrite E. apply IH. intros z Hz. apply H. by right.
Qed.

Section TrainRuns.
Context {T : Type} {am : ArgMax T} {net : Network T} {fw : Framework T}.
Import Train.

Lemma train_Ok_loop (a : args) (env : environment) c :
  train a env = Ok c ->
  2 <= kfold_splits a /\
  for_each (run_fold a env) (enumerate (folds env))
    {| c_fs := init_fs env; c_rng := manual_seed (seed a);
       c_eval_average_loss := None; c_frames := [] |} = Ok c.
Proof.
  unfold train. destruct (kfold_splits a <? 2) eqn:E; [done|].
  apply Z.ltb_ge in E. done.
Qed.

Lemma train_first_fold_raises (a : args) (env : environment) fd rest e :
  2 <= kfold_splits a -> folds env = fd :: rest ->
  run_fold a env
    {| c_fs := init_fs env; c_rng := manual_seed (seed a);
       c_eval_average_loss := None; c_frames := [] |} (0, fd) = Raise e ->
  train a env = Raise e.
Proof.
  intros Hk Hfolds Hfold. unfold train.
  replace (kfold_splits a <? 2) with false by (symmetry; apply Z.ltb_ge; lia).
  rewrite Hfolds. unfold enumerate. rewrite imap_cons. cbn [for_each].
  change (Z.of_nat 0) with 0. by rewrite Hfold.
Qed.

Lemma config_lacks_model_case (a : args) :
  dict_get (model_config_parameters a) "token_type" = Ok (JStr (token_type a)) /\
  dict_get (model_config_parameters a) "sep_type" = Ok (JStr (sep_type a)) /\
  dict_get (model_config_parameters a) "kfold_splits" = Ok (JInt (kfold_splits a)) /\
  dict_get (model_config_parameters a) "model_case" = Raise (KeyError "model_case").
Proof. repeat split; reflexivity. Qed.

(** X3: at the end of a completed run the trackers of every fold are the
    running extrema of the fold's evaluations, started from the sentinels
    [1e9] and [0]: the best F1 is the largest aggregated F1 as soon as the
    fold has evaluated once, the best loss is the smallest aggregated loss
    as soon as one loss is at most [1e9], and stays [1e9] when every loss
    is larger. *)
Theorem trackers_are_running_extrema (a : args) (env : environment) c :
  train a env = Ok c ->
  forall i fr, c_frames c !! i = Some fr ->
    best_eval_loss fr = fold_left Qmin (losses fr) 1000000000%Q /\
    best_eval_f1 fr = fold_left Qmax (f1s fr) 0%Q /\
    (f1s fr <> [] -> highest (best_eval_f1 fr) (f1s fr)) /\
    ((exists l, l ∈ losses fr /\ (l <= 1000000000)%Q) ->
       lowest (best_eval_loss fr) (losses fr)) /\
    ((forall l, l ∈ losses fr -> (1000000000 < l)%Q) ->
       best_eval_loss fr = 1000000000%Q).
Proof.
  intros Hrun i fr Hi.
  destruct (train_outcome a env c Hrun) as (_ & _ & Hframes & _).
  destruct (Hframes i fr Hi) as (Htr & _).
  pose proof Htr as (Hl & Hf & _).
  split; [done|]. split; [done|].
  split; [by apply tracked_highest|].
  split; [by apply tracked_lowest|].
  intros Hbig. rewrite Hl. by apply fold_left_Qmin_init.
Qed.

(** X4: what a completed run leaves in the output tree.  There is one
    frame per fold and every fold has its directory.  A fold's [best_loss]
    checkpoint is there when one of its evaluations had a loss below
    [1e9], and its [best_f1] checkpoint when one had a positive F1;
    otherwise the path is as it was before the run, so a fold whose
    evaluations all score 0 writes no [best_f1].  Fold directories with an
    index outside the run's folds are as before. *)
Theorem fold_directories_after_run (a : args) (env : environment) c :
  train a env = Ok c ->
  length (c_frames c) = length (folds env) /\
  (forall i fr, c_frames c !! i = Some fr ->
     is_Some (c_fs c !! k_save_path a (Z.of_nat i)) /\
     ((exists ev, ev ∈ eval_log fr /\ (ev_loss ev < 1000000000)%Q) ->
        exists w, c_fs c !! best_loss_path a (Z.of_nat i) = Some (ModelDir w)) /\
     ((forall ev, ev ∈ eval_log fr -> (1000000000 <= ev_loss ev)%Q) ->
        c_fs c !! best_loss_path a (Z.of_nat i)
        = init_fs env !! best_loss_path a (Z.of_nat i)) /\
     ((exists ev, ev ∈ eval_log fr /\ (0 < ev_f1 ev)%Q) ->
        exists w, c_fs c !! best_f1_path a (Z.of_nat i) = Some (ModelDir w)) /\
     ((forall ev, ev ∈ eval_log fr -> (ev_f1 ev <= 0)%Q) ->
        c_fs c !! best_f1_path a (Z.of_nat i)
        = init_fs env !! best_f1_path a (Z.of_nat i))) /\
  (forall j name, j < 0 \/ Z.of_nat (length (folds env)) <= j ->
     c_fs c !! k_save_path a j = init_fs env !! k_save_path a j /\
     c_fs c !! (k_save_path a j ++ [name])
     = init_fs env !! (k_save_path a j ++ [name])).
Proof.
  intros Hrun.
  destruct (train_outcome a env c Hrun) as (Hlen & _ & Hframes & Hothers).
  split; [done|]. split.
  - intros i fr Hi.
    destruct (Hframes i fr Hi) as (Htr & _ & _ & Hl1 & Hl0 & Hf1 & Hf0 & Hdir).
    split; [done|].
    split; [intros Hev; apply Hl1; by apply tracked_loss_improved|].
    split.
    { intros Hall. apply Hl0.
      destruct (Qltb (best_eval_loss fr) 1000000000) eqn:E; [|done].
      apply tracked_loss_improved in E as (ev & Hev & Hlt); [|done].
      specialize (Hall ev Hev). Lqa.lra. }
    split; [intros Hev; apply Hf1; by apply tracked_f1_improved|].
    intros Hall. apply Hf0.
    destruct (Qltb 0 (best_eval_f1 fr)) eqn:E; [|done].
    apply tracked_f1_improved in E as (ev & Hev & Hlt); [|done].
    specialize (Hall ev Hev). Lqa.lra.
  - intros j name Hj. destruct (Hothers j Hj) as [Hd Hf]. split; [done | apply Hf].
Qed.

(** X5: a fold starts afresh.  [fold_start] sets the trackers to [1e9] and
    [0] and the step counter to 0, loads the weights from the pretrained
    model named by [args.model] and builds the optimizer on them; and the
    fold runs the same whatever the frames of the earlier folds hold: of
    the earlier folds it sees only the file tree, the random state and the
    variable [eval_average_loss]. *)
Theorem fold_starts_afresh (a : args) (env : environment) c j fd tl vl st0 :
  fold_start a env j fd c = Ok (tl, vl, st0) ->
  best_eval_loss (frame st0) = 1000000000%Q /\
  best_eval_f1 (frame st0) = 0%Q /\
  total_idx (frame st0) = 0 /\
  eval_log (frame st0) = [] /\
  net_model (frame st0)
  = fst (from_pretrained (model a) (dropout a) (token_type a) (c_rng c)) /\
  optim (frame st0)
  = (if String.eqb (optimizer a) "AdamP"
     then AdamP (net_model (frame st0)) (lr a)
     else AdamW (net_model (frame st0)) (lr a)) /\
  run_fold a env c (j, fd)
  = (c' ← run_fold a env (forget_frames c) (j, fd);
     Ok {| c_fs := c_fs c'; c_rng := c_rng c';
           c_eval_average_loss := c_eval_average_loss c';
           c_frames := c_frames c ++ c_frames c' |}).
Proof.
  intros Hstart.
  assert (Hsame : fold_start a env j fd (forget_frames c) = fold_start a env j fd c)
    by reflexivity.
  assert (Hrun : run_fold a env c (j, fd)
    = (c' ← run_fold a env (forget_frames c) (j, fd);
       Ok {| c_fs := c_fs c'; c_rng := c_rng c';
             c_eval_average_loss := c_eval_average_loss c';
             c_frames := c_frames c ++ c_frames c' |})).
  { unfold run_fold. rewrite Hsame, Hstart. cbn [mbind result_bind].
    destruct (for_each _ (epoch_list a) st0) as [st|]; reflexivity. }
  revert Hstart. unfold fold_start.
  destruct ((0 <=? data_idx env) && _); [|done]. cbn [mbind result_bind].
  destruct (from_pretrained _ _ _ _) as [model0 r] eqn:Hfp.
  destruct (make_loader (train_dataset fd) _ _); [|done]. cbn [mbind result_bind].
  destruct (make_loader (valid_dataset fd) _ _); [|done]. cbn [mbind result_bind].
  intros [= <- <- <-]. cbn [frame best_eval_loss best_eval_f1 total_idx eval_log
                            net_model optim fst].
  repeat (split; [done|]). split; [|exact Hrun].
  destruct (String.eqb_spec (optimizer a) "AdamW") as [->|_]; [done|].
  by destruct (String.eqb (optimizer a) "AdamP").
Qed.

(** X6: with the plateau scheduler ([reduceLR]), a run whose first fold
    has fewer optimizer steps per epoch than [eval_step] aborts at the end
    of the first epoch: no evaluation has assigned [eval_average_loss]
    when [scheduler.step(eval_average_loss)] reads it. *)
Theorem reduceLR_without_evaluation_aborts (a : args) (env : environment) fd rest :
  lr_scheduler a = "reduceLR"%string ->
  2 <= kfold_splits a -> 0 < epochs a -> logging_step a <> 0 ->
  0 < batch_size a -> 0 < valid_batch_size a ->
  folds env = fd :: rest ->
  0 <= data_idx env < Z.of_nat (length (train_dataset fd)) ->
  steps_per_epoch a fd < eval_step a ->
  train a env = Raise (UnboundLocalError "eval_average_loss").
Proof.
  intros Hsch Hk Hep Hlog Hbs Hvbs Hfolds Hidx Hsteps.
  apply (train_first_fold_raises a env fd rest); [done..|].
  by apply run_fold_unbound.
Qed.

(** X8: the example sentence is printed before anything is trained, so a
    run whose drawn index [data_idx] is not below the size of the first
    fold's training set stops with [IndexError]. *)
Theorem train_IndexError (a : args) (env : environment) fd rest :
  2 <= kfold_splits a -> folds env = fd :: rest ->
  Z.of_nat (length (train_dataset fd)) <= data_idx env ->
  train a env = Raise IndexError.
Proof.
  intros Hk Hfolds Hidx.
  apply (train_first_fold_raises a env fd rest); [done..|].
  unfold run_fold, fold_start.
  replace (data_idx env <? Z.of_nat (length (train_dataset fd))) with false
    by (symmetry; apply Z.ltb_ge; lia).
  by rewrite andb_false_r.
Qed.

End TrainRuns.

Section TrainedConfig.
Context {T : Type} {ops : TensorOps T} {am : ArgMax T} {net : Network T}
        {fw : Framework T}.
Import Train.

(** X1: the output directory of a completed training run cannot be used by
    the inference script.  [train] writes [model_config_parameters.json]
    with the ten keys of lines 222-233; [main] of [inference_kfold.py] finds
    [token_type], [sep_type] and [kfold_splits] there and then raises
    [KeyError] on [model_case], before any tokenizer or checkpoint is
    loaded. *)
Theorem inference_rejects_trained_config (a : args) (env : environment) c
    (ia : Inference.args) (ienv : Inference.environment) :
  train a env = Ok c -> folds env <> [] ->
  Inference.model_dir ia = save_dir a ->
  Inference.env_fs ienv = c_fs c ->
  Inference.main ia ienv = Raise (KeyError "model_case").
Proof.
  intros Hrun Hfolds Hdir Hfs.
  destruct (train_outcome a env c Hrun) as (_ & Hcfg & _).
  assert (Hpos : (0 < length (folds env))%nat).
  { destruct (folds env); [done | simpl; lia]. }
  specialize (Hcfg Hpos). unfold config_path in Hcfg.
  unfold Inference.main, Inference.load_run_config.
  rewrite Hdir, Hfs, Hcfg. cbn [mbind result_bind].
  destruct (config_lacks_model_case a) as (-> & -> & -> & ->).
  reflexivity.
Qed.

End TrainedConfig.

(** ** The loops of a fold: step counter, evaluation schedule, errors *)

Lemma eval_steps_S es n :
  eval_steps es (S n)
  = eval_steps es n
    ++ (if decide (Z.of_nat (S n) mod es = 0) then [Z.of_nat (S n)] else []).
Proof.
  unfold eval_steps. rewrite seq_S, map_app, filter_app.
  cbn [map]. replace (1 + n)%nat with (S n) by lia.
  reflexivity.
Qed.

Lemma klue_re_micro_f1_Ok preds labels :
  length preds = length labels ->
  exists v, Metric.klue_re_micro_f1 preds labels = Ok v.
Proof.
  intros Hlen. unfold Metric.klue_re_micro_f1.
  rewrite no_relation_is_class_0. cbn [mbind result_bind].
  rewrite label_indices_are_relation_classes. cbn [mbind result_bind].
  unfold Metric.f1_score_micro. rewrite Hlen, Nat.eqb_refl.
  cbn [negb mbind result_bind]. eauto.
Qed.

Section TrainLoops.
Context {T : Type} {am : ArgMax T} {net : Network T} {fw : Framework T}.
Import Train.

Lemma train_batch_schedule (a : args) j vl st b st' :
  train_batch a j vl st b = Ok st' ->
  on_schedule a (frame st) ->
  on_schedule a (frame st') /\
  total_idx (frame st') = total_idx (frame st) + 1.
Proof.
  unfold train_batch. cbv zeta.
  destruct (optim_step _ _ _ _ _) as [[model' optim'] r].
  destruct (logging_step a =? 0); [done|].
  destruct (eval_step a =? 0); [done|].
  intros Hst' [H0 Hlog].
  assert (Hn : Z.to_nat (total_idx (frame st) + 1) = S (Z.to_nat (total_idx (frame st))))
    by lia.
  assert (Hz : Z.of_nat (S (Z.to_nat (total_idx (frame st)))) = total_idx (frame st) + 1)
    by lia.
  destruct (_ =? 0) eqn:E.
  - apply Z.eqb_eq in E.
    destruct (eval_checkpoint_inv a j vl _ st' Hst')
      as (loss & f1 & cf & cr & _ & _ & Hfr & _).
    cbv zeta in Hfr. cbn [frame total_idx eval_log] in Hfr.
    rewrite Hfr. unfold on_schedule. cbn [total_idx eval_log].
    split; [|done]. split; [lia|].
    rewrite map_app, Hlog, Hn, eval_steps_S, Hz. cbn [map ev_step].
    by rewrite decide_True.
  - apply Z.eqb_neq in E. injection Hst' as <-.
    unfold on_schedule. cbn [frame total_idx eval_log].
    split; [|done]. split; [lia|].
    rewrite Hlog, Hn, eval_steps_S, Hz.
    by rewrite decide_False, app_nil_r.
Qed.

Lemma batches_schedule (a : args) j vl batches st st' :
  for_each (train_batch a j vl) batches st = Ok st' ->
  on_schedule a (frame st) ->
  on_schedule a (frame st') /\
  total_idx (frame st') = total_idx (frame st) + Z.of_nat (length batches).
Proof.
  revert st. induction batches as [|b batches IH]; intros st.
  - cbn [for_each length]. intros [= <-] H. split; [done | lia].
  - cbn [for_each].
    destruct (train_batch a j vl st b) as [st1|] eqn:E; [|done].
    cbn [mbind result_bind]. intros Hrest Hst.
    destruct (train_batch_schedule a j vl st b st1 E Hst) as [H1 Ht1].
    destruct (IH st1 Hrest H1) as [H2 Ht2].
    split; [done|]. rewrite Ht2, Ht1. cbn [length]. lia.
Qed.

Lemma epoch_end_frame (a : args) st st' :
  epoch_end a st = Ok st' ->
  total_idx (frame st') = total_idx (frame st) /\
  eval_log (frame st') = eval_log (frame st).
Proof.
  unfold epoch_end.
  destruct (String.eqb (lr_scheduler a) "reduceLR").
  - destruct (scheduler (frame st)); [|done].
    destruct (eval_average_loss st); [|done].
    by intros [= <-].
  - destruct (String.eqb (lr_scheduler a) "StepLR").
    + destruct (scheduler (frame st)); [|done]. by intros [= <-].
    + by intros [= <-].
Qed.

Lemma train_epoch_schedule (a : args) j ds n vl st st' :
  train_epoch a j {| ld_dataset := ds; ld_size := n; ld_drop_last := true |} vl st
  = Ok st' ->
  on_schedule a (frame st) ->
  on_schedule a (frame st') /\
  total_idx (frame st')
  = total_idx (frame st) + Z.of_nat (length ds / S n).
Proof.
  unfold train_epoch.
  pose proof (length_iterate_drop_last ds n (rng st)) as Hlen.
  destruct (iterate _ (rng st)) as [batches r]. cbn [fst] in Hlen.
  destruct (for_each _ batches _) as [st1|] eqn:E; [|done].
  cbn [mbind result_bind]. intros Hend Hst.
  destruct (batches_schedule a j vl batches _ st1 E Hst) as [[H0 Hlog] Ht].
  cbn [frame] in Ht.
  destruct (epoch_end_frame a st1 st' Hend) as [Ht' Hlog'].
  unfold on_schedule. rewrite Ht', Hlog', Ht, <- Hlen.
  split; [|done]. split; [lia|]. by rewrite <- Ht.
Qed.

Lemma epochs_schedule (a : args) j ds n vl (es : list Z) st st' :
  for_each (fun st _ =>
              train_epoch a j {| ld_dataset := ds; ld_size := n; ld_drop_last := true |}
                vl st) es st = Ok st' ->
  on_schedule a (frame st) ->
  on_schedule a (frame st') /\
  total_idx (frame st')
  = total_idx (frame st) + Z.of_nat (length es) * Z.of_nat (length ds / S n).
Proof.
  revert st. induction es as [|e es IH]; intros st.
  - cbn [for_each length]. intros [= <-] H. split; [done | lia].
  - cbn [for_each].
    destruct (train_epoch a j _ vl st) as [st1|] eqn:E; [|done].
    cbn [mbind result_bind]. intros Hrest Hst.
    destruct (train_epoch_schedule a j ds n vl st st1 E Hst) as [H1 Ht1].
    destruct (IH st1 Hrest H1) as [H2 Ht2].
    split; [done|]. rewrite Ht2, Ht1. cbn [length]. lia.
Qed.

(** X9: the optimizer steps and the evaluations of one fold.  A fold that
    completes has taken [epochs * len(train_loader)] optimizer steps (the
    counter is not reset between epochs), and it has evaluated exactly at
    the steps that are multiples of [eval_step], in increasing order. *)
Theorem fold_evaluates_on_schedule (a : args) (env : environment) c j fd c' :
  run_fold a env c (j, fd) = Ok c' ->
  exists fr,
    c_frames c' = c_frames c ++ [fr] /\
    total_idx fr = Z.max 0 (epochs a) * steps_per_epoch a fd /\
    map ev_step (eval_log fr)
    = eval_steps (eval_step a) (Z.to_nat (total_idx fr)).
Proof.
  unfold run_fold.
  destruct (fold_start a env j fd c) as [[[tl vl] st0]|] eqn:Hstart; [|done].
  cbn [mbind result_bind].
  destruct (for_each _ (epoch_list a) st0) as [st|] eqn:Hrun; [|done].
  cbn [mbind result_bind]. intros [= <-]. cbn [c_frames].
  destruct (fold_start_inv a env j fd c tl vl st0 Hstart)
    as (_ & Hlog0 & _ & _ & Ht0 & _).
  destruct (fold_start_loaders a env j fd c tl vl st0 Hstart)
    as (Hbs & _ & -> & _).
  assert (H0 : on_schedule a (frame st0)).
  { unfold on_schedule. rewrite Ht0, Hlog0. done. }
  destruct (epochs_schedule a j _ _ vl (epoch_list a) st0 st Hrun H0) as [[_ Hlog] Ht].
  exists (frame st). split; [done|]. split; [|done].
  rewrite Ht, Ht0. unfold epoch_list, steps_per_epoch.
  rewrite length_map, length_seq.
  replace (S (Z.to_nat (batch_size a) - 1)) with (Z.to_nat (batch_size a)) by lia.
  replace (Z.of_nat (Z.to_nat (epochs a))) with (Z.max 0 (epochs a)) by lia.
  lia.
Qed.

Lemma train_batch_zero (a : args) j vl st b :
  logging_step a = 0 \/ eval_step a = 0 ->
  train_batch a j vl st b = Raise ZeroDivisionError.
Proof.
  intros Hzero. unfold train_batch. cbv zeta.
  destruct (optim_step (criterion a) (net_model (frame st)) (optim (frame st))
              b (rng st)) as [[model' optim'] r'].
  destruct Hzero as [-> | ->].
  - reflexivity.
  - destruct (logging_step a =? 0); reflexivity.
Qed.

(** X10: a zero [logging_step] or [eval_step] is a division by zero at
    the first batch: a run whose first fold yields at least one full batch
    stops with [ZeroDivisionError] ([idx % args.logging_step],
    [total_idx % args.eval_step]). *)
Theorem train_ZeroDivisionError (a : args) (env : environment) fd rest :
  2 <= kfold_splits a -> 0 < epochs a ->
  0 < batch_size a -> 0 < valid_batch_size a ->
  folds env = fd :: rest ->
  0 <= data_idx env < Z.of_nat (length (train_dataset fd)) ->
  batch_size a <= Z.of_nat (length (train_dataset fd)) ->
  logging_step a = 0 \/ eval_step a = 0 ->
  train a env = Raise ZeroDivisionError.
Proof.
  intros Hk Hep Hbs Hvbs Hfolds Hidx Hfull Hzero.
  apply (train_first_fold_raises a env fd rest); [done..|].
  unfold run_fold.
  destruct (fold_start_Ok a env 0 fd
              {| c_fs := init_fs env; c_rng := manual_seed (seed a);
                 c_eval_average_loss := None; c_frames := [] |} Hidx Hbs Hvbs)
    as (st0 & -> & _).
  cbn [mbind result_bind].
  unfold epoch_list. destruct (Z.to_nat (epochs a)) as [|n] eqn:En; [lia|].
  cbn [seq map for_each]. unfold train_epoch.
  pose proof (length_iterate_drop_last (train_dataset fd)
                (Z.to_nat (batch_size a) - 1) (rng st0)) as Hlen.
  destruct (iterate _ (rng st0)) as [batches r]. cbn [fst] in Hlen.
  replace (S (Z.to_nat (batch_size a) - 1)) with (Z.to_nat (batch_size a)) in Hlen
    by lia.
  assert (Hpos : (0 < length (train_dataset fd) / Z.to_nat (batch_size a))%nat)
    by (apply Nat.div_str_pos; lia).
  destruct batches as [|b batches]; [simpl in Hlen; lia|].
  cbn [for_each]. by rewrite train_batch_zero.
Qed.

(** *** Batches that complete *)

Lemma evaluate_loop_Ok (a : args) (model : weights) batches acc :
  exists totals,
    for_each
      (fun '(eval_total_loss, eval_total_f1, label_list, pred_list) batch =>
         let labels := map label_of batch in
         let pred := forward model true batch in
         let preds := map argmax_row pred in
         f1 ← Metric.klue_re_micro_f1 preds labels;
         let loss := create_criterion (criterion a) pred labels in
         Ok ((eval_total_loss + loss)%Q, (eval_total_f1 + f1)%Q,
             label_list ++ labels, pred_list ++ preds))
      batches acc = Ok totals.
Proof.
  revert acc. induction batches as [|b batches IH]; intros acc.
  - eexists. reflexivity.
  - cbn [for_each]. destruct acc as [[[tl tf] ll] pl].
    destruct (klue_re_micro_f1_Ok (map argmax_row (forward model true b))
                (map label_of b)) as [v Hv].
    { unfold forward. by rewrite !length_map. }
    cbv zeta. rewrite Hv. cbn [mbind result_bind]. apply IH.
Qed.

Lemma evaluate_Ok (a : args) (model : weights) batches :
  batches <> [] -> exists r, evaluate a model batches = Ok r.
Proof.
  intros Hne. unfold evaluate.
  destruct (for_each _ batches _) as [[[[tl tf] ll] pl]|e] eqn:E.
  - cbn [mbind result_bind].
    destruct batches as [|b batches]; [done|]. cbn [length]. eauto.
  - destruct (evaluate_loop_Ok a model batches (0%Q, 0%Q, [], [])) as [t Ht].
    assert (Hno : Ok t = Raise e) by (rewrite <- Ht; exact E).
    discriminate Hno.
Qed.

Lemma iterate_nonempty ds n r :
  ds <> [] ->
  fst (iterate {| ld_dataset := ds; ld_size := n; ld_drop_last := false |} r) <> [].
Proof.
  intros Hds. unfold iterate. cbn [ld_dataset ld_size ld_drop_last].
  destruct (randperm r (length ds)) as [pi r']. cbn [fst].
  unfold batches_of. rewrite chunks_nil_iff.
  intros E. apply (f_equal length) in E. rewrite length_permute in E.
  destruct ds; [done | discriminate E].
Qed.

Lemma eval_checkpoint_Ok (a : args) j ds n st :
  ds <> [] ->
  exists st',
    eval_checkpoint a j {| ld_dataset := ds; ld_size := n; ld_drop_last := false |} st
    = Ok st' /\
    scheduler (frame st') = scheduler (frame st).
Proof.
  intros Hds. unfold eval_checkpoint.
  pose proof (iterate_nonempty ds n (rng st) Hds) as Hne.
  destruct (iterate _ (rng st)) as [batches r]. cbn [fst] in Hne.
  destruct (evaluate_Ok a (net_model (frame st)) batches Hne)
    as ([[[loss f1] ll] pl] & ->).
  cbn [mbind result_bind]. eexists. split; [reflexivity|]. reflexivity.
Qed.

Lemma train_batch_Ok (a : args) j ds n st b :
  logging_step a <> 0 -> eval_step a <> 0 -> ds <> [] ->
  exists st',
    train_batch a j {| ld_dataset := ds; ld_size := n; ld_drop_last := false |} st b
    = Ok st' /\
    scheduler (frame st') = scheduler (frame st).
Proof.
  intros Hlog Hev Hds. unfold train_batch. cbv zeta.
  destruct (optim_step _ _ _ _ _) as [[model' optim'] r].
  destruct (logging_step a =? 0) eqn:E1; [by apply Z.eqb_eq in E1|].
  destruct (eval_step a =? 0) eqn:E2; [by apply Z.eqb_eq in E2|].
  destruct ((total_idx (frame st) + 1) mod eval_step a =? 0).
  - destruct (eval_checkpoint_Ok a j ds n
                {| fs := fs st; rng := r; eval_average_loss := eval_average_loss st;
                   frame := {| net_model := model'; optim := optim';
                               scheduler := scheduler (frame st);
                               best_eval_loss := best_eval_loss (frame st);
                               best_eval_f1 := best_eval_f1 (frame st);
                               total_idx := total_idx (frame st) + 1;
                               eval_log := eval_log (frame st) |} |} Hds)
      as (st' & -> & Hs).
    exists st'. split; [done|]. by rewrite Hs.
  - eexists. split; [reflexivity|]. reflexivity.
Qed.

End TrainLoops.

(** ** The properties of the trainer on simulated runs *)

Section TrainWitnesses.
Import Train Sim SimRuns.

Lemma sim_fold_outcome_Ok predict loss a env c fold :
  is_Ok (@run_fold Q rational_argmax (sim_network predict)
           (sim_framework predict loss) a env c fold) = true ->
  @run_fold Q rational_argmax (sim_network predict) (sim_framework predict loss)
    a env c fold
  = Ok (sim_fold_outcome predict loss a env c fold).
Proof. intros H. exact (is_Ok_value _ _ H). Qed.

Lemma inference_rejects_trained_config_witness :
  Inference.main (ops := sim_ops) (am := rational_argmax) sim_inference_args
    (sim_inference_env learner
       (c_fs (sim_outcome learner 1 (sim_args "StepLR" 1)
                (sim_env learner (ten_rows learner) ∅))))
  = Raise (KeyError "model_case").
Proof.
  apply (inference_rejects_trained_config (ops := sim_ops) (am := rational_argmax)
           (fw := sim_framework learner 1)
           (sim_args "StepLR" 1) (sim_env learner (ten_rows learner) ∅)
           (sim_outcome learner 1 (sim_args "StepLR" 1)
              (sim_env learner (ten_rows learner) ∅))
           sim_inference_args
           (sim_inference_env learner
              (c_fs (sim_outcome learner 1 (sim_args "StepLR" 1)
                       (sim_env learner (ten_rows learner) ∅))))).
  - apply sim_outcome_Ok. vm_compute. reflexivity.
  - discriminate.
  - reflexivity.
  - reflexivity.
Defined.

Lemma trackers_are_running_extrema_witness :
  train (am := rational_argmax) (fw := sim_framework learner 2000000000)
    (sim_args "StepLR" 1) (sim_env learner (ten_rows learner) ∅)
  = Ok (sim_outcome learner 2000000000 (sim_args "StepLR" 1)
          (sim_env learner (ten_rows learner) ∅)) /\
  forall i fr,
    c_frames (sim_outcome learner 2000000000 (sim_args "StepLR" 1)
                (sim_env learner (ten_rows learner) ∅)) !! i = Some fr ->
    best_eval_loss fr = fold_left Qmin (losses fr) 1000000000%Q /\
    best_eval_f1 fr = fold_left Qmax (f1s fr) 0%Q /\
    (f1s fr <> [] -> highest (best_eval_f1 fr) (f1s fr)) /\
    ((exists l, l ∈ losses fr /\ (l <= 1000000000)%Q) ->
       lowest (best_eval_loss fr) (losses fr)) /\
    ((forall l, l ∈ losses fr -> (1000000000 < l)%Q) ->
       best_eval_loss fr = 1000000000%Q).
Proof.
  assert (Hrun : train (am := rational_argmax)
            (fw := sim_framework learner 2000000000)
            (sim_args "StepLR" 1) (sim_env learner (ten_rows learner) ∅)
          = Ok (sim_outcome learner 2000000000 (sim_args "StepLR" 1)
                  (sim_env learner (ten_rows learner) ∅))).
  { apply sim_outcome_Ok. vm_compute. reflexivity. }
  split; [exact Hrun|].
  exact (trackers_are_running_extrema (fw := sim_framework learner 2000000000)
           _ _ _ Hrun).
Defined.

Lemma fold_directories_after_run_witness :
  length (c_frames (sim_outcome idler 1 (sim_args "StepLR" 1)
                      (sim_env idler (ten_rows idler) ∅)))
  = length (ten_rows idler).
Proof.
  apply (fold_directories_after_run (fw := sim_framework idler 1)
           (sim_args "StepLR" 1) (sim_env idler (ten_rows idler) ∅)).
  apply sim_outcome_Ok. vm_compute. reflexivity.
Defined.

Lemma fold_starts_afresh_witness :
  exists tl vl st0,
    fold_start (fw := sim_framework learner 1) (sim_args "StepLR" 1)
      (sim_env learner (ten_rows learner) ∅) 1 (five_rows learner)
      (sim_fold_outcome learner 1 (sim_args "StepLR" 1)
         (sim_env learner (ten_rows learner) ∅) (no_carry learner 1)
         (0, five_rows learner))
    = Ok (tl, vl, st0) /\
    best_eval_loss (frame st0) = 1000000000%Q /\
    best_eval_f1 (frame st0) = 0%Q /\
    total_idx (frame st0) = 0 /\
    net_model (frame st0) = 0.
Proof.
  destruct (fold_start_Ok (fw := sim_framework learner 1) (sim_args "StepLR" 1)
              (sim_env learner (ten_rows learner) ∅) 1 (five_rows learner)
              (sim_fold_outcome learner 1 (sim_args "StepLR" 1)
                 (sim_env learner (ten_rows learner) ∅) (no_carry learner 1)
                 (0, five_rows learner)))
    as (st0 & Hstart & _).
  - simpl. lia.
  - reflexivity.
  - reflexivity.
  - eexists _, _, st0. split; [exact Hstart|].
    destruct (fold_starts_afresh _ _ _ _ _ _ _ _ Hstart)
      as (Hl & Hf & Ht & _ & Hm & _).
    repeat (split; [assumption|]). exact Hm.
Defined.

Lemma reduceLR_without_evaluation_aborts_witness :
  train (am := rational_argmax) (fw := sim_framework learner 1)
    (sim_args "reduceLR" 100) (sim_env learner (ten_rows learner) ∅)
  = Raise (UnboundLocalError "eval_average_loss").
Proof.
  apply (reduceLR_without_evaluation_aborts (fw := sim_framework learner 1)
           (sim_args "reduceLR" 100) (sim_env learner (ten_rows learner) ∅)
           (five_rows learner) [five_rows learner]).
  - reflexivity.
  - simpl. lia.
  - simpl. lia.
  - simpl. lia.
  - simpl. lia.
  - simpl. lia.
  - reflexivity.
  - simpl. lia.
  - vm_compute. reflexivity.
Defined.

Lemma train_IndexError_witness :
  train (am := rational_argmax) (fw := sim_framework learner 1)
    (sim_args "StepLR" 1) (sim_env learner [no_rows learner; five_rows learner] ∅)
  = Raise IndexError.
Proof.
  apply (train_IndexError (fw := sim_framework learner 1)
           (sim_args "StepLR" 1)
           (sim_env learner [no_rows learner; five_rows learner] ∅)
           (no_rows learner) [five_rows learner]).
  - simpl. lia.
  - reflexivity.
  - simpl. lia.
Defined.

Lemma fold_evaluates_on_schedule_witness :
  exists fr,
    c_frames (sim_fold_outcome learner 1 (sim_args "StepLR" 2)
                (sim_env learner (ten_rows learner) ∅) (no_carry learner 1)
                (0, five_rows learner))
    = c_frames (no_carry learner 1) ++ [fr] /\
    total_idx fr
    = Z.max 0 (epochs (sim_args "StepLR" 2))
      * steps_per_epoch (sim_args "StepLR" 2) (five_rows learner) /\
    map ev_step (eval_log fr)
    = eval_steps (eval_step (sim_args "StepLR" 2)) (Z.to_nat (total_idx fr)).
Proof.
  apply (fold_evaluates_on_schedule (fw := sim_framework learner 1)
           (sim_args "StepLR" 2) (sim_env learner (ten_rows learner) ∅)
           (no_carry learner 1) 0 (five_rows learner)).
  apply sim_fold_outcome_Ok. vm_compute. reflexivity.
Defined.

Lemma train_ZeroDivisionError_witness :
  train (am := rational_argmax) (fw := sim_framework learner 1)
    (sim_args "StepLR" 0) (sim_env learner (ten_rows learner) ∅)
  = Raise ZeroDivisionError.
Proof.
  apply (train_ZeroDivisionError (fw := sim_framework learner 1)
           (sim_args "StepLR" 0) (sim_env learner (ten_rows learner) ∅)
           (five_rows learner) [five_rows learner]).
  - simpl. lia.
  - simpl. lia.
  - simpl. lia.
  - simpl. lia.
  - reflexivity.
  - simpl. lia.
  - simpl. lia.
  - right. reflexivity.
Defined.

End TrainWitnesses.

(** ** The metric: range, symmetry, perfect predictions *)

Section MetricMore.
Import Metric.

Lemma klue_re_micro_f1_unfold preds labels :
  klue_re_micro_f1 preds labels
  = (f1 ← f1_score_micro labels preds relation_classes; Ok (f1 * 100)%Q).
Proof.
  unfold klue_re_micro_f1.
  rewrite no_relation_is_class_0. cbn [mbind result_bind].
  rewrite label_indices_are_relation_classes. reflexivity.
Qed.

Lemma tp_sum_le_pred c y_true y_pred : tp_sum c y_true y_pred <= pred_sum c y_pred.
Proof.
  unfold tp_sum, pred_sum. revert y_pred.
  induction y_true as [|t y_true IH]; intros [|p y_pred]; cbn [combine count].
  - lia.
  - pose proof (count_nonneg (Z.eqb c) y_pred). destruct (c =? p); lia.
  - lia.
  - specialize (IH y_pred). rewrite (Z.eqb_sym c p).
    destruct (t =? c), (p =? c); cbn [andb]; lia.
Qed.

Lemma tp_sum_le_true c y_true y_pred : tp_sum c y_true y_pred <= true_sum c y_true.
Proof.
  unfold tp_sum, true_sum. revert y_pred.
  induction y_true as [|t y_true IH]; intros [|p y_pred]; cbn [combine count].
  - lia.
  - lia.
  - pose proof (count_nonneg (Z.eqb c) y_true). destruct (c =? t); lia.
  - specialize (IH y_pred). rewrite (Z.eqb_sym c t).
    destruct (t =? c), (p =? c); cbn [andb]; lia.
Qed.

Lemma tp_sum_sym c l k : tp_sum c l k = tp_sum c k l.
Proof.
  unfold tp_sum. revert k.
  induction l as [|x l IH]; intros [|y k]; cbn [combine count]; try done.
  rewrite IH. by rewrite andb_comm.
Qed.

Lemma tp_sum_diag c l : tp_sum c l l = count (Z.eqb c) l.
Proof.
  unfold tp_sum. induction l as [|x l IH]; cbn [combine count]; [done|].
  rewrite IH, (Z.eqb_sym c x). by destruct (x =? c).
Qed.

Lemma sum_over_le f g cs :
  (forall c, f c <= g c) -> sum_over f cs <= sum_over g cs.
Proof.
  intros H. induction cs as [|c cs IH]; cbn [sum_over fold_right]; [lia|].
  specialize (H c). unfold sum_over in IH. lia.
Qed.

(** The harmonic-mean step stays within [0, 100]. *)
Lemma fscore_le_100 tp pred true :
  0 <= tp <= pred -> tp <= true ->
  let P := prf_divide tp pred in
  let R := prf_divide tp true in
  ((1 + 1) * P * R / (if Qeq_bool (P + R) 0 then 1 else P + R) * 100 <= 100)%Q.
Proof.
  intros Hp Ht P R.
  assert (HP0 : (0 <= P)%Q) by (apply prf_divide_nonneg; lia).
  assert (HR0 : (0 <= R)%Q) by (apply prf_divide_nonneg; lia).
  assert (HP1 : (P <= 1)%Q) by (apply prf_divide_le_1; lia).
  assert (HR1 : (R <= 1)%Q) by (apply prf_divide_le_1; lia).
  assert (HPR : (P * R <= P)%Q).
  { pose proof (Qmult_le_compat_r R 1 P HR1 HP0). Lqa.lra. }
  assert (HRP : (P * R <= R)%Q).
  { pose proof (Qmult_le_compat_r P 1 R HP1 HR0). Lqa.lra. }
  destruct (Qeq_bool (P + R) 0) eqn:E.
  - apply Qeq_bool_iff in E.
    assert (HP : (P == 0)%Q) by Lqa.lra.
    assert (E0 : ((1 + 1) * P * R / 1 * 100 == 0)%Q) by (rewrite HP; field).
    rewrite E0. done.
  - apply Qeq_bool_neq in E.
    assert (Hpos : (0 < P + R)%Q) by Lqa.lra.
    assert (H1 : ((1 + 1) * P * R / (P + R) <= 1)%Q).
    { apply Qle_shift_div_r; [done|]. Lqa.lra. }
    Lqa.lra.
Qed.

Lemma f1_score_micro_le_100 y_true y_pred ls v :
  f1_score_micro y_true y_pred ls = Ok v -> (v * 100 <= 100)%Q.
Proof.
  unfold f1_score_micro. destruct (negb _); [done|]. intros [= <-].
  apply fscore_le_100.
  - split.
    + apply sum_over_nonneg. intros c. apply count_nonneg.
    + apply sum_over_le. intros c. apply tp_sum_le_pred.
  - apply sum_over_le. intros c. apply tp_sum_le_true.
Qed.

Lemma f1_score_micro_sym y_true y_pred ls v :
  f1_score_micro y_true y_pred ls = Ok v ->
  exists v', f1_score_micro y_pred y_true ls = Ok v' /\ (v' == v)%Q.
Proof.
  unfold f1_score_micro.
  destruct (length y_true =? length y_pred)%nat eqn:E; [|done].
  rewrite Nat.eqb_sym, E. cbn [negb].
  intros [= <-]. eexists. split; [reflexivity|].
  rewrite (sum_over_ext (fun c => tp_sum c y_pred y_true)
             (fun c => tp_sum c y_true y_pred)) by (intros; apply tp_sum_sym).
  change (fun c => true_sum c y_pred) with (fun c => pred_sum c y_pred).
  change (fun c => pred_sum c y_true) with (fun c => true_sum c y_true).
  set (P := prf_divide _ (sum_over (fun c => pred_sum c y_pred) _)).
  set (R := prf_divide _ (sum_over (fun c => true_sum c y_true) _)).
  assert (Eb : Qeq_bool (R + P) 0 = Qeq_bool (P + R) 0).
  { destruct (Qeq_bool (P + R) 0) eqn:E1.
    - apply Qeq_bool_iff in E1. apply Qeq_bool_iff. Lqa.lra.
    - apply Qeq_bool_neq in E1.
      destruct (Qeq_bool (R + P) 0) eqn:E2; [|done].
      apply Qeq_bool_iff in E2. exfalso. apply E1. Lqa.lra. }
  rewrite Eb. destruct (Qeq_bool (P + R) 0) eqn:E1.
  - field.
  - apply Qeq_bool_neq in E1. field. exact E1.
Qed.

(** A vector scored against itself: 1 when one of the classes occurs in
    it, 0 otherwise. *)
Lemma f1_score_micro_diag l ls :
  exists v,
    f1_score_micro l l ls = Ok v /\
    (v == if 0 <? sum_over (fun c => count (Z.eqb c) l) ls then 1 else 0)%Q.
Proof.
  unfold f1_score_micro. rewrite Nat.eqb_refl. cbn [negb].
  eexists. split; [reflexivity|].
  rewrite (sum_over_ext (fun c => tp_sum c l l)
             (fun c => count (Z.eqb c) l)) by (intros; apply tp_sum_diag).
  unfold pred_sum, true_sum.
  set (n := sum_over _ ls).
  assert (Hn : 0 <= n).
  { apply sum_over_nonneg. intros c. apply count_nonneg. }
  unfold prf_divide.
  destruct (Z.eqb_spec n 0) as [->|Hne].
  - reflexivity.
  - replace (0 <? n) with true by (symmetry; apply Z.ltb_lt; lia).
    assert (Hq : ~ (inject_Z n == 0)%Q).
    { replace 0%Q with (inject_Z 0) by done. rewrite inject_Z_injective. done. }
    assert (H1 : (inject_Z n / inject_Z n == 1)%Q) by (field; exact Hq).
    set (x := (inject_Z n / inject_Z n)%Q) in *.
    destruct (Qeq_bool (x + x) 0) eqn:Eb.
    + apply Qeq_bool_iff in Eb. Lqa.lra.
    + rewrite H1. reflexivity.
Qed.

(** X12: the score is a percentage: whenever [klue_re_micro_f1] returns,
    its value lies between 0 and 100. *)
Theorem klue_re_micro_f1_range preds labels v :
  klue_re_micro_f1 preds labels = Ok v -> (0 <= v <= 100)%Q.
Proof.
  intros H. split; [by eapply klue_re_micro_f1_nonneg|].
  rewrite klue_re_micro_f1_unfold in H.
  destruct (f1_score_micro labels preds relation_classes) as [f|] eqn:E; [|done].
  cbn [mbind result_bind] in H. injection H as <-.
  by eapply f1_score_micro_le_100.
Qed.

(** X13: the score does not depend on which vector is taken for the
    predictions and which for the labels: micro-F1 over a fixed set of
    classes is symmetric, so [klue_re_micro_f1 labels preds] returns the
    same number as [klue_re_micro_f1 preds labels]. *)
Theorem klue_re_micro_f1_symmetric preds labels v :
  klue_re_micro_f1 preds labels = Ok v ->
  exists v', klue_re_micro_f1 labels preds = Ok v' /\ (v' == v)%Q.
Proof.
  rewrite !klue_re_micro_f1_unfold.
  destruct (f1_score_micro labels preds relation_classes) as [f|] eqn:E; [|done].
  cbn [mbind result_bind]. intros [= <-].
  destruct (f1_score_micro_sym _ _ _ _ E) as (f' & -> & Hf).
  cbn [mbind result_bind]. eexists. split; [reflexivity|]. by rewrite Hf.
Qed.

Lemma sum_over_indicator l cs :
  NoDup cs ->
  sum_over (fun c => if c =? l then 1 else 0) cs
  = if bool_decide (l ∈ cs) then 1 else 0.
Proof.
  induction 1 as [|c cs Hc Hnd IH]; cbn [sum_over fold_right]; [done|].
  unfold sum_over in IH. rewrite IH.
  destruct (Z.eqb_spec c l) as [->|Hne].
  - rewrite (bool_decide_eq_false_2 (l ∈ cs)) by done.
    rewrite bool_decide_eq_true_2; [done | left].
  - destruct (decide (l ∈ cs)) as [Hin|Hin].
    + rewrite !bool_decide_eq_true_2; [done | by right | done].
    + rewrite !bool_decide_eq_false_2; [done | | done].
      intros [E|E]%elem_of_cons; [by subst | done].
Qed.

Lemma relation_classes_NoDup : NoDup relation_classes.
Proof. apply (bool_decide_unpack _). vm_compute. exact I. Qed.

(** The relation labels of a vector, counted class by class. *)
Lemma sum_over_count_classes l :
  sum_over (fun c => count (Z.eqb c) l) relation_classes
  = count (fun x => bool_decide (x ∈ relation_classes)) l.
Proof.
  induction l as [|x l IH]; cbn [count].
  - unfold sum_over. induction relation_classes; cbn [fold_right]; lia.
  - rewrite sum_over_plus, IH.
    rewrite (sum_over_indicator x) by apply relation_classes_NoDup. done.
Qed.

Lemma count_pos_existsb {A} (P : A -> bool) l :
  (0 <? count P l) = existsb P l.
Proof.
  induction l as [|x l IH]; cbn [count existsb]; [done|].
  pose proof (count_nonneg P l).
  destruct (P x); cbn [orb]; [|by rewrite Z.add_0_l].
  apply Z.ltb_lt. lia.
Qed.

(** X14: a vector scored against itself gets 100 when it holds at least
    one relation label, and 0 when every entry is [no_relation] (or no
    class at all): with nothing to find, precision and recall are 0/0,
    which scikit-learn counts as 0. *)
Theorem klue_re_micro_f1_perfect labels :
  exists v,
    klue_re_micro_f1 labels labels = Ok v /\
    (v == if existsb (fun l => bool_decide (l ∈ relation_classes)) labels
          then 100 else 0)%Q.
Proof.
  rewrite klue_re_micro_f1_unfold.
  destruct (f1_score_micro_diag labels relation_classes) as (f & -> & Hf).
  cbn [mbind result_bind]. eexists. split; [reflexivity|].
  rewrite Hf, sum_over_count_classes, count_pos_existsb.
  by destruct (existsb _ labels).
Qed.

End MetricMore.

Lemma klue_re_micro_f1_range_witness :
  Metric.klue_re_micro_f1 [1; 0; 2] [1; 2; 2] = Ok (4800 # 60) /\
  (0 <= 4800 # 60 <= 100)%Q.
Proof.
  assert (H : Metric.klue_re_micro_f1 [1; 0; 2] [1; 2; 2] = Ok (4800 # 60)).
  { vm_compute. reflexivity. }
  split; [exact H|].
  exact (klue_re_micro_f1_range _ _ _ H).
Defined.

Lemma klue_re_micro_f1_symmetric_witness :
  Metric.klue_re_micro_f1 [1; 0; 2] [1; 2; 2] = Ok (4800 # 60) /\
  exists v', Metric.klue_re_micro_f1 [1; 2; 2] [1; 0; 2] = Ok v' /\ (v' == 4800 # 60)%Q.
Proof.
  assert (H : Metric.klue_re_micro_f1 [1; 0; 2] [1; 2; 2] = Ok (4800 # 60)).
  { vm_compute. reflexivity. }
  split; [exact H|].
  exact (klue_re_micro_f1_symmetric _ _ _ H).
Defined.

(** ** Inference: batches and label tables *)

Section InferenceMore.
Context {T : Type} {ops : TensorOps T} {am : ArgMax T} {net : Network T}.
Import Inference.

(** X15: the ways [inference] ends.  A batch size that is not positive is
    refused by the loader ([ValueError]); an empty data set yields no
    batch and [torch.cat] of the empty list fails ([RuntimeError]); a
    model name that is a number, a boolean or null cannot be searched for
    ['xlm'] ([TypeError]); otherwise the logits of all batches come back,
    batch after batch in data set order. *)
Theorem inference_cases model (ds : list example) mt bs :
  inference model ds mt bs
  = if bs <=? 0 then Raise ValueError
    else match ds with
         | [] => Raise RuntimeError
         | _ :: _ =>
             match mt with
             | JStr s =>
                 Ok (concat (map (forward model (negb (xlm_in s)))
                               (chunks (Z.to_nat bs - 1) ds)))
             | _ => Raise TypeError
             end
         end.
Proof.
  destruct (Z.leb_spec bs 0) as [Hle|Hpos].
  - unfold inference, DataLoader.
    replace (Z.to_nat bs) with 0%nat by lia. reflexivity.
  - destruct ds as [|x ds].
    + unfold inference. rewrite DataLoader_Ok by done.
      by destruct (Z.to_nat bs - 1)%nat.
    + assert (Hne : chunks (Z.to_nat bs - 1) (x :: ds) <> [])
        by (by rewrite chunks_nil_iff).
      destruct mt as [s| | | |]; [by apply inference_Ok|..];
        unfold inference; rewrite DataLoader_Ok by done;
        cbn [mbind result_bind]; by rewrite inference_loop_TypeError.
Qed.

End InferenceMore.

Section LabelTables.
Import Inference.

Lemma num_to_label_loop_complete (dict : gmap Z string) preds ls acc :
  Forall2 (fun (p : Z) (l : string) => dict !! p = Some l) preds ls ->
  for_each (fun origin_label v =>
              match dict !! v with
              | Some l => Ok (origin_label ++ [l])
              | None => Raise (KeyError (str_of_int v))
              end) preds acc = Ok (acc ++ ls).
Proof.
  intros H. revert acc. induction H as [|p l preds ls Hp _ IH]; intros acc.
  - by rewrite app_nil_r.
  - cbn [for_each]. rewrite Hp. cbn [mbind result_bind].
    rewrite IH, <- app_assoc. done.
Qed.

Lemma num_to_label_loop_Raise (dict : gmap Z string) preds acc e :
  for_each (fun origin_label v =>
              match dict !! v with
              | Some l => Ok (origin_label ++ [l])
              | None => Raise (KeyError (str_of_int v))
              end) preds acc = Raise e ->
  exists pre p post,
    preds = pre ++ p :: post /\
    Forall (fun q => is_Some (dict !! q)) pre /\
    dict !! p = None /\ e = KeyError (str_of_int p).
Proof.
  revert acc. induction preds as [|p preds IH]; intros acc; cbn [for_each]; [done|].
  destruct (dict !! p) as [l|] eqn:E.
  - cbn [mbind result_bind]. intros H.
    destruct (IH _ H) as (pre & q & post & -> & Hpre & Hq & ->).
    exists (p :: pre), q, post. split; [done|]. split; [|done].
    constructor; [by rewrite E | done].
  - cbn [mbind result_bind]. intros [= <-].
    exists [], p, preds. split; [done|]. split; [constructor | done].
Qed.

(** X16: [num_to_label] is the table applied entry by entry.  It returns
    a list exactly when every number is a key of the table, and then the
    list holds the labels of the numbers in order; otherwise it raises
    [KeyError] on the first number that is not a key. *)
Theorem num_to_label_iff (dict : gmap Z string) preds :
  (forall labels,
     num_to_label dict preds = Ok labels
     <-> Forall2 (fun (p : Z) (l : string) => dict !! p = Some l) preds labels) /\
  (forall e,
     num_to_label dict preds = Raise e
     <-> exists pre p post,
           preds = pre ++ p :: post /\
           Forall (fun q => is_Some (dict !! q)) pre /\
           dict !! p = None /\ e = KeyError (str_of_int p)).
Proof.
  split.
  - intros labels. split; [apply num_to_label_Ok|].
    intros H. unfold num_to_label.
    by rewrite (num_to_label_loop_complete dict preds labels []).
  - intros e. split; [apply num_to_label_loop_Raise|].
    intros (pre & p & post & -> & Hpre & Hp & ->).
    unfold num_to_label. rewrite for_each_app.
    destruct (num_to_label_is_Ok dict pre [] Hpre) as (ls & -> & _).
    cbn [mbind result_bind for_each]. by rewrite Hp.
Qed.

Lemma label_to_num_loop (dict : gmap string Z) labels acc nums :
  for_each (fun num_label v =>
              match dict !! v with
              | Some n => Ok (num_label ++ [n])
              | None => Raise (KeyError v)
              end) labels acc = Ok nums ->
  exists ns, nums = acc ++ ns /\
             Forall2 (fun (l : string) (n : Z) => dict !! l = Some n) labels ns.
Proof.
  revert acc. induction labels as [|l labels IH]; intros acc; cbn [for_each].
  - intros [= <-]. exists []. by rewrite app_nil_r.
  - destruct (dict !! l) as [n|] eqn:E; [|done]. cbn [mbind result_bind].
    intros H. destruct (IH _ H) as (ns & -> & Hns).
    exists (n :: ns). rewrite <- app_assoc. split; [done|]. by constructor.
Qed.

(** X17: decoding undoes encoding.  When the table of [num_to_label]
    sends every number the table of [label_to_num] assigns back to its
    label, the numbers [label_to_num] returns for a list of labels are
    turned back into that list by [num_to_label]. *)
Theorem label_round_trip (to_num : gmap string Z) (to_label : gmap Z string)
    labels nums :
  (forall l n, to_num !! l = Some n -> to_label !! n = Some l) ->
  label_to_num to_num labels = Ok nums ->
  num_to_label to_label nums = Ok labels.
Proof.
  intros Hinv H. unfold label_to_num in H.
  destruct (label_to_num_loop to_num labels [] nums H) as (ns & -> & Hns).
  unfold num_to_label. cbn [app].
  rewrite (num_to_label_loop_complete to_label ns labels []); [done|].
  clear H. induction Hns as [|l n labels ns Hl _ IH]; constructor; auto.
Qed.

End LabelTables.

Lemma label_round_trip_witness :
  label_to_num {[ "no_relation"%string := 0 ]}
    ["no_relation"%string; "no_relation"%string] = Ok [0; 0] /\
  Inference.num_to_label {[ 0 := "no_relation"%string ]} [0; 0]
  = Ok ["no_relation"%string; "no_relation"%string].
Proof.
  assert (H : label_to_num {[ "no_relation"%string := 0 ]}
                ["no_relation"%string; "no_relation"%string] = Ok [0; 0]).
  { vm_compute. reflexivity. }
  split; [exact H|].
  apply (label_round_trip {[ "no_relation"%string := 0 ]} _ _ _ ltac:(
    intros l n [<- <-]%lookup_singleton_Some; apply lookup_singleton_eq) H).
Defined.

Section TrainThenInfer.
Context {T : Type} {am : ArgMax T} {net : Network T} {fw : Framework T}.
Import Train.

(** X19: the checkpoints of a completed run are where inference looks for
    them.  With a configuration that asks for [automodel] without LSTM,
    [load_model] on the run's save directory finds the [best_loss]
    checkpoint of every fold that had an evaluation with a loss below
    [1e9], and the [best_f1] checkpoint of every fold that had one with a
    positive F1. *)
Theorem trained_checkpoints_load (a : args) (env : environment) c
    (cfg : Inference.run_config) :
  train a env = Ok c ->
  truthy (Inference.use_lstm cfg) = false ->
  Inference.model_case cfg = JStr "automodel" ->
  forall i fr, c_frames c !! i = Some fr ->
    ((exists ev, ev ∈ eval_log fr /\ (ev_loss ev < 1000000000)%Q) ->
       exists w, Inference.load_model (c_fs c) (save_dir a) "best_loss" cfg
                   (Z.of_nat i) = Ok w) /\
    ((exists ev, ev ∈ eval_log fr /\ (0 < ev_f1 ev)%Q) ->
       exists w, Inference.load_model (c_fs c) (save_dir a) "best_f1" cfg
                   (Z.of_nat i) = Ok w).
Proof.
  intros Hrun Hlstm Hcase i fr Hi.
  destruct (train_outcome a env c Hrun) as (_ & _ & Hframes & _).
  destruct (Hframes i fr Hi) as (Htr & _ & _ & Hl1 & _ & Hf1 & _).
  unfold Inference.load_model. rewrite Hlstm, Hcase.
  cbn [Inference.is_str String.eqb Ascii.eqb Bool.eqb orb].
  split.
  - intros Hev. destruct Hl1 as [w Hw]; [by apply tracked_loss_improved|].
    exists w. unfold best_loss_path, k_save_path in Hw.
    rewrite <- app_assoc in Hw. by rewrite Hw.
  - intros Hev. destruct Hf1 as [w Hw]; [by apply tracked_f1_improved|].
    exists w. unfold best_f1_path, k_save_path in Hw.
    rewrite <- app_assoc in Hw. by rewrite Hw.
Qed.

End TrainThenInfer.

Lemma trained_checkpoints_load_witness :
  Train.train (am := Sim.rational_argmax)
    (fw := Sim.sim_framework SimRuns.learner 1)
    (Sim.sim_args "StepLR" 1)
    (Sim.sim_env SimRuns.learner (Sim.ten_rows SimRuns.learner) ∅)
  = Ok (SimRuns.sim_outcome SimRuns.learner 1 (Sim.sim_args "StepLR" 1)
          (Sim.sim_env SimRuns.learner (Sim.ten_rows SimRuns.learner) ∅)) /\
  forall i fr,
    Train.c_frames
      (SimRuns.sim_outcome SimRuns.learner 1 (Sim.sim_args "StepLR" 1)
         (Sim.sim_env SimRuns.learner (Sim.ten_rows SimRuns.learner) ∅)) !! i
    = Some fr ->
    ((exists ev, ev ∈ Train.eval_log fr /\ (Train.ev_loss ev < 1000000000)%Q) ->
       exists w,
         Inference.load_model
           (Train.c_fs
              (SimRuns.sim_outcome SimRuns.learner 1 (Sim.sim_args "StepLR" 1)
                 (Sim.sim_env SimRuns.learner (Sim.ten_rows SimRuns.learner) ∅)))
           (Train.save_dir (Sim.sim_args "StepLR" 1)) "best_loss" Demo.demo_cfg
           (Z.of_nat i) = Ok w) /\
    ((exists ev, ev ∈ Train.eval_log fr /\ (0 < Train.ev_f1 ev)%Q) ->
       exists w,
         Inference.load_model
           (Train.c_fs
              (SimRuns.sim_outcome SimRuns.learner 1 (Sim.sim_args "StepLR" 1)
                 (Sim.sim_env SimRuns.learner (Sim.ten_rows SimRuns.learner) ∅)))
           (Train.save_dir (Sim.sim_args "StepLR" 1)) "best_f1" Demo.demo_cfg
           (Z.of_nat i) = Ok w).
Proof.
  assert (Hrun : Train.train (am := Sim.rational_argmax)
            (fw := Sim.sim_framework SimRuns.learner 1)
            (Sim.sim_args "StepLR" 1)
            (Sim.sim_env SimRuns.learner (Sim.ten_rows SimRuns.learner) ∅)
          = Ok (SimRuns.sim_outcome SimRuns.learner 1 (Sim.sim_args "StepLR" 1)
                  (Sim.sim_env SimRuns.learner (Sim.ten_rows SimRuns.learner) ∅))).
  { apply sim_outcome_Ok. vm_compute. reflexivity. }
  split; [exact Hrun|].
  exact (trained_checkpoints_load (fw := Sim.sim_framework SimRuns.learner 1)
           _ _ _ Demo.demo_cfg Hrun eq_refl eq_refl).
Defined.

(** ** Between the folds *)

Section BetweenFolds.
Context {T : Type} {am : ArgMax T} {net : Network T} {fw : Framework T}.
Import Train.

(** X21: a fold leaves the other folds alone: running fold [j] changes
    neither the directory of a fold with another index nor any entry of
    it. *)
Theorem fold_leaves_other_folds_alone (a : args) (env : environment) c j fd c' i :
  run_fold a env c (j, fd) = Ok c' -> i <> j ->
  c_fs c' !! k_save_path a i = c_fs c !! k_save_path a i /\
  forall name, c_fs c' !! (k_save_path a i ++ [name])
               = c_fs c !! (k_save_path a i ++ [name]).
Proof. apply run_fold_other_folds. Qed.

End BetweenFolds.

Section BetweenFoldsWitnesses.
Import Train Sim SimRuns.

Lemma fold_leaves_other_folds_alone_witness :
  c_fs (sim_fold_outcome learner 1 (sim_args "StepLR" 2)
          (sim_env learner (ten_rows learner) used_fs)
          (@Build_carry Q (sim_network learner) (sim_framework learner 1)
             used_fs () None [])
          (1, five_rows learner))
    !! k_save_path (sim_args "StepLR" 2) 0
  = used_fs !! k_save_path (sim_args "StepLR" 2) 0 /\
  forall name,
    c_fs (sim_fold_outcome learner 1 (sim_args "StepLR" 2)
            (sim_env learner (ten_rows learner) used_fs)
            (@Build_carry Q (sim_network learner) (sim_framework learner 1)
               used_fs () None [])
            (1, five_rows learner))
      !! (k_save_path (sim_args "StepLR" 2) 0 ++ [name])
    = used_fs !! (k_save_path (sim_args "StepLR" 2) 0 ++ [name]).
Proof.
  apply (fold_leaves_other_folds_alone (fw := sim_framework learner 1)
           (sim_args "StepLR" 2) (sim_env learner (ten_rows learner) used_fs)
           (@Build_carry Q (sim_network learner) (sim_framework learner 1)
              used_fs () None [])
           1 (five_rows learner)).
  - apply sim_fold_outcome_Ok. vm_compute. reflexivity.
  - lia.
Defined.

End BetweenFoldsWitnesses.

(** ** The text of the confusion matrix *)

Section ReportText.
Import Train.

Lemma count_newlines_append s t :
  count_newlines (String.append s t) = (count_newlines s + count_newlines t)%nat.
Proof.
  induction s as [|c s IH]; [done|].
  change (String.append (String c s) t) with (String c (String.append s t)).
  cbn [count_newlines]. rewrite IH. lia.
Qed.

Lemma count_newlines_rep s n :
  count_newlines s = 0%nat -> count_newlines (string_rep s n) = 0%nat.
Proof.
  intros Hs. induction n as [|n IH]; [done|].
  cbn [string_rep]. rewrite count_newlines_append. lia.
Qed.

Lemma count_newlines_uint (d : Decimal.uint) :
  count_newlines (NilEmpty.string_of_uint d) = 0%nat.
Proof. induction d; cbn [NilEmpty.string_of_uint count_newlines]; done. Qed.

Lemma count_newlines_str_of_int n : count_newlines (str_of_int n) = 0%nat.
Proof.
  unfold str_of_int, NilZero.string_of_int.
  destruct (Z.to_int n) as [d|d]; unfold NilZero.string_of_uint.
  - destruct d; apply (count_newlines_uint (_ _)) || done.
  - cbn [count_newlines]. destruct d; apply (count_newlines_uint (_ _)) || done.
Qed.

Lemma count_newlines_fmt_4d n : count_newlines (fmt_4d n) = 0%nat.
Proof.
  unfold fmt_4d. rewrite count_newlines_append, count_newlines_str_of_int.
  by rewrite count_newlines_rep.
Qed.

Lemma count_newlines_concat_fmt_4d l :
  count_newlines (concat_strings (map fmt_4d l)) = 0%nat.
Proof.
  induction l as [|n l IH]; [done|].
  cbn [map concat_strings fold_right].
  rewrite count_newlines_append, count_newlines_fmt_4d. exact IH.
Qed.

Lemma count_newlines_rows (f : nat -> Z) cf :
  count_newlines
    (concat_strings
       (imap (fun idx i =>
                String.append (fmt_3d_bar (f idx))
                  (String.append (concat_strings (map fmt_4d i)) nl)) cf))
  = length cf.
Proof.
  revert f. induction cf as [|row cf IH]; intros f; [done|].
  rewrite imap_cons. cbn [concat_strings fold_right length].
  rewrite !count_newlines_append, count_newlines_concat_fmt_4d.
  unfold fmt_3d_bar at 1. rewrite !count_newlines_append.
  rewrite count_newlines_str_of_int, count_newlines_rep by done.
  change (count_newlines "| ") with 0%nat. change (count_newlines nl) with 1%nat.
  specialize (IH (f ∘ S)). unfold concat_strings in IH.
  unfold compose in IH. cbn [Nat.add]. f_equal. exact IH.
Qed.

(** X22: the text [str_cf] builds for a confusion matrix has two header
    lines and then one line per row of the matrix, whatever the entries
    are: no number is printed with a line end in it. *)
Theorem str_cf_lines (cf : list (list Z)) :
  count_newlines (str_cf cf) = (2 + length cf)%nat.
Proof.
  unfold str_cf. rewrite !count_newlines_append.
  rewrite (count_newlines_rows Z.of_nat), count_newlines_concat_fmt_4d.
  rewrite count_newlines_rep by done.
  change (count_newlines "     ") with 0%nat.
  change (count_newlines nl) with 1%nat.
  change (count_newlines "    ") with 0%nat. lia.
Qed.

End ReportText.

(** ** The metric: when the score is zero *)

Section MetricZero.
Import Metric.

Lemma prf_divide_pos n d : 0 < n <= d -> (0 < prf_divide n d)%Q.
Proof.
  intros Hn. unfold prf_divide.
  destruct (Z.eqb_spec d 0) as [->|Hd]; [lia|].
  apply Qlt_shift_div_l.
  - replace 0%Q with (inject_Z 0) by done. rewrite <- Zlt_Qlt. lia.
  - rewrite Qmult_0_l. replace 0%Q with (inject_Z 0) by done.
    rewrite <- Zlt_Qlt. lia.
Qed.

Lemma prf_divide_zero d : (prf_divide 0 d == 0)%Q.
Proof.
  unfold prf_divide. destruct (d =? 0); [done|].
  unfold Qdiv. change (inject_Z 0) with 0%Q. apply Qmult_0_l.
Qed.

(** The harmonic-mean step is zero exactly when there is no true
    positive. *)
Lemma fscore_zero_iff tp pred true :
  0 <= tp <= pred -> tp <= true ->
  let P := prf_divide tp pred in
  let R := prf_divide tp true in
  ((1 + 1) * P * R / (if Qeq_bool (P + R) 0 then 1 else P + R) == 0)%Q
  <-> tp = 0.
Proof.
  intros Hp Ht P R. split.
  - intros Hv. destruct (decide (tp = 0)) as [|Hne]; [done|]. exfalso.
    assert (HP : (0 < P)%Q) by (apply prf_divide_pos; lia).
    assert (HR : (0 < R)%Q) by (apply prf_divide_pos; lia).
    assert (HPR : (0 < P * R)%Q) by (by apply Qmult_lt_0_compat).
    destruct (Qeq_bool (P + R) 0) eqn:E.
    + apply Qeq_bool_iff in E. Lqa.lra.
    + assert (Hpos : (0 < (1 + 1) * P * R / (P + R))%Q).
      { apply Qlt_shift_div_l; Lqa.lra. }
      Lqa.lra.
  - intros ->.
    assert (HP : (P == 0)%Q) by apply prf_divide_zero.
    assert (HR : (R == 0)%Q) by apply prf_divide_zero.
    destruct (Qeq_bool (P + R) 0) eqn:E.
    + rewrite HP. field.
    + apply Qeq_bool_neq in E. exfalso. apply E. Lqa.lra.
Qed.

Lemma sum_over_zero cs : sum_over (fun _ => 0) cs = 0.
Proof. induction cs as [|c cs IH]; cbn [sum_over fold_right]; [done|]. exact IH. Qed.

Lemma sum_over_tp_indicator t p cs :
  NoDup cs ->
  sum_over (fun c => if (t =? c) && (p =? c) then 1 else 0) cs
  = if (t =? p) && bool_decide (t ∈ cs) then 1 else 0.
Proof.
  intros Hnd. destruct (Z.eqb_spec t p) as [<-|Hne]; cbn [andb].
  - rewrite <- (sum_over_indicator t cs Hnd). apply sum_over_ext.
    intros c. rewrite (Z.eqb_sym t c). by destruct (c =? t).
  - transitivity (sum_over (fun _ => 0) cs); [|apply sum_over_zero].
    apply sum_over_ext. intros c. cbv beta.
    destruct (Z.eqb_spec t c) as [<-|_]; [|done].
    destruct (Z.eqb_spec p t) as [Ep|_]; [congruence | done].
Qed.

(** The true positives of all classes, counted pair by pair. *)
Lemma sum_over_tp_sum y_true y_pred cs :
  NoDup cs ->
  sum_over (fun c => tp_sum c y_true y_pred) cs
  = count (fun '(t, p) => (t =? p) && bool_decide (t ∈ cs)) (combine y_true y_pred).
Proof.
  intros Hnd. unfold tp_sum.
  induction (combine y_true y_pred) as [|[t p] ex IH]; cbn [count].
  - apply sum_over_zero.
  - rewrite sum_over_plus, IH. by rewrite sum_over_tp_indicator.
Qed.

Lemma f1_score_micro_zero_iff y_true y_pred ls v :
  f1_score_micro y_true y_pred ls = Ok v ->
  (v == 0)%Q <-> sum_over (fun c => tp_sum c y_true y_pred) ls = 0.
Proof.
  unfold f1_score_micro. destruct (negb _); [done|]. intros [= <-].
  apply fscore_zero_iff.
  - split.
    + apply sum_over_nonneg. intros c. apply count_nonneg.
    + apply sum_over_le. intros c. apply tp_sum_le_pred.
  - apply sum_over_le. intros c. apply tp_sum_le_true.
Qed.

(** X23: the score is 0 exactly when no relation is predicted right: no
    position holds the same relation class in the predictions and in the
    labels.  Agreeing on [no_relation] does not count. *)
Theorem klue_re_micro_f1_zero_iff preds labels v :
  klue_re_micro_f1 preds labels = Ok v ->
  (v == 0)%Q
  <-> existsb (fun '(l, p) => (l =? p) && bool_decide (l ∈ relation_classes))
        (combine labels preds) = false.
Proof.
  rewrite klue_re_micro_f1_unfold.
  destruct (f1_score_micro labels preds relation_classes) as [f|] eqn:E; [|done].
  cbn [mbind result_bind]. intros [= <-].
  pose proof (f1_score_micro_zero_iff _ _ _ _ E) as Hz.
  rewrite (sum_over_tp_sum _ _ _ relation_classes_NoDup) in Hz.
  rewrite <- count_pos_existsb.
  pose proof (count_nonneg
                (fun '(l, p) => (l =? p) && bool_decide (l ∈ relation_classes))
                (combine labels preds)) as Hn.
  rewrite Z.ltb_ge. split.
  - intros H. assert (Hf : (f == 0)%Q) by Lqa.lra.
    apply Hz in Hf. lia.
  - intros H. assert (Hf : (f == 0)%Q) by (apply Hz; lia). Lqa.lra.
Qed.

End MetricZero.

Lemma klue_re_micro_f1_zero_iff_witness :
  Metric.klue_re_micro_f1 [1; 0; 2] [1; 2; 2] = Ok (4800 # 60) /\
  ((4800 # 60 == 0)%Q
   <-> existsb (fun '(l, p) =>
                  (l =? p) && bool_decide (l ∈ Metric.relation_classes))
         (combine [1; 2; 2] [1; 0; 2]) = false).
Proof.
  assert (H : Metric.klue_re_micro_f1 [1; 0; 2] [1; 2; 2] = Ok (4800 # 60)).
  { vm_compute. reflexivity. }
  split; [exact H|].
  exact (klue_re_micro_f1_zero_iff _ _ _ H).
Defined.

(** ** Inference runs that complete *)

Section InferenceCompletes.
Context {T : Type} {ops : TensorOps T} {am : ArgMax T} {net : Network T}.
Import Inference.

(** X24: when [main] of the inference script completes.  It returns a
    table, with one row for each of the 7765 accumulator rows, whenever
    the configuration file holds its six keys with a model case of
    ['automodel'] or ['electra'], an integer fold count and a string model
    name; the selected checkpoint of every fold is on disk; the batch size
    is positive; the test set has exactly 7765 rows (so the drawn example
    index is in range); the networks emit 30 logits; and the label table
    covers the predicted classes. *)
Theorem main_completes (a : args) (env : environment) cfg tok k ws s :
  (forall w tt b x, length (logits_of w tt b x) = ACC_COLS) ->
  load_run_config (env_fs env) (model_dir a) = Ok cfg ->
  (model_case cfg = JStr "automodel" /\ tok = AutoTokenizer) \/
  (model_case cfg = JStr "electra" /\ tok = ElectraTokenizer) ->
  0 <= data_idx env
    < Z.of_nat (length (load_test_dataset env tok (token_type cfg) (sep_type cfg))) ->
  py_int (kfold_splits cfg) = Ok k ->
  Forall2 (fun f w => load_model (env_fs env) (model_dir a) (select_model a)
                        cfg f = Ok w) (py_range k) ws ->
  0 < batch_size a ->
  model_type cfg = JStr s ->
  length (load_test_dataset env tok (token_type cfg) (sep_type cfg)) = ACC_ROWS ->
  (forall row, length row = ACC_COLS ->
     is_Some (dict_num_to_label env !! argmax_row (softmax_row row))) ->
  exists out, main a env = Ok out /\ length out = ACC_ROWS.
Proof.
  intros Hw Hcfg Hcase Hidx Hk Hws Hbs Hs Hlen Hdict.
  destruct (predict_Ok a env cfg tok k ws s Hw Hidx Hk Hws Hbs Hs Hlen Hdict)
    as [out Hout].
  exists out. split.
  - unfold main. rewrite Hcfg. cbn [mbind result_bind].
    destruct Hcase as [[-> ->]|[-> ->]]; exact Hout.
  - destruct (predict_rows a env cfg tok out Hw Hout)
      as (k' & ws' & _ & _ & _ & Hrows & _).
    by rewrite Hrows.
Qed.

End InferenceCompletes.

Section InferenceCompletesWitness.
Import Inference RealTensor Demo.

Lemma main_completes_witness :
  exists out, main demo_args (demo_env ACC_ROWS) = Ok out /\ length out = ACC_ROWS.
Proof.
  apply (main_completes demo_args (demo_env ACC_ROWS) demo_cfg AutoTokenizer 2
           [1; 2] "klue/roberta-large").
  - exact demo_width.
  - exact demo_load_config.
  - left. split; reflexivity.
  - cbn [load_test_dataset demo_env data_idx]. rewrite length_map, length_seq.
    unfold ACC_ROWS. lia.
  - reflexivity.
  - exact demo_checkpoints.
  - reflexivity.
  - reflexivity.
  - cbn [load_test_dataset demo_env]. by rewrite length_map, length_seq.
  - exact demo_labels.
Defined.

End InferenceCompletesWitness.

(** ** The k-fold trainer: configuration, reports, checkpoints, folds *)

Section TrainRunFrames.
Context {T : Type} {am : ArgMax T} {net : Network T} {fw : Framework T}.
Import Train.

(** *** The frames of a run, fold by fold *)

Lemma for_each_run_fold_frames (P : Z -> fold_data -> locals -> Prop)
    (a : args) (env : environment) fl c c' :
  (forall c0 j fd c1, run_fold a env c0 (j, fd) = Ok c1 ->
     exists fr, c_frames c1 = c_frames c0 ++ [fr] /\ P j fd fr) ->
  for_each (run_fold a env) fl c = Ok c' ->
  exists frs, c_frames c' = c_frames c ++ frs /\
    Forall2 (fun fold fr => P fold.1 fold.2 fr) fl frs.
Proof.
  intros Hfold. revert c. induction fl as [|[j fd] fl IH]; intros c.
  - cbn [for_each]. intros [= <-]. exists [].
    split; [by rewrite app_nil_r | constructor].
  - cbn [for_each].
    destruct (run_fold a env c (j, fd)) as [c1|] eqn:E; [|done].
    cbn [mbind result_bind]. intros Hrest.
    destruct (Hfold c j fd c1 E) as (fr & Hfr & HP).
    destruct (IH c1 Hrest) as (frs & Hfrs & Hall).
    exists (fr :: frs). split.
    + rewrite Hfrs, Hfr, <- app_assoc. done.
    + by constructor.
Qed.

(** What holds of the frame of every fold holds of every frame a run
    ends with, for the fold of the same index. *)
Lemma train_frames (P : Z -> fold_data -> locals -> Prop)
    (a : args) (env : environment) c :
  (forall c0 j fd c1, run_fold a env c0 (j, fd) = Ok c1 ->
     exists fr, c_frames c1 = c_frames c0 ++ [fr] /\ P j fd fr) ->
  train a env = Ok c ->
  forall i fr, c_frames c !! i = Some fr ->
    exists fd, folds env !! i = Some fd /\ P (Z.of_nat i) fd fr.
Proof.
  intros Hfold Hrun i fr Hi.
  apply train_Ok_loop in Hrun as [_ Hloop].
  destruct (for_each_run_fold_frames P a env _ _ _ Hfold Hloop)
    as (frs & Hfrs & Hall).
  cbn [c_frames app] in Hfrs. rewrite Hfrs in Hi.
  destruct (Forall2_lookup_r _ _ _ _ _ Hall Hi) as ([j fd] & Hfoldi & HP).
  unfold enumerate in Hfoldi. rewrite list_lookup_imap in Hfoldi.
  destruct (folds env !! i) as [fd'|] eqn:E; [|done].
  cbn in Hfoldi. injection Hfoldi as <- <-.
  exists fd'. done.
Qed.

(** *** The text of a checkpoint *)

Lemma evaluate_loop_lists (a : args) (model : weights) batches tl tf ll pl tl' tf' ll' pl' :
  for_each
    (fun '(eval_total_loss, eval_total_f1, label_list, pred_list) batch =>
       let labels := map label_of batch in
       let pred := forward model true batch in
       let preds := map argmax_row pred in
       f1 ← Metric.klue_re_micro_f1 preds labels;
       let loss := create_criterion (criterion a) pred labels in
       Ok ((eval_total_loss + loss)%Q, (eval_total_f1 + f1)%Q,
           label_list ++ labels, pred_list ++ preds))
    batches (tl, tf, ll, pl) = Ok (tl', tf', ll', pl') ->
  ll' = ll ++ eval_label_list batches /\
  pl' = pl ++ eval_pred_list model batches.
Proof.
  revert tl tf ll pl. induction batches as [|b batches IH]; intros tl tf ll pl; simpl.
  - intros [= _ _ <- <-]. unfold eval_label_list, eval_pred_list. simpl.
    by rewrite !app_nil_r.
  - destruct (Metric.klue_re_micro_f1 _ _) as [f1|] eqn:Hf1; [|done].
    cbn [mbind result_bind]. intros Hrest.
    destruct (IH _ _ _ _ Hrest) as [-> ->].
    unfold eval_label_list, eval_pred_list. cbn [map concat].
    by rewrite !app_assoc.
Qed.

Lemma evaluate_lists (a : args) (model : weights) batches loss f1 ll pl :
  evaluate a model batches = Ok (loss, f1, ll, pl) ->
  ll = eval_label_list batches /\ pl = eval_pred_list model batches.
Proof.
  unfold evaluate.
  destruct (for_each _ batches _) as [[[[tl tf] ll'] pl']|] eqn:E; [|done].
  cbn [mbind result_bind].
  destruct (length batches) as [|n] eqn:Hn; [done|]. intros [= _ _ <- <-].
  by apply evaluate_loop_lists in E as [-> ->].
Qed.

(** An evaluation checkpoint logs one evaluation, whose text is the entry
    of the step for the current weights and the pass it draws. *)
Lemma eval_checkpoint_report (a : args) j vl st st' :
  eval_checkpoint a j vl st = Ok st' ->
  exists ev,
    eval_log (frame st') = eval_log (frame st) ++ [ev] /\
    ev_step ev = total_idx (frame st) /\
    ev_report ev
    = checkpoint_entry (total_idx (frame st)) (net_model (frame st))
        (fst (iterate vl (rng st))).
Proof.
  unfold eval_checkpoint.
  destruct (iterate vl (rng st)) as [valid_batches r].
  destruct (evaluate a (net_model (frame st)) valid_batches)
    as [[[[loss f1] ll] pl]|] eqn:Hev; [|done].
  cbn [mbind result_bind]. intros [= <-]. cbn [frame eval_log fst].
  apply evaluate_lists in Hev as [-> ->].
  eexists. split; [reflexivity|]. split; reflexivity.
Qed.

Lemma train_batch_logged (a : args) j vl st b st' :
  train_batch a j vl st b = Ok st' ->
  Forall (checkpoint_of vl) (eval_log (frame st)) ->
  Forall (checkpoint_of vl) (eval_log (frame st')).
Proof.
  unfold train_batch. cbv zeta.
  destruct (optim_step (criterion a) (net_model (frame st)) (optim (frame st))
              b (rng st)) as [[model' optim'] r].
  destruct (logging_step a =? 0); [done|].
  destruct (eval_step a =? 0); [done|].
  destruct ((total_idx (frame st) + 1) mod eval_step a =? 0).
  - intros Hst' Hlog.
    destruct (eval_checkpoint_report a j vl _ st' Hst') as (ev & -> & Hstep & Hrep).
    cbn [frame eval_log total_idx net_model rng] in *.
    apply Forall_app. split; [done|]. constructor; [|constructor].
    exists model', r. by rewrite Hstep.
  - by intros [= <-].
Qed.

Lemma train_epoch_logged (a : args) j tl vl st st' :
  train_epoch a j tl vl st = Ok st' ->
  Forall (checkpoint_of vl) (eval_log (frame st)) ->
  Forall (checkpoint_of vl) (eval_log (frame st')).
Proof.
  unfold train_epoch. destruct (iterate tl (rng st)) as [batches r].
  destruct (for_each _ batches _) as [st1|] eqn:E; [|done].
  cbn [mbind result_bind]. intros Hend Hst.
  destruct (epoch_end_frame a st1 st' Hend) as [_ ->].
  revert E.
  apply (for_each_invariant (fun s => Forall (checkpoint_of vl) (eval_log (frame s))));
    [|done].
  intros s x s' Hs Hb. by eapply train_batch_logged.
Qed.

Lemma fold_start_valid_loader (a : args) (env : environment) j fd c tl vl st0 :
  fold_start a env j fd c = Ok (tl, vl, st0) ->
  make_loader (valid_dataset fd) (valid_batch_size a) false = Ok vl.
Proof.
  unfold fold_start.
  destruct (_ && _); [|done]. cbn [mbind result_bind].
  destruct (from_pretrained _ _ _ _) as [model0 r].
  destruct (make_loader (train_dataset fd) _ _) as [tl'|]; [|done].
  cbn [mbind result_bind].
  destruct (make_loader (valid_dataset fd) _ _) as [vl'|]; [|done].
  cbn [mbind result_bind]. by intros [= _ <- _].
Qed.

(** The log of a completed fold: one evaluation at every multiple of
    [eval_step] among the [epochs * len(train_loader)] steps, each with the
    entry of its checkpoint over the fold's validation loader. *)
Lemma run_fold_log (a : args) (env : environment) c j fd c' :
  run_fold a env c (j, fd) = Ok c' ->
  exists fr,
    c_frames c' = c_frames c ++ [fr] /\
    (exists vl,
       make_loader (valid_dataset fd) (valid_batch_size a) false = Ok vl /\
       Forall (checkpoint_of vl) (eval_log fr)) /\
    total_idx fr = Z.max 0 (epochs a) * steps_per_epoch a fd /\
    map ev_step (eval_log fr)
    = eval_steps (eval_step a) (Z.to_nat (total_idx fr)).
Proof.
  unfold run_fold.
  destruct (fold_start a env j fd c) as [[[tl vl] st0]|] eqn:Hstart; [|done].
  cbn [mbind result_bind].
  destruct (for_each _ (epoch_list a) st0) as [st|] eqn:Hrun; [|done].
  cbn [mbind result_bind]. intros [= <-]. cbn [c_frames].
  destruct (fold_start_inv a env j fd c tl vl st0 Hstart)
    as (_ & Hlog0 & _ & _ & Ht0 & _).
  pose proof (fold_start_valid_loader a env j fd c tl vl st0 Hstart) as Hvl.
  destruct (fold_start_loaders a env j fd c tl vl st0 Hstart)
    as (Hbs & _ & -> & _).
  assert (H0 : on_schedule a (frame st0)).
  { unfold on_schedule. rewrite Ht0, Hlog0. done. }
  destruct (epochs_schedule a j _ _ vl (epoch_list a) st0 st Hrun H0) as [[_ Hlog] Ht].
  exists (frame st). split; [done|]. split; [|split; [|done]].
  - exists vl. split; [done|]. revert Hrun.
    apply (for_each_invariant (fun s => Forall (checkpoint_of vl) (eval_log (frame s)))).
    + intros s x s' Hs Hb. by eapply train_epoch_logged.
    + rewrite Hlog0. constructor.
  - rewrite Ht, Ht0. unfold epoch_list, steps_per_epoch.
    rewrite length_map, length_seq.
    replace (S (Z.to_nat (batch_size a) - 1)) with (Z.to_nat (batch_size a)) by lia.
    replace (Z.of_nat (Z.to_nat (epochs a))) with (Z.max 0 (epochs a)) by lia.
    lia.
Qed.

(** A positive interval no longer than the fold is met at least once. *)
Lemma eval_steps_nonempty es n :
  0 < es <= Z.of_nat n -> eval_steps es n <> [].
Proof.
  intros Hes E.
  assert (Hin : es ∈ eval_steps es n).
  { unfold eval_steps. apply list_elem_of_filter. split.
    - apply Z_mod_same_full.
    - apply list_elem_of_fmap. exists (Z.to_nat es). split; [lia|].
      apply elem_of_seq. lia. }
  rewrite E in Hin. by apply elem_of_nil in Hin.
Qed.

(** *** The trackers inside a fold *)

Lemma train_batch_tracked (a : args) j vl st b st' :
  train_batch a j vl st b = Ok st' ->
  tracked (frame st) -> tracked (frame st').
Proof.
  unfold train_batch. cbv zeta.
  destruct (optim_step (criterion a) (net_model (frame st)) (optim (frame st))
              b (rng st)) as [[model' optim'] r].
  destruct (logging_step a =? 0); [done|].
  destruct (eval_step a =? 0); [done|].
  destruct ((total_idx (frame st) + 1) mod eval_step a =? 0).
  - intros Hst' Htr. by apply (eval_checkpoint_tracked a j vl _ st' Hst').
  - by intros [= <-].
Qed.

Lemma epoch_end_tracked (a : args) st st' :
  epoch_end a st = Ok st' -> tracked (frame st) -> tracked (frame st').
Proof.
  unfold epoch_end.
  destruct (String.eqb (lr_scheduler a) "reduceLR").
  - destruct (scheduler (frame st)); [|done].
    destruct (eval_average_loss st); [|done].
    by intros [= <-].
  - destruct (String.eqb (lr_scheduler a) "StepLR").
    + destruct (scheduler (frame st)); [|done]. by intros [= <-].
    + by intros [= <-].
Qed.

(** In every state of a fold the trackers are in step with the log. *)
Lemma in_fold_tracked (a : args) (env : environment) j fd c vl st :
  in_fold a env j fd c vl st -> tracked (frame st).
Proof.
  induction 1 as [tl vl st0 Hstart | vl st r _ IH | vl st b st' _ IH Hb
                 | vl st st' _ IH He].
  - by destruct (fold_start_inv a env j fd c tl vl st0 Hstart) as [Htr _].
  - exact IH.
  - by eapply train_batch_tracked.
  - by eapply epoch_end_tracked.
Qed.

(** In every state of a fold the report and the best checkpoints are in
    step with the log. *)
Lemma in_fold_files (a : args) (env : environment) j fd c vl st :
  in_fold a env j fd c vl st ->
  exists fs0, tracked (frame st) /\ fold_files a j fs0 (fs st) (frame st).
Proof.
  induction 1 as [tl vl st0 Hstart | vl st r _ IH | vl st b st' _ IH Hb
                 | vl st st' _ IH He].
  - destruct (fold_start_inv a env j fd c tl vl st0 Hstart)
      as (Htr0 & Hlog0 & Hbl0 & Hbf0 & _ & _ & Hrep0 & _).
    exists (fs st0). split; [exact Htr0|].
    unfold fold_files, report_text. rewrite Hlog0, Hbl0, Hbf0.
    repeat split; done.
  - exact IH.
  - destruct IH as (fs0 & IH). exists fs0. by eapply train_batch_inv.
  - destruct IH as (fs0 & IH). exists fs0. by eapply epoch_end_inv.
Qed.


End TrainRunFrames.
(** ** Claims on the k-fold trainer *)

Section ConfigClaim.
Context {T : Type} {am : ArgMax T} {net : Network T} {fw : Framework T}.
Import Train.

Lemma config_keys (a : args) key v :
  model_config_parameters a !! key = Some v ->
  key ∈ ["model"; "seed"; "epochs"; "batch_size"; "token_type"; "optimizer";
         "lr"; "val_ratio"; "sep_type"; "kfold_splits"]%string.
Proof.
  unfold model_config_parameters. intros H.
  apply elem_of_list_to_map_2 in H.
  repeat (apply elem_of_cons in H as [[= -> _]|H];
          [repeat ((by left) || right)|]).
  by apply elem_of_nil in H.
Qed.


End ConfigClaim.

Section ReportClaim.
Context {T : Type} {am : ArgMax T} {net : Network T} {fw : Framework T}.
Import Train.

(** C4, as amended: the report of a fold is emptied once, by the
    [open(..., 'w')] at the start of the fold, and from then on only
    appended to.  At the end of a completed run the report of every fold
    holds exactly the entries of the fold's evaluation checkpoints, in
    order and whatever the file held before the run: one entry for every
    multiple of [eval_step] among the fold's [epochs * len(train_loader)]
    steps, made of the banner of the step, the confusion matrix of the
    labels and predictions of a pass over the fold's validation loader as
    [str_cf] prints it, their classification report, and a line end. *)
Theorem C4_report_emptied_then_appended (a : args) (env : environment) c :
  train a env = Ok c ->
  forall i fr, c_frames c !! i = Some fr ->
    exists fd vl,
      folds env !! i = Some fd /\
      make_loader (valid_dataset fd) (valid_batch_size a) false = Ok vl /\
      c_fs c !! report_path a (Z.of_nat i)
      = Some (TextFile (concat_strings (map ev_report (eval_log fr)))) /\
      map ev_step (eval_log fr)
      = eval_steps (eval_step a)
          (Z.to_nat (Z.max 0 (epochs a) * steps_per_epoch a fd)) /\
      Forall (fun ev => exists model r,
                ev_report ev
                = checkpoint_entry (ev_step ev) model (fst (iterate vl r)))
        (eval_log fr).
Proof.
  intros Hrun i fr Hi.
  destruct (train_outcome a env c Hrun) as (_ & _ & Hframes & _).
  destruct (Hframes i fr Hi) as (_ & Hrep & _).
  destruct (train_frames
              (fun _ fd fr =>
                 (exists vl,
                    make_loader (valid_dataset fd) (valid_batch_size a) false = Ok vl /\
                    Forall (checkpoint_of vl) (eval_log fr)) /\
                 total_idx fr = Z.max 0 (epochs a) * steps_per_epoch a fd /\
                 map ev_step (eval_log fr)
                 = eval_steps (eval_step a) (Z.to_nat (total_idx fr)))
              a env c (run_fold_log a env) Hrun i fr Hi)
    as (fd & Hfd & (vl & Hvl & Hlog) & Ht & Hsteps).
  exists fd, vl. split; [done|]. split; [done|]. split; [exact Hrep|].
  split; [by rewrite <- Ht | exact Hlog].
Qed.

End ReportClaim.

Section ReportSteps.
Context {T : Type} {am : ArgMax T} {net : Network T} {fw : Framework T}.
Import Train.

(** X2: the report of a fold, batch by batch.  In every state of a fold
    the report file holds the entries of the evaluations logged so far.  A
    batch whose step is a multiple of [eval_step] appends one entry and
    keeps what the file holds: the banner of the step, the confusion
    matrix, printed by [str_cf], of the validation labels against the
    predictions of the weights the optimizer step has just produced, over
    the pass the validation loader draws, then the classification report
    of the same lists and a line end.  Any other batch leaves the report
    as it is. *)
Theorem checkpoint_appends_entry (a : args) (env : environment) j fd c vl st b st' :
  in_fold a env j fd c vl st ->
  train_batch a j vl st b = Ok st' ->
  fs st !! report_path a j = Some (TextFile (report_text (frame st))) /\
  fs st' !! report_path a j = Some (TextFile (report_text (frame st'))) /\
  report_text (frame st')
  = (if (total_idx (frame st) + 1) mod eval_step a =? 0
     then String.append (report_text (frame st))
            (checkpoint_entry (total_idx (frame st) + 1) (net_model (frame st'))
               (fst (iterate vl
                       (snd (optim_step (criterion a) (net_model (frame st))
                               (optim (frame st)) b (rng st))))))
     else report_text (frame st)).
Proof.
  intros Hin Hb.
  destruct (in_fold_files _ _ _ _ _ _ _ Hin) as (fs0 & _ & Hrep & _).
  destruct (in_fold_files _ _ _ _ _ _ _ (in_fold_batch _ _ _ _ _ _ _ _ _ Hin Hb))
    as (fs1 & _ & Hrep' & _).
  split; [exact Hrep|]. split; [exact Hrep'|].
  revert Hb. unfold train_batch. cbv zeta.
  destruct (optim_step (criterion a) (net_model (frame st)) (optim (frame st))
              b (rng st)) as [[model' optim'] r].
  destruct (logging_step a =? 0); [done|].
  destruct (eval_step a =? 0); [done|].
  destruct ((total_idx (frame st) + 1) mod eval_step a =? 0).
  - intros Hst'.
    destruct (eval_checkpoint_inv a j vl _ st' Hst')
      as (loss & f1 & cf & cr & _ & _ & Hfr & _).
    destruct (eval_checkpoint_report a j vl _ st' Hst') as (ev & Hlog & _ & Hev).
    cbv zeta in Hfr. cbn [frame eval_log total_idx net_model rng] in Hfr, Hlog, Hev.
    unfold report_text. rewrite Hlog, map_app. cbn [map].
    rewrite concat_strings_snoc, Hev, Hfr. reflexivity.
  - by intros [= <-].
Qed.

End ReportSteps.

Section TrackerClaim.
Context {T : Type} {am : ArgMax T} {net : Network T} {fw : Framework T}.
Import Train.

(** C6, as amended: a batch of the training loop whose step is a multiple
    of [eval_step] runs one evaluation checkpoint, and no other batch
    touches the trackers or the files.  The checkpoint writes the
    [best_loss] checkpoint, with the current weights, exactly when the
    aggregated loss is strictly below [best_eval_loss], and the [best_f1]
    checkpoint exactly when the aggregated F1 is strictly above
    [best_eval_f1]; the tracker takes the new value in that case and keeps
    its own otherwise.  After the checkpoint the trackers are the running
    extrema started from the sentinels: [best_eval_f1] is the largest F1
    of the fold's evaluations so far, [best_eval_loss] is their smallest
    loss once one loss is at most [1e9], and is [1e9] as long as every
    loss is larger. *)
Theorem C6_checkpoint_and_trackers (a : args) (env : environment) j fd c vl st b st' :
  in_fold a env j fd c vl st ->
  train_batch a j vl st b = Ok st' ->
  let fr := frame st in
  let fr' := frame st' in
  if (total_idx fr + 1) mod eval_step a =? 0 then
    exists ev,
      ev_step ev = total_idx fr + 1 /\
      eval_log fr' = eval_log fr ++ [ev] /\
      eval_average_loss st' = Some (ev_loss ev) /\
      fs st' !! best_loss_path a j
      = (if Qltb (ev_loss ev) (best_eval_loss fr)
         then Some (ModelDir (net_model fr'))
         else fs st !! best_loss_path a j) /\
      fs st' !! best_f1_path a j
      = (if Qltb (best_eval_f1 fr) (ev_f1 ev)
         then Some (ModelDir (net_model fr'))
         else fs st !! best_f1_path a j) /\
      best_eval_loss fr'
      = (if Qltb (ev_loss ev) (best_eval_loss fr) then ev_loss ev
         else best_eval_loss fr) /\
      best_eval_f1 fr'
      = (if Qltb (best_eval_f1 fr) (ev_f1 ev) then ev_f1 ev
         else best_eval_f1 fr) /\
      best_eval_loss fr' = fold_left Qmin (losses fr') 1000000000%Q /\
      best_eval_f1 fr' = fold_left Qmax (f1s fr') 0%Q /\
      highest (best_eval_f1 fr') (f1s fr') /\
      ((exists l, l ∈ losses fr' /\ (l <= 1000000000)%Q) ->
         lowest (best_eval_loss fr') (losses fr')) /\
      ((forall l, l ∈ losses fr' -> (1000000000 < l)%Q) ->
         best_eval_loss fr' = 1000000000%Q)
  else
    eval_log fr' = eval_log fr /\
    best_eval_loss fr' = best_eval_loss fr /\
    best_eval_f1 fr' = best_eval_f1 fr /\
    fs st' = fs st.
Proof.
  intros Hin Hb. cbv zeta.
  pose proof (train_batch_tracked a j vl st b st' Hb (in_fold_tracked _ _ _ _ _ _ _ Hin))
    as Htr'.
  revert Hb. unfold train_batch. cbv zeta.
  destruct (optim_step (criterion a) (net_model (frame st)) (optim (frame st))
              b (rng st)) as [[model' optim'] r].
  destruct (logging_step a =? 0); [done|].
  destruct (eval_step a =? 0); [done|].
  destruct ((total_idx (frame st) + 1) mod eval_step a =? 0).
  - intros Hst'.
    destruct (eval_checkpoint_inv a j vl _ st' Hst')
      as (loss & f1 & cf & cr & Hf1 & Hloss & Hfr & _ & Hbl & Hbf & _).
    cbv zeta in Hfr, Hbl, Hbf.
    cbn [frame fs net_model best_eval_loss best_eval_f1 total_idx eval_log]
      in Hfr, Hbl, Hbf.
    rewrite Hfr in Htr'. rewrite Hfr.
    cbn [net_model best_eval_loss best_eval_f1 eval_log].
    eexists {| ev_step := total_idx (frame st) + 1; ev_loss := loss; ev_f1 := f1;
               ev_report := _ |}.
    cbn [ev_step ev_loss ev_f1].
    split; [reflexivity|]. split; [reflexivity|]. split; [exact Hloss|].
    split; [exact Hbl|]. split; [exact Hbf|].
    split; [by rewrite tracker_min|]. split; [by rewrite tracker_max|].
    pose proof Htr' as (Hl & Hf & _).
    cbn [best_eval_loss best_eval_f1] in Hl, Hf.
    split; [exact Hl|]. split; [exact Hf|].
    split.
    { apply (tracked_highest _ Htr'). unfold f1s. cbn [eval_log].
      rewrite map_app. intros E. by apply app_eq_nil in E as [_ E]. }
    split.
    { apply (tracked_lowest _ Htr'). }
    intros Hbig. rewrite Hl. by apply fold_left_Qmin_init.
  - by intros [= <-].
Qed.

End TrackerClaim.

Section DirectoryClaim.
Context {T : Type} {am : ArgMax T} {net : Network T} {fw : Framework T}.
Import Train.

(** C7, as amended: after a completed run in which every fold is long
    enough for an evaluation ([0 < eval_step <= epochs *
    len(train_loader)]), there is one frame per fold, and every fold has
    evaluated, has its directory and has a report that is not empty.  Its
    [best_loss] checkpoint is there when one of its evaluations had a loss
    below [1e9], and its [best_f1] checkpoint when one had an F1 above 0.
    A fold whose evaluations all score 0 writes no [best_f1] checkpoint
    (the path is as before the run), and one whose losses are all [1e9] or
    more writes no [best_loss] checkpoint. *)
Theorem C7_fold_directories (a : args) (env : environment) c :
  train a env = Ok c ->
  Forall (fun fd => 0 < eval_step a <= Z.max 0 (epochs a) * steps_per_epoch a fd)
    (folds env) ->
  length (c_frames c) = length (folds env) /\
  forall i fr, c_frames c !! i = Some fr ->
    eval_log fr <> [] /\
    is_Some (c_fs c !! k_save_path a (Z.of_nat i)) /\
    (exists text, c_fs c !! report_path a (Z.of_nat i) = Some (TextFile text) /\
                  text <> EmptyString) /\
    ((exists ev, ev ∈ eval_log fr /\ (ev_loss ev < 1000000000)%Q) ->
       exists w, c_fs c !! best_loss_path a (Z.of_nat i) = Some (ModelDir w)) /\
    ((exists ev, ev ∈ eval_log fr /\ (0 < ev_f1 ev)%Q) ->
       exists w, c_fs c !! best_f1_path a (Z.of_nat i) = Some (ModelDir w)) /\
    ((forall ev, ev ∈ eval_log fr -> (1000000000 <= ev_loss ev)%Q) ->
       c_fs c !! best_loss_path a (Z.of_nat i)
       = init_fs env !! best_loss_path a (Z.of_nat i)) /\
    ((forall ev, ev ∈ eval_log fr -> (ev_f1 ev <= 0)%Q) ->
       c_fs c !! best_f1_path a (Z.of_nat i)
       = init_fs env !! best_f1_path a (Z.of_nat i)).
Proof.
  intros Hrun Hlong.
  destruct (train_outcome a env c Hrun) as (Hlen & _ & Hframes & _).
  split; [done|]. intros i fr Hi.
  destruct (Hframes i fr Hi) as (Htr & Hrep & Hents & Hl1 & Hl0 & Hf1 & Hf0 & Hdir).
  destruct (train_frames
              (fun _ fd fr =>
                 (exists vl,
                    make_loader (valid_dataset fd) (valid_batch_size a) false = Ok vl /\
                    Forall (checkpoint_of vl) (eval_log fr)) /\
                 total_idx fr = Z.max 0 (epochs a) * steps_per_epoch a fd /\
                 map ev_step (eval_log fr)
                 = eval_steps (eval_step a) (Z.to_nat (total_idx fr)))
              a env c (run_fold_log a env) Hrun i fr Hi)
    as (fd & Hfd & _ & Ht & Hsteps).
  assert (Hne : eval_log fr <> []).
  { intros E. rewrite E in Hsteps. cbn [map] in Hsteps. symmetry in Hsteps.
    revert Hsteps. apply eval_steps_nonempty.
    rewrite Forall_forall in Hlong.
    specialize (Hlong fd (list_elem_of_lookup_2 _ _ _ Hfd)). lia. }
  split; [exact Hne|]. split; [exact Hdir|]. split.
  { exists (report_text fr). split; [exact Hrep|].
    unfold report_text. destruct (eval_log fr) as [|ev log]; [done|].
    cbn [map concat_strings fold_right].
    apply append_nonempty_l.
    apply Forall_cons in Hents as [(cf & cr & ->) _].
    apply report_entry_nonempty. }
  split; [intros Hev; apply Hl1; by apply tracked_loss_improved|].
  split; [intros Hev; apply Hf1; by apply tracked_f1_improved|].
  split.
  { intros Hall. apply Hl0.
    destruct (Qltb (best_eval_loss fr) 1000000000) eqn:E; [|done].
    apply tracked_loss_improved in E as (ev & Hev & Hlt); [|done].
    specialize (Hall ev Hev). Lqa.lra. }
  intros Hall. apply Hf0.
  destruct (Qltb 0 (best_eval_f1 fr)) eqn:E; [|done].
  apply tracked_f1_improved in E as (ev & Hev & Hlt); [|done].
  specialize (Hall ev Hev). Lqa.lra.
Qed.

End DirectoryClaim.

Section FreshFoldClaim.
Context {T : Type} {am : ArgMax T} {net : Network T} {fw : Framework T}.
Import Train.

Lemma fold_start_carry (a : args) (env : environment) j fd c1 c2 :
  c_fs c1 = c_fs c2 -> c_rng c1 = c_rng c2 ->
  c_eval_average_loss c1 = c_eval_average_loss c2 ->
  fold_start a env j fd c1 = fold_start a env j fd c2.
Proof. intros Hfs Hrng Hel. unfold fold_start. by rewrite Hfs, Hrng, Hel. Qed.

Lemma fold_start_fresh (a : args) (env : environment) j fd c tl vl st0 :
  fold_start a env j fd c = Ok (tl, vl, st0) ->
  best_eval_loss (frame st0) = 1000000000%Q /\
  best_eval_f1 (frame st0) = 0%Q /\
  total_idx (frame st0) = 0 /\
  net_model (frame st0)
  = fst (from_pretrained (model a) (dropout a) (token_type a) (c_rng c)) /\
  optim (frame st0)
  = (if String.eqb (optimizer a) "AdamP"
     then AdamP (net_model (frame st0)) (lr a)
     else AdamW (net_model (frame st0)) (lr a)).
Proof.
  unfold fold_start.
  destruct ((0 <=? data_idx env) && _); [|done]. cbn [mbind result_bind].
  destruct (from_pretrained _ _ _ _) as [model0 r] eqn:Hfp.
  destruct (make_loader (train_dataset fd) _ _); [|done]. cbn [mbind result_bind].
  destruct (make_loader (valid_dataset fd) _ _); [|done]. cbn [mbind result_bind].
  intros [= <- <- <-]. cbn [frame best_eval_loss best_eval_f1 total_idx
                            net_model optim fst].
  repeat (split; [done|]).
  destruct (String.eqb_spec (optimizer a) "AdamW") as [->|_]; [done|].
  by destruct (String.eqb (optimizer a) "AdamP").
Qed.


End FreshFoldClaim.

Section PlateauClaim.
Context {T : Type} {am : ArgMax T} {net : Network T} {fw : Framework T}.
Import Train.

Lemma steps_per_epoch_mono (a : args) (fd1 fd2 : fold_data) :
  (length (train_dataset fd1) <= length (train_dataset fd2))%nat ->
  steps_per_epoch a fd1 <= steps_per_epoch a fd2.
Proof.
  intros Hle. unfold steps_per_epoch.
  apply inj_le. by apply Nat.Div0.div_le_mono.
Qed.

(** C10: with the plateau scheduler ([reduceLR]), a fold whose epoch has
    fewer optimizer steps than [eval_step] runs no evaluation in its first
    epoch, the counter starting at 0; entered with [eval_average_loss]
    never assigned, it aborts at the end of that epoch with
    [UnboundLocalError] on [scheduler.step(eval_average_loss)].  In a run
    the variable is unassigned at such a fold: the training sets of the
    folds before it are no larger ([StratifiedKFold] hands out the larger
    validation sets first), so the first fold is too short as well and the
    run aborts there, at the end of its first epoch. *)
Theorem C10_reduceLR_unbound_eval_average_loss (a : args) (env : environment)
    (j : nat) fd :
  lr_scheduler a = "reduceLR"%string ->
  2 <= kfold_splits a -> 0 < epochs a -> logging_step a <> 0 ->
  0 < batch_size a -> 0 < valid_batch_size a ->
  folds env !! j = Some fd ->
  steps_per_epoch a fd < eval_step a ->
  (forall i fi, (i <= j)%nat -> folds env !! i = Some fi ->
     (length (train_dataset fi) <= length (train_dataset fd))%nat) ->
  (forall fd0, folds env !! 0%nat = Some fd0 ->
     0 <= data_idx env < Z.of_nat (length (train_dataset fd0))) ->
  train a env = Raise (UnboundLocalError "eval_average_loss") /\
  forall c,
    c_eval_average_loss c = None ->
    0 <= data_idx env < Z.of_nat (length (train_dataset fd)) ->
    run_fold a env c (Z.of_nat j, fd)
    = Raise (UnboundLocalError "eval_average_loss").
Proof.
  intros Hsch Hk Hep Hlog Hbs Hvbs Hj Hsteps Hmono Hidx. split.
  - destruct (folds env) as [|fd0 rest] eqn:Hfolds; [done|].
    apply (train_first_fold_raises a env fd0 rest); [done..|].
    apply run_fold_unbound; try done.
    + by apply Hidx.
    + eapply Z.le_lt_trans; [|exact Hsteps].
      apply steps_per_epoch_mono. apply (Hmono 0%nat); [lia | done].
  - intros c Hnone Hidxj. by apply run_fold_unbound.
Qed.

End PlateauClaim.
(** ** The claims on the trainer, on simulated runs *)

Section TrainClaimWitnesses.
Import Train Sim SimRuns.



Lemma C4_witness :
  train (am := rational_argmax) (fw := sim_framework learner 1)
    (sim_args "StepLR" 2) (sim_env learner (ten_rows learner) ∅)
  = Ok (sim_outcome learner 1 (sim_args "StepLR" 2)
          (sim_env learner (ten_rows learner) ∅)) /\
  forall (i : nat) (fr : @locals Q (sim_network learner) (sim_framework learner 1)),
    c_frames (sim_outcome learner 1 (sim_args "StepLR" 2)
                (sim_env learner (ten_rows learner) ∅)) !! i = Some fr ->
    exists (fd : @fold_data Q (sim_network learner))
           (vl : @loader Q (sim_network learner)),
      ten_rows learner !! i = Some fd /\
      make_loader (valid_dataset fd) 64 false = Ok vl /\
      c_fs (sim_outcome learner 1 (sim_args "StepLR" 2)
              (sim_env learner (ten_rows learner) ∅))
        !! report_path (sim_args "StepLR" 2) (Z.of_nat i)
      = Some (TextFile (concat_strings (map ev_report (eval_log fr)))) /\
      map ev_step (eval_log fr)
      = eval_steps 2
          (Z.to_nat (Z.max 0 1 * steps_per_epoch (sim_args "StepLR" 2) fd)) /\
      Forall (fun ev => exists model r,
                ev_report ev
                = checkpoint_entry (am := rational_argmax)
                    (fw := sim_framework learner 1)
                    (ev_step ev) model
                    (fst (iterate (fw := sim_framework learner 1) vl r)))
        (eval_log fr).
Proof.
  assert (Hrun : train (am := rational_argmax) (fw := sim_framework learner 1)
            (sim_args "StepLR" 2) (sim_env learner (ten_rows learner) ∅)
          = Ok (sim_outcome learner 1 (sim_args "StepLR" 2)
                  (sim_env learner (ten_rows learner) ∅))).
  { apply sim_outcome_Ok. vm_compute. reflexivity. }
  split; [exact Hrun|].
  exact (C4_report_emptied_then_appended (fw := sim_framework learner 1) _ _ _ Hrun).
Defined.

(** C4 as stated fails: the report of fold 0 holds a text before this
    completed run, and at the end of the run the file is there, is not
    empty, and holds that text nowhere. *)
Lemma C4_truncation_counterexample :
  used_fs !! ["results"; "0"; "report.txt"]%string = Some (TextFile "earlier run") /\
  train (am := rational_argmax) (fw := sim_framework learner 1)
    (sim_args "StepLR" 1) (sim_env learner (ten_rows learner) used_fs)
  = Ok (sim_outcome learner 1 (sim_args "StepLR" 1)
          (sim_env learner (ten_rows learner) used_fs)) /\
  exists text,
    c_fs (sim_outcome learner 1 (sim_args "StepLR" 1)
            (sim_env learner (ten_rows learner) used_fs))
      !! ["results"; "0"; "report.txt"]%string
    = Some (TextFile text) /\
    text <> EmptyString /\
    String.index 0 "earlier run" text = None.
Proof.
  split; [reflexivity|].
  split; [apply sim_outcome_Ok; vm_compute; reflexivity|].
  eexists. split; [vm_compute; reflexivity|].
  split; [discriminate | vm_compute; reflexivity].
Qed.

Lemma checkpoint_appends_entry_witness :
  exists vl st0 st',
    in_fold (fw := sim_framework learner 1) (sim_args "StepLR" 1)
      (sim_env learner (ten_rows learner) ∅) 0 (five_rows learner)
      (no_carry learner 1) vl st0 /\
    train_batch (sim_args "StepLR" 1) 0 vl st0 [1] = Ok st' /\
    fs st' !! report_path (sim_args "StepLR" 1) 0
    = Some (TextFile (report_text (frame st'))) /\
    report_text (frame st')
    = String.append (report_text (frame st0))
        (checkpoint_entry (am := rational_argmax) (fw := sim_framework learner 1)
           1 (net_model (frame st'))
           (fst (iterate vl
                   (snd (optim_step (Framework := sim_framework learner 1)
                           "cross_entropy" (net_model (frame st0))
                           (optim (frame st0)) [1] (rng st0)))))).
Proof.
  destruct (fold_start_Ok (fw := sim_framework learner 1) (sim_args "StepLR" 1)
              (sim_env learner (ten_rows learner) ∅) 0 (five_rows learner)
              (no_carry learner 1))
    as (st0 & Hstart & Ht0 & _).
  { simpl. lia. }
  { reflexivity. }
  { reflexivity. }
  apply (in_fold_start (fw := sim_framework learner 1)) in Hstart.
  destruct (train_batch_Ok (fw := sim_framework learner 1) (sim_args "StepLR" 1) 0
              [1; 2; 1; 2; 1] (Z.to_nat 64 - 1) st0 [1])
    as (st' & Hb & _).
  { discriminate. }
  { discriminate. }
  { discriminate. }
  eexists _, st0, st'. split; [exact Hstart|]. split; [exact Hb|].
  destruct (checkpoint_appends_entry _ _ _ _ _ _ _ _ _ Hstart Hb) as (_ & Hrep & Htext).
  split; [exact Hrep|].
  rewrite Ht0 in Htext. exact Htext.
Defined.

Lemma C6_witness :
  exists vl st0 st',
    in_fold (fw := sim_framework learner 1) (sim_args "StepLR" 1)
      (sim_env learner (ten_rows learner) ∅) 0 (five_rows learner)
      (no_carry learner 1) vl st0 /\
    train_batch (sim_args "StepLR" 1) 0 vl st0 [1] = Ok st' /\
    exists ev,
      eval_log (frame st') = eval_log (frame st0) ++ [ev] /\
      fs st' !! best_loss_path (sim_args "StepLR" 1) 0
      = (if Qltb (ev_loss ev) (best_eval_loss (frame st0))
         then Some (ModelDir (net_model (frame st')))
         else fs st0 !! best_loss_path (sim_args "StepLR" 1) 0) /\
      best_eval_loss (frame st') = fold_left Qmin (losses (frame st')) 1000000000%Q /\
      best_eval_f1 (frame st') = fold_left Qmax (f1s (frame st')) 0%Q.
Proof.
  destruct (fold_start_Ok (fw := sim_framework learner 1) (sim_args "StepLR" 1)
              (sim_env learner (ten_rows learner) ∅) 0 (five_rows learner)
              (no_carry learner 1))
    as (st0 & Hstart & Ht0 & _).
  { simpl. lia. }
  { reflexivity. }
  { reflexivity. }
  apply (in_fold_start (fw := sim_framework learner 1)) in Hstart.
  destruct (train_batch_Ok (fw := sim_framework learner 1) (sim_args "StepLR" 1) 0
              [1; 2; 1; 2; 1] (Z.to_nat 64 - 1) st0 [1])
    as (st' & Hb & _).
  { discriminate. }
  { discriminate. }
  { discriminate. }
  eexists _, st0, st'. split; [exact Hstart|]. split; [exact Hb|].
  pose proof (C6_checkpoint_and_trackers _ _ _ _ _ _ _ _ _ Hstart Hb) as H.
  cbv zeta in H. rewrite Ht0 in H.
  change ((0 + 1) mod eval_step (sim_args "StepLR" 1) =? 0) with true in H.
  cbv iota in H.
  destruct H as (ev & _ & Hlog & _ & Hbl & _ & _ & _ & Hmin & Hmax & _).
  exists ev. split; [exact Hlog|]. split; [exact Hbl|]. split; [exact Hmin | exact Hmax].
Defined.

(** C6 as stated fails: every evaluation of fold 0 of this completed run
    has a loss above [1e9]; the loss tracker of the fold is below each of
    them, so it is not their minimum, and no [best_loss] checkpoint has
    been written. *)
Lemma C6_sentinel_counterexample :
  train (am := rational_argmax) (fw := sim_framework learner 2000000000)
    (sim_args "StepLR" 1) (sim_env learner (ten_rows learner) ∅)
  = Ok (sim_outcome learner 2000000000 (sim_args "StepLR" 1)
          (sim_env learner (ten_rows learner) ∅)) /\
  exists fr,
    c_frames (sim_outcome learner 2000000000 (sim_args "StepLR" 1)
                (sim_env learner (ten_rows learner) ∅)) !! 0%nat = Some fr /\
    length (losses fr) = 5%nat /\
    forallb (Qltb (best_eval_loss fr)) (losses fr) = true /\
    c_fs (sim_outcome learner 2000000000 (sim_args "StepLR" 1)
            (sim_env learner (ten_rows learner) ∅))
      !! best_loss_path (sim_args "StepLR" 1) 0
    = None.
Proof.
  split; [apply sim_outcome_Ok; vm_compute; reflexivity|].
  eexists. split; [vm_compute; reflexivity|].
  split; [reflexivity|]. split; vm_compute; reflexivity.
Qed.

Lemma C7_witness :
  train (am := rational_argmax) (fw := sim_framework learner 1)
    (sim_args "StepLR" 1) (sim_env learner (ten_rows learner) ∅)
  = Ok (sim_outcome learner 1 (sim_args "StepLR" 1)
          (sim_env learner (ten_rows learner) ∅)) /\
  Forall (fun fd => 0 < 1 <= Z.max 0 1 * steps_per_epoch (sim_args "StepLR" 1) fd)
    (ten_rows learner) /\
  length (c_frames (sim_outcome learner 1 (sim_args "StepLR" 1)
                      (sim_env learner (ten_rows learner) ∅))) = 2%nat /\
  (forall i fr,
     c_frames (sim_outcome learner 1 (sim_args "StepLR" 1)
                 (sim_env learner (ten_rows learner) ∅)) !! i = Some fr ->
     eval_log fr <> [] /\
     exists text,
       c_fs (sim_outcome learner 1 (sim_args "StepLR" 1)
               (sim_env learner (ten_rows learner) ∅))
         !! report_path (sim_args "StepLR" 1) (Z.of_nat i)
       = Some (TextFile text) /\
       text <> EmptyString) /\
  c_fs (sim_outcome learner 1 (sim_args "StepLR" 1)
          (sim_env learner (ten_rows learner) ∅))
    !! ["results"; "0"; "best_loss"]%string = Some (ModelDir 1) /\
  c_fs (sim_outcome learner 1 (sim_args "StepLR" 1)
          (sim_env learner (ten_rows learner) ∅))
    !! ["results"; "0"; "best_f1"]%string = Some (ModelDir 1) /\
  c_fs (sim_outcome learner 1 (sim_args "StepLR" 1)
          (sim_env learner (ten_rows learner) ∅))
    !! ["results"; "1"; "best_loss"]%string = Some (ModelDir 1) /\
  c_fs (sim_outcome learner 1 (sim_args "StepLR" 1)
          (sim_env learner (ten_rows learner) ∅))
    !! ["results"; "1"; "best_f1"]%string = Some (ModelDir 1).
Proof.
  assert (Hrun : train (am := rational_argmax) (fw := sim_framework learner 1)
            (sim_args "StepLR" 1) (sim_env learner (ten_rows learner) ∅)
          = Ok (sim_outcome learner 1 (sim_args "StepLR" 1)
                  (sim_env learner (ten_rows learner) ∅))).
  { apply sim_outcome_Ok. vm_compute. reflexivity. }
  assert (Hlong : Forall (fun fd => 0 < 1 <= Z.max 0 1
                                    * steps_per_epoch (sim_args "StepLR" 1) fd)
                    (ten_rows learner)).
  { unfold ten_rows.
    repeat (constructor; [vm_compute; split; [reflexivity | discriminate]|]).
    constructor. }
  split; [exact Hrun|]. split; [exact Hlong|].
  destruct (C7_fold_directories (fw := sim_framework learner 1)
              (sim_args "StepLR" 1) (sim_env learner (ten_rows learner) ∅) _
              Hrun Hlong) as [Hlen Hfolds].
  split; [exact Hlen|]. split.
  { intros i fr Hi. destruct (Hfolds i fr Hi) as (Hne & _ & Hrep & _).
    split; [exact Hne | exact Hrep]. }
  split; [vm_compute; reflexivity|].
  split; [vm_compute; reflexivity|].
  split; vm_compute; reflexivity.
Defined.

(** C7 as stated fails: in this completed run of the scenario, with a
    network that predicts [no_relation] throughout, every fold evaluates
    after every step and gets its [best_loss] checkpoint, and neither fold
    directory holds a [best_f1] checkpoint. *)
Lemma C7_best_f1_counterexample :
  train (am := rational_argmax) (fw := sim_framework idler 1)
    (sim_args "StepLR" 1) (sim_env idler (ten_rows idler) ∅)
  = Ok (sim_outcome idler 1 (sim_args "StepLR" 1)
          (sim_env idler (ten_rows idler) ∅)) /\
  map (fun fr => length (eval_log fr))
    (c_frames (sim_outcome idler 1 (sim_args "StepLR" 1)
                 (sim_env idler (ten_rows idler) ∅)))
  = [5; 5]%nat /\
  c_fs (sim_outcome idler 1 (sim_args "StepLR" 1)
          (sim_env idler (ten_rows idler) ∅))
    !! ["results"; "0"; "best_loss"]%string = Some (ModelDir 1) /\
  c_fs (sim_outcome idler 1 (sim_args "StepLR" 1)
          (sim_env idler (ten_rows idler) ∅))
    !! ["results"; "0"; "best_f1"]%string = None /\
  c_fs (sim_outcome idler 1 (sim_args "StepLR" 1)
          (sim_env idler (ten_rows idler) ∅))
    !! ["results"; "1"; "best_f1"]%string = None.
Proof.
  split; [apply sim_outcome_Ok; vm_compute; reflexivity|].
  split; [vm_compute; reflexivity|].
  split; [vm_compute; reflexivity|].
  split; vm_compute; reflexivity.
Qed.


Lemma C10_witness :
  train (am := rational_argmax) (fw := sim_framework learner 1)
    (sim_args "reduceLR" 100) (sim_env learner (ten_rows learner) ∅)
  = Raise (UnboundLocalError "eval_average_loss") /\
  run_fold (am := rational_argmax) (fw := sim_framework learner 1)
    (sim_args "reduceLR" 100) (sim_env learner (ten_rows learner) ∅)
    (no_carry learner 1) (1, five_rows learner)
  = Raise (UnboundLocalError "eval_average_loss").
Proof.
  destruct (C10_reduceLR_unbound_eval_average_loss (fw := sim_framework learner 1)
              (sim_args "reduceLR" 100) (sim_env learner (ten_rows learner) ∅)
              1 (five_rows learner)) as [Hrun Hfold].
  - reflexivity.
  - simpl. lia.
  - simpl. lia.
  - simpl. lia.
  - simpl. lia.
  - simpl. lia.
  - reflexivity.
  - vm_compute. reflexivity.
  - intros [|[|i]] fi Hi Hfi; [| |lia]; injection Hfi as <-; simpl; lia.
  - intros fd0 Hfd0. injection Hfd0 as <-. simpl. lia.
  - split; [exact Hrun|]. apply Hfold; [reflexivity | simpl; lia].
Defined.

End TrainClaimWitnesses.
(** ** Claim on the metric engine *)

Section MetricClaim.
Import Metric.

Lemma sum_over_fp_indicator p l cs :
  NoDup cs ->
  sum_over (fun c => if (p =? c) && negb (l =? c) then 1 else 0) cs
  = if negb (p =? l) && bool_decide (p ∈ cs) then 1 else 0.
Proof.
  intros Hnd. destruct (Z.eqb_spec p l) as [<-|Hne]; cbn [negb andb].
  - transitivity (sum_over (fun _ => 0) cs); [|apply sum_over_zero].
    apply sum_over_ext. intros c. by destruct (p =? c).
  - rewrite <- (sum_over_indicator p cs Hnd). apply sum_over_ext. intros c.
    rewrite (Z.eqb_sym c p).
    destruct (Z.eqb_spec p c) as [<-|_]; [|done].
    destruct (Z.eqb_spec l p) as [E|_]; [congruence | done].
Qed.

(** What one more example adds to the counts summed over a list of
    classes. *)
Lemma sum_over_class_counts_cons cs p l ex :
  NoDup cs ->
  sum_over (fun c => class_tp c ((p, l) :: ex)) cs
  = sum_over (fun c => class_tp c ex) cs
    + (if (p =? l) && bool_decide (p ∈ cs) then 1 else 0) /\
  sum_over (fun c => class_fp c ((p, l) :: ex)) cs
  = sum_over (fun c => class_fp c ex) cs
    + (if negb (p =? l) && bool_decide (p ∈ cs) then 1 else 0) /\
  sum_over (fun c => class_fn c ((p, l) :: ex)) cs
  = sum_over (fun c => class_fn c ex) cs
    + (if negb (p =? l) && bool_decide (l ∈ cs) then 1 else 0).
Proof.
  intros Hnd. split; [|split].
  - rewrite (sum_over_ext (fun c => class_tp c ((p, l) :: ex))
               (fun c => (if (p =? c) && (l =? c) then 1 else 0) + class_tp c ex))
      by (intros; reflexivity).
    rewrite sum_over_plus, sum_over_tp_indicator by done. lia.
  - rewrite (sum_over_ext (fun c => class_fp c ((p, l) :: ex))
               (fun c => (if (p =? c) && negb (l =? c) then 1 else 0) + class_fp c ex))
      by (intros; reflexivity).
    rewrite sum_over_plus, sum_over_fp_indicator by done. lia.
  - rewrite (sum_over_ext (fun c => class_fn c ((p, l) :: ex))
               (fun c => (if (l =? c) && negb (p =? c) then 1 else 0) + class_fn c ex))
      by (intros; reflexivity).
    rewrite sum_over_plus, sum_over_fp_indicator by done.
    rewrite (Z.eqb_sym l p). lia.
Qed.


End MetricClaim.

